(** * httpproxy/sso: the session-cookie gateway, embedded and verified

    A shallow embedding of package [sso] of Akagi201/httpproxy
    ([sso/sso.go]) and of the authorization closure of its [main].

    Go strings are byte strings, so they are Rocq [string]s; a [[]byte]
    is a list of 8-bit integers carried in [Z]; a slice keeps its
    backing array, so that length and capacity differ as they do in Go;
    a call returns a value, an error or panics ([result]); the handlers
    thread an explicit [ResponseWriter] value and end in an [Outcome].

    The parts of the Go standard library the handlers call are written
    out so that the handlers can be evaluated: crypto/aes (FIPS 197),
    crypto/cipher's GCM (SP 800-38D), encoding/base64, the encoder of
    encoding/json for the structs of the package, and the helpers of
    net/http, among them the printing of a cookie into its [Set-Cookie]
    line with the date format of package time.  The decoder of
    encoding/json, the printing of a URL, the HTTP client, the random
    source, the clock and the template loader are inputs: the two
    decoders and [URL.String] are type classes, the others the fields of
    [World].
    [ServeHTTP] (the HTTPS redirect, the mux, the CSRF wrapper) and the
    static and favicon handlers are not embedded. *)

From Stdlib Require Import ZArith List String Ascii Lia Bool.
From stdpp Require Import gmap strings list fin_maps pretty.
Import ListNotations.
Local Open Scope Z_scope.

(** ** Bytes, errors and results *)

Abbreviation bytes := (list Z).

(** The error values the package can observe.  [Error_] is Go's
    [err.Error()]. *)
Inductive error : Type :=
  | ErrNoCookie                      (* http.ErrNoCookie *)
  | CorruptInputError (off : Z)      (* base64.CorruptInputError *)
  | KeySizeError (k : Z)             (* aes.KeySizeError *)
  | errOpen                          (* crypto/cipher: authentication failed *)
  | ErrUnexpectedEOF                 (* io.ErrUnexpectedEOF *)
  | EOF                              (* io.EOF *)
  | errorString (s : string)         (* errors.New(s) *)
  | jsonError (s : string)           (* an error of encoding/json *)
  | clientError (s : string).        (* an error of http.Client.Do / http.NewRequest *)

#[global] Instance error_eq_dec : EqDecision error.
Proof. solve_decision. Defined.

(** A Go call either returns a value, returns a non-nil error, or panics
    at run time (a slice expression out of range, a nonce of the wrong
    size handed to GCM). *)
Inductive result (A : Type) : Type :=
  | Ok (a : A)
  | Err (e : error)
  | Panic (msg : string).
Arguments Ok {A} a.
Arguments Err {A} e.
Arguments Panic {A} msg.

#[global] Instance result_bind : MBind result := fun A B k r =>
  match r with
  | Ok a => k a
  | Err e => Err e
  | Panic m => Panic m
  end.

Definition xor_bytes (a b : bytes) : bytes := zip_with Z.lxor a b.

Definition byte_of_ascii (c : ascii) : Z := Z.of_N (N_of_ascii c).
Definition ascii_of_byte (b : Z) : ascii := ascii_of_N (Z.to_N b).

(** [[]byte(s)] and [string(b)]. *)
Definition bytes_of_string (s : string) : bytes :=
  map byte_of_ascii (list_ascii_of_string s).
Definition string_of_bytes (b : bytes) : string :=
  string_of_list_ascii (map ascii_of_byte b).

(** The double quote and the line feed, as one-character strings. *)
Definition quote : string := String "034" "".
Definition newline : string := String "010" "".

(** ** crypto/aes: the block cipher (FIPS 197) *)

Module aes.

Definition BlockSize : Z := 16.

(** Multiplication by x in GF(2^8) modulo x^8+x^4+x^3+x+1. *)
Definition xtime (b : Z) : Z :=
  let d := Z.shiftl b 1 in
  if Z.testbit d 8 then Z.lxor (Z.land d 255) 27 else d.

Fixpoint gmul_aux (n : nat) (a b acc : Z) : Z :=
  match n with
  | O => acc
  | S n' =>
      gmul_aux n' (xtime a) (Z.shiftr b 1)
               (if Z.odd b then Z.lxor acc a else acc)
  end.

Definition gmul (a b : Z) : Z := gmul_aux 8 a b 0.

(** The multiplicative inverse, as the 254th power (0 maps to 0). *)
Definition ginv (a : Z) : Z :=
  let a2 := gmul a a in
  let a4 := gmul a2 a2 in
  let a8 := gmul a4 a4 in
  let a16 := gmul a8 a8 in
  let a32 := gmul a16 a16 in
  let a64 := gmul a32 a32 in
  let a128 := gmul a64 a64 in
  gmul a128 (gmul a64 (gmul a32 (gmul a16 (gmul a8 (gmul a4 a2))))).

Definition rotl8 (x : Z) (k : Z) : Z :=
  Z.land (Z.lor (Z.shiftl x k) (Z.shiftr x (8 - k))) 255.

Definition sbox_of (b : Z) : Z :=
  let x := ginv b in
  Z.lxor (Z.lxor (Z.lxor (Z.lxor (Z.lxor x (rotl8 x 1)) (rotl8 x 2))
                         (rotl8 x 3)) (rotl8 x 4)) 99.

(** [sbox0], the substitution table of the package. *)
Definition sbox0 : list Z :=
  Eval vm_compute in map (fun i => sbox_of (Z.of_nat i)) (seq 0 256).

Definition sbox (b : Z) : Z := nth (Z.to_nat b) sbox0 0.

(** [powx], the powers of x used as round constants. *)
Definition powx : list Z :=
  [1; 2; 4; 8; 16; 32; 64; 128; 27; 54; 108; 216; 171; 77; 154; 47].

(** 32-bit big-endian words. *)
Definition word_of_bytes (b0 b1 b2 b3 : Z) : Z :=
  Z.lor (Z.lor (Z.lor (Z.shiftl b0 24) (Z.shiftl b1 16)) (Z.shiftl b2 8)) b3.

Definition word_bytes (w : Z) : bytes :=
  [Z.land (Z.shiftr w 24) 255; Z.land (Z.shiftr w 16) 255;
   Z.land (Z.shiftr w 8) 255; Z.land w 255].

Definition subw (w : Z) : Z :=
  match word_bytes w with
  | [b0; b1; b2; b3] => word_of_bytes (sbox b0) (sbox b1) (sbox b2) (sbox b3)
  | _ => 0
  end.

Definition rotw (w : Z) : Z :=
  Z.land (Z.lor (Z.shiftl w 8) (Z.shiftr w 24)) 4294967295.

(** The first [nk] words of the schedule are the key itself. *)
Fixpoint key_words (key : bytes) : list Z :=
  match key with
  | b0 :: b1 :: b2 :: b3 :: rest => word_of_bytes b0 b1 b2 b3 :: key_words rest
  | _ => []
  end.

(** The loop of [expandKeyGo]: [todo] words are still to be produced,
    the next one has index [i]. *)
Fixpoint expand_loop (todo : nat) (nk i : nat) (enc : list Z) : list Z :=
  match todo with
  | O => enc
  | S todo' =>
      let t := nth (i - 1) enc 0 in
      let t :=
        if (i mod nk =? 0)%nat
        then Z.lxor (subw (rotw t)) (Z.shiftl (nth (i / nk - 1) powx 0) 24)
        else if ((6 <? nk) && (i mod nk =? 4))%nat then subw t
        else t in
      expand_loop todo' nk (S i) (enc ++ [Z.lxor (nth (i - nk) enc 0) t])
  end.

(** [expandKeyGo]: a schedule of [len(key)/4 + 7] round keys of four
    words each. *)
Definition expandKey (key : bytes) : list Z :=
  let nk := (length key / 4)%nat in
  expand_loop (length key + 28 - nk) nk nk (key_words key).

(** The state is the block in the order it is read: byte [r + 4*c] is
    row [r] of column [c]. *)
Definition at16 (st : bytes) (i : nat) : Z := nth i st 0.

Definition roundKey (enc : list Z) (r : nat) : bytes :=
  word_bytes (nth (4 * r) enc 0) ++ word_bytes (nth (4 * r + 1) enc 0) ++
  word_bytes (nth (4 * r + 2) enc 0) ++ word_bytes (nth (4 * r + 3) enc 0).

Definition addRoundKey (st rk : bytes) : bytes :=
  map (fun i => Z.lxor (at16 st i) (at16 rk i)) (seq 0 16).

Definition subBytes (st : bytes) : bytes := map sbox st.

Definition shiftRows (st : bytes) : bytes :=
  map (fun i => at16 st ((i mod 4 + 4 * ((i / 4 + i mod 4) mod 4)))%nat)
      (seq 0 16).

Definition mixColumn (a0 a1 a2 a3 : Z) : bytes :=
  [Z.lxor (Z.lxor (Z.lxor (gmul 2 a0) (gmul 3 a1)) a2) a3;
   Z.lxor (Z.lxor (Z.lxor a0 (gmul 2 a1)) (gmul 3 a2)) a3;
   Z.lxor (Z.lxor (Z.lxor a0 a1) (gmul 2 a2)) (gmul 3 a3);
   Z.lxor (Z.lxor (Z.lxor (gmul 3 a0) a1) a2) (gmul 2 a3)].

Definition mixColumns (st : bytes) : bytes :=
  flat_map (fun c => mixColumn (at16 st (4 * c)) (at16 st (4 * c + 1))
                               (at16 st (4 * c + 2)) (at16 st (4 * c + 3)))
           (seq 0 4).

Fixpoint middle_rounds (n : nat) (r : nat) (enc : list Z) (st : bytes) : bytes :=
  match n with
  | O => st
  | S n' =>
      middle_rounds n' (S r) enc
        (addRoundKey (mixColumns (shiftRows (subBytes st))) (roundKey enc r))
  end.

(** [encryptBlockGo]: first round key, [nr - 1] full rounds, last round
    without MixColumns. *)
Definition encryptBlock (enc : list Z) (src : bytes) : bytes :=
  let nr := (length enc / 4 - 1)%nat in
  let st := addRoundKey src (roundKey enc 0) in
  let st := middle_rounds (nr - 1) 1 enc st in
  addRoundKey (shiftRows (subBytes st)) (roundKey enc nr).

(** A [cipher.Block] made by this package: its encryption schedule. *)
Record Block : Type := mkBlock { enc : list Z }.

Definition Encrypt (c : Block) (src : bytes) : bytes :=
  encryptBlock (enc c) src.

(** [aes.NewCipher]: the key selects AES-128, AES-192 or AES-256; any
    other length is a [KeySizeError]. *)
Definition NewCipher (key : bytes) : result Block :=
  let k := Z.of_nat (length key) in
  if (k =? 16) || (k =? 24) || (k =? 32)
  then Ok (mkBlock (expandKey key))
  else Err (KeySizeError k).

End aes.

(** ** crypto/cipher: Galois counter mode over a 128-bit block (SP 800-38D) *)

Module cipher.

Definition gcmBlockSize : Z := 16.
Definition gcmTagSize : nat := 16.
Definition gcmStandardNonceSize : nat := 12.

(** Big-endian integers and their byte strings. *)
Definition be_int (b : bytes) : Z :=
  fold_left (fun acc x => Z.lor (Z.shiftl acc 8) x) b 0.

Definition be_bytes (n : nat) (z : Z) : bytes :=
  map (fun i => Z.land (Z.shiftr z (8 * Z.of_nat (n - 1 - i))) 255) (seq 0 n).

(** The reduction constant of GF(2^128): 11100001 followed by 120 zeros. *)
Definition gcmR : Z := Z.shiftl 225 120.

(** Multiplication in GF(2^128); bit 0 of a block is its most
    significant bit, so the bits of [x] are visited from bit 127 of the
    integer downwards. *)
Fixpoint gcm_mul_loop (n : nat) (x v z : Z) : Z :=
  match n with
  | O => z
  | S n' =>
      let z' := if Z.testbit x (Z.of_nat n') then Z.lxor z v else z in
      let v' := if Z.testbit v 0 then Z.lxor (Z.shiftr v 1) gcmR
                else Z.shiftr v 1 in
      gcm_mul_loop n' x v' z'
  end.

Definition gcm_mul (x y : Z) : Z := gcm_mul_loop 128 x y 0.

(** The 16-byte blocks of a byte string, the last one padded with zeros. *)
Fixpoint gcm_blocks (n : nat) (data : bytes) : list Z :=
  match n with
  | O => []
  | S n' =>
      let blk := take 16 data in
      be_int (blk ++ repeat 0 (16 - length blk)) :: gcm_blocks n' (drop 16 data)
  end.

Definition block_count (len : nat) : nat := ((len + 15) / 16)%nat.

Definition gcm_update (h : Z) (y : Z) (data : bytes) : Z :=
  fold_left (fun y x => gcm_mul (Z.lxor y x) h) 
            (gcm_blocks (block_count (length data)) data) y.

(** GHASH of the additional data and the ciphertext, closed by the
    block of their bit lengths. *)
Definition ghash (h : Z) (data ciphertext : bytes) : Z :=
  let y := gcm_update h 0 data in
  let y := gcm_update h y ciphertext in
  let lens := Z.lor (Z.shiftl (8 * Z.of_nat (length data)) 64)
                    (8 * Z.of_nat (length ciphertext)) in
  gcm_mul (Z.lxor y lens) h.

(** A GCM instance wrapping an AES block; the nonce is 12 bytes and the
    tag 16 bytes ([NewGCM]'s standard sizes). *)
Record AEAD : Type := mkGCM { block : aes.Block }.

Definition NonceSize (g : AEAD) : nat := gcmStandardNonceSize.

Definition NewGCM (b : aes.Block) : result AEAD :=
  if aes.BlockSize =? gcmBlockSize then Ok (mkGCM b)
  else Err (errorString "cipher: NewGCM requires 128-bit block cipher").

(** The counter block for a 12-byte nonce: the nonce followed by a
    32-bit big-endian counter, which wraps around ([gcmInc32]). *)
Definition counter_block (nonce : bytes) (c : Z) : bytes :=
  nonce ++ be_bytes 4 (c mod 4294967296).

(** The key stream of [n] blocks starting at counter value [c]. *)
Fixpoint counter_stream (g : AEAD) (nonce : bytes) (n : nat) (c : Z) : bytes :=
  match n with
  | O => []
  | S n' =>
      aes.Encrypt (block g) (counter_block nonce c)
        ++ counter_stream g nonce n' (c + 1)
  end.

(** [counterCrypt]: XOR with the key stream; counter 1 is kept for the
    tag mask, the data starts at counter 2. *)
Definition counterCrypt (g : AEAD) (nonce : bytes) (data : bytes) : bytes :=
  xor_bytes data (counter_stream g nonce (block_count (length data)) 2).

(** [auth]: the tag of a ciphertext under a nonce. *)
Definition auth (g : AEAD) (nonce data ciphertext : bytes) : bytes :=
  let h := be_int (aes.Encrypt (block g) (repeat 0 16%nat)) in
  let tagMask := aes.Encrypt (block g) (counter_block nonce 1) in
  xor_bytes (be_bytes 16 (ghash h data ciphertext)) tagMask.

(** [Seal(nil, nonce, plaintext, data)]: ciphertext followed by the tag. *)
Definition Seal (g : AEAD) (nonce plaintext data : bytes) : result bytes :=
  if negb (length nonce =? NonceSize g)%nat
  then Panic "crypto/cipher: incorrect nonce length given to GCM"
  else
    let out := counterCrypt g nonce plaintext in
    Ok (out ++ auth g nonce data out).

(** [subtle.ConstantTimeCompare(x, y) == 1]. *)
Definition ConstantTimeCompare (x y : bytes) : bool :=
  bool_decide (x = y).

(** [Open(nil, nonce, ciphertext, data)]: the last 16 bytes are the
    tag; the plaintext is released only when the tag verifies. *)
Definition Open (g : AEAD) (nonce ciphertext data : bytes) : result bytes :=
  if negb (length nonce =? NonceSize g)%nat
  then Panic "crypto/cipher: incorrect nonce length given to GCM"
  else if (length ciphertext <? gcmTagSize)%nat then Err errOpen
  else
    let tag := drop (length ciphertext - gcmTagSize) ciphertext in
    let ct := take (length ciphertext - gcmTagSize) ciphertext in
    let expectedTag := auth g nonce data ct in
    if ConstantTimeCompare expectedTag tag
    then Ok (counterCrypt g nonce ct)
    else Err errOpen.

End cipher.

(** ** Go slices

    A slice is a window on a backing array: [array] holds the elements
    from the start of the window to the end of the array, so its length
    is the capacity; [len] of them are in the window. *)

Record slice : Type := mkSlice { array : bytes; len : nat }.

Definition cap (s : slice) : nat := length (array s).
Definition slice_bytes (s : slice) : bytes := take (len s) (array s).

(** [s[:high]]: the bound is the capacity, not the length. *)
Definition slice_to (s : slice) (high : nat) : result slice :=
  if (cap s <? high)%nat
  then Panic "runtime error: slice bounds out of range"
  else Ok (mkSlice (array s) high).

(** [s[low:]]: the upper index defaults to [len(s)], so [low] must not
    exceed the length. *)
Definition slice_from (s : slice) (low : nat) : result slice :=
  if (len s <? low)%nat
  then Panic "runtime error: slice bounds out of range"
  else Ok (mkSlice (drop low (array s)) (len s - low)).

(** ** encoding/base64: [StdEncoding] *)

Module base64.

Definition encodeStd : string :=
  "ABCDEFGHIJKLMNOPQRSTUVWXYZabcdefghijklmnopqrstuvwxyz0123456789+/".

Definition StdPadding : Z := 61.

Definition encode (v : Z) : Z := nth (Z.to_nat v) (bytes_of_string encodeStd) 0.

(** [decodeMap]: the position of a character in the alphabet, 255 for
    a character outside it. *)
Definition decodeMap (c : Z) : Z :=
  match list_find (fun x => x = c) (bytes_of_string encodeStd) with
  | Some (i, _) => Z.of_nat i
  | None => 255
  end.

Fixpoint Encode (src : bytes) : bytes :=
  match src with
  | a :: b :: c :: rest =>
      let val := Z.lor (Z.lor (Z.shiftl a 16) (Z.shiftl b 8)) c in
      encode (Z.land (Z.shiftr val 18) 63) :: encode (Z.land (Z.shiftr val 12) 63)
        :: encode (Z.land (Z.shiftr val 6) 63) :: encode (Z.land val 63)
        :: Encode rest
  | [a; b] =>
      let val := Z.lor (Z.shiftl a 16) (Z.shiftl b 8) in
      [encode (Z.land (Z.shiftr val 18) 63); encode (Z.land (Z.shiftr val 12) 63);
       encode (Z.land (Z.shiftr val 6) 63); StdPadding]
  | [a] =>
      let val := Z.shiftl a 16 in
      [encode (Z.land (Z.shiftr val 18) 63); encode (Z.land (Z.shiftr val 12) 63);
       StdPadding; StdPadding]
  | [] => []
  end.

Definition EncodeToString (src : bytes) : string :=
  string_of_bytes (Encode src).

Definition is_newline (c : Z) : bool := (c =? 10) || (c =? 13).

Fixpoint skip_newlines (src : bytes) (si : Z) : bytes * Z :=
  match src with
  | c :: rest => if is_newline c then skip_newlines rest (si + 1) else (src, si)
  | [] => ([], si)
  end.

(** The bytes of a quantum of which [dlen] characters were read. *)
Definition quantum_bytes (dbuf : list Z) (dlen : nat) : bytes :=
  let val := Z.lor (Z.lor (Z.lor (Z.shiftl (nth 0 dbuf 0) 18)
                                 (Z.shiftl (nth 1 dbuf 0) 12))
                          (Z.shiftl (nth 2 dbuf 0) 6)) (nth 3 dbuf 0) in
  take (dlen - 1) [Z.land (Z.shiftr val 16) 255; Z.land (Z.shiftr val 8) 255;
                   Z.land val 255].

(** After the padding of the last quantum only newlines may follow. *)
Definition finish_padded (rest : bytes) (si : Z) (dbuf : list Z) (dst : bytes)
  : bytes * option error :=
  let '(rest', si') := skip_newlines rest si in
  (dst ++ quantum_bytes dbuf (length dbuf),
   match rest' with
   | [] => None
   | _ => Some (CorruptInputError si')
   end).

(** [Decode], one character at a time: [si] is the index of the next
    character of the source, [dbuf] the characters of the current
    quantum, [dst] the bytes written so far. *)
Fixpoint decode_loop (src : bytes) (si : Z) (dbuf : list Z) (dst : bytes)
  : bytes * option error :=
  match src with
  | [] =>
      match dbuf with
      | [] => (dst, None)
      | _ => (dst, Some (CorruptInputError (si - Z.of_nat (length dbuf))))
      end
  | c :: rest =>
      let si := si + 1 in
      let out := decodeMap c in
      if negb (out =? 255) then
        let dbuf := dbuf ++ [out] in
        if (length dbuf =? 4)%nat
        then decode_loop rest si [] (dst ++ quantum_bytes dbuf 4)
        else decode_loop rest si dbuf dst
      else if is_newline c then decode_loop rest si dbuf dst
      else if negb (c =? StdPadding) then (dst, Some (CorruptInputError (si - 1)))
      else
        match length dbuf with
        | 0%nat | 1%nat => (dst, Some (CorruptInputError (si - 1)))
        | 2%nat =>
            let '(rest', si') := skip_newlines rest si in
            match rest' with
            | [] => (dst, Some (CorruptInputError si'))
            | c' :: rest'' =>
                if negb (c' =? StdPadding)
                then (dst, Some (CorruptInputError (si' - 1)))
                else finish_padded rest'' (si' + 1) dbuf dst
            end
        | _ => finish_padded rest si dbuf dst
        end
  end.

Definition DecodedLen (n : nat) : nat := (n / 4 * 3)%nat.

(** [DecodeString]: the buffer is made for [DecodedLen(len(s))] bytes
    and the result is its first [n] bytes, so the capacity of the
    result is that of the buffer. *)
Definition DecodeString (s : string) : slice * option error :=
  let dlen := DecodedLen (String.length s) in
  let '(dst, err) := decode_loop (bytes_of_string s) 0 [] [] in
  (mkSlice (dst ++ repeat 0 (dlen - length dst)) (length dst), err).

End base64.

(** ** io and crypto/rand

    The system's random source is the finite sequence of bytes it will
    deliver.  [io.ReadFull] fills a buffer of [n] bytes or fails. *)
Module io.

Definition ReadFull (r : bytes) (n : nat) : result bytes :=
  if (n <=? length r)%nat then Ok (take n r)
  else match r with
       | [] => Err EOF
       | _ => Err ErrUnexpectedEOF
       end.

End io.

(** ** net/url *)

Module url.

(** The fields of [url.URL] the package reads or writes. *)
Record URL : Type := mkURL {
  Scheme : string;
  Host : string;
  Path : string;
  RawQuery : string
}.

(** [u.String()], the library's printing of a URL.  It escapes the host
    and the path, puts [/] or [./] before some paths, and follows how
    the URL was parsed; the package only passes its result on, so it is
    an input of the model, as the JSON decoders are. *)
Class Stringer : Type := String : URL -> string.

End url.

(** ** time *)

Module time.

(** [t.Date()] in UTC for a time given in seconds since the Unix epoch:
    the year, the month (1 to 12) and the day of the proleptic Gregorian
    calendar, by the arithmetic of 400-year eras that begin on 1 March. *)
Definition Date (t : Z) : Z * Z * Z :=
  let z := t / 86400 + 719468 in
  let era := z / 146097 in
  let doe := z - era * 146097 in
  let yoe := (doe - doe / 1460 + doe / 36524 - doe / 146096) / 365 in
  let doy := doe - (365 * yoe + yoe / 4 - yoe / 100) in
  let mp := (5 * doy + 2) / 153 in
  let day := doy - (153 * mp + 2) / 5 + 1 in
  let month := if mp <? 10 then mp + 3 else mp - 9 in
  (yoe + era * 400 + (if month <=? 2 then 1 else 0), month, day).

Definition Year (t : Z) : Z := (Date t).1.1.

(** [t.Weekday()], Sunday being 0: 1 January 1970 was a Thursday. *)
Definition Weekday (t : Z) : Z := (t / 86400 + 4) mod 7.

Definition shortDayNames : list string :=
  ["Sun"; "Mon"; "Tue"; "Wed"; "Thu"; "Fri"; "Sat"].

Definition shortMonthNames : list string :=
  ["Jan"; "Feb"; "Mar"; "Apr"; "May"; "Jun"; "Jul"; "Aug"; "Sep"; "Oct"; "Nov"; "Dec"].

(** [appendInt(b, x, width)]: the decimal digits of [x], padded with
    zeros to the width, after the sign. *)
Definition appendInt (x : Z) (width : nat) : string :=
  let digits := pretty (Z.abs x) in
  (if x <? 0 then "-" else "")
  +:+ string_of_list_ascii (repeat "0"%char (width - String.length digits))
  +:+ digits.

(** [t.UTC().Format(http.TimeFormat)], the layout being
    [Mon, 02 Jan 2006 15:04:05 GMT]. *)
Definition Format (t : Z) : string :=
  let '(year, month, day) := Date t in
  let s := t mod 86400 in
  nth (Z.to_nat (Weekday t)) shortDayNames "" +:+ ", "
  +:+ appendInt day 2 +:+ " "
  +:+ nth (Z.to_nat (month - 1)) shortMonthNames "" +:+ " "
  +:+ appendInt year 4 +:+ " "
  +:+ appendInt (s / 3600) 2 +:+ ":"
  +:+ appendInt (s mod 3600 / 60) 2 +:+ ":"
  +:+ appendInt (s mod 60) 2 +:+ " GMT".

End time.

(** ** net/http *)

Module http.

Definition StatusOK : Z := 200.
Definition StatusFound : Z := 302.

(** [map[string][]string], the shape of [http.Header] and of a parsed
    form. *)
Abbreviation MIMEHeader := (gmap string (list string)).

Definition Add (h : MIMEHeader) (key value : string) : MIMEHeader :=
  <[key := default [] (h !! key) ++ [value]]> h.

Definition Set_ (h : MIMEHeader) (key value : string) : MIMEHeader :=
  <[key := [value]]> h.

Definition Get (h : MIMEHeader) (key : string) : string :=
  match h !! key with
  | Some (v :: _) => v
  | _ => ""
  end.

(** [http.Cookie]; [Expires] is a time in seconds since the Unix epoch. *)
Record Cookie : Type := mkCookie {
  Name : string;
  Value : string;
  Path : string;
  Domain : string;
  Expires : Z
}.

(** *** net/http/cookie.go: the printing of a cookie *)

Definition between (lo : Z) (c : ascii) (hi : Z) : bool :=
  (lo <=? byte_of_ascii c) && (byte_of_ascii c <=? hi).

Definition isLetter (c : ascii) : bool := between 97 c 122 || between 65 c 90.
Definition isDigit (c : ascii) : bool := between 48 c 57.

(** [httpguts.IsTokenRune]: the [tchar] of RFC 7230. *)
Definition IsTokenRune (c : ascii) : bool :=
  isLetter c || isDigit c
  || bool_decide (c ∈ list_ascii_of_string "!#$%&'*+-.^_`|~").

Definition isCookieNameValid (raw : string) : bool :=
  negb (bool_decide (raw = "")) && forallb IsTokenRune (list_ascii_of_string raw).

Definition validCookieValueByte (b : ascii) : bool :=
  (32 <=? byte_of_ascii b) && (byte_of_ascii b <? 127)
  && negb (bool_decide (b = "034"%char)) && negb (bool_decide (b = ";"%char))
  && negb (bool_decide (b = "\"%char)).

Definition validCookiePathByte (b : ascii) : bool :=
  (32 <=? byte_of_ascii b) && (byte_of_ascii b <? 127)
  && negb (bool_decide (b = ";"%char)).

(** [sanitizeOrWarn]: the bytes of [v] that are valid (and a line in
    the log when one is not). *)
Definition sanitizeOrWarn (valid : ascii -> bool) (v : string) : string :=
  string_of_list_ascii (List.filter valid (list_ascii_of_string v)).

Definition sanitizeCookieValue (v : string) : string :=
  let v := sanitizeOrWarn validCookieValueByte v in
  if (String.length v =? 0)%nat then v
  else if existsb (fun c => bool_decide (c = " "%char) || bool_decide (c = ","%char))
                  (list_ascii_of_string v)
  then quote +:+ v +:+ quote
  else v.

Definition sanitizeCookiePath (v : string) : string :=
  sanitizeOrWarn validCookiePathByte v.

(** The loop of [isCookieDomainName]: [last] is the byte before,
    [ok] whether a letter was seen, [partlen] the length of the label
    so far. *)
Fixpoint isCookieDomainName_loop (s : list ascii) (last : ascii) (ok : bool)
    (partlen : nat) : bool :=
  match s with
  | [] =>
      if bool_decide (last = "-"%char) || (63 <? partlen)%nat then false else ok
  | c :: rest =>
      if isLetter c then isCookieDomainName_loop rest c true (S partlen)
      else if isDigit c then isCookieDomainName_loop rest c ok (S partlen)
      else if bool_decide (c = "-"%char) then
        if bool_decide (last = "."%char) then false
        else isCookieDomainName_loop rest c ok (S partlen)
      else if bool_decide (c = "."%char) then
        if bool_decide (last = "."%char) || bool_decide (last = "-"%char) then false
        else if (63 <? partlen)%nat || (partlen =? 0)%nat then false
        else isCookieDomainName_loop rest c ok 0
      else false
  end.

(** [if s[0] == '.' { s = s[1:] }], on a string that is not empty. *)
Definition withoutLeadingDot (s : string) : string :=
  match s with
  | String "." rest => rest
  | _ => s
  end.

Definition isCookieDomainName (s : string) : bool :=
  if (String.length s =? 0)%nat then false
  else if (255 <? String.length s)%nat then false
  else
    let s := withoutLeadingDot s in
    isCookieDomainName_loop (list_ascii_of_string s) "."%char false 0.

(** [netip.parseIPv4Fields] on the whole string: [i] is the index,
    [val] and [digLen] the value and the number of digits of the field
    being read, [pos] the number of fields read, [prev] the byte
    before. *)
Fixpoint parseIPv4Fields (s : list ascii) (i : nat) (prev : ascii) (val : Z)
    (digLen pos : nat) : bool :=
  match s with
  | [] => negb (pos <? 3)%nat
  | c :: rest =>
      if isDigit c then
        if (digLen =? 1)%nat && (val =? 0) then false
        else
          let val := val * 10 + (byte_of_ascii c - 48) in
          if 255 <? val then false
          else parseIPv4Fields rest (S i) c val (S digLen) pos
      else if bool_decide (c = "."%char) then
        if (i =? 0)%nat || bool_decide (rest = []) || bool_decide (prev = "."%char)
        then false
        else if (pos =? 3)%nat then false
        else parseIPv4Fields rest (S i) c 0 0 (S pos)
      else false
  end.

(** [net.ParseIP(v) != nil && !strings.Contains(v, ":")]: without a
    colon only the dotted form of an IPv4 address parses. *)
Definition isIPv4 (v : string) : bool :=
  negb (existsb (fun c => bool_decide (c = ":"%char)) (list_ascii_of_string v))
  && parseIPv4Fields (list_ascii_of_string v) 0 "000"%char 0 0 0.

Definition validCookieDomain (v : string) : bool :=
  isCookieDomainName v || isIPv4 v.

(** [validCookieExpires]: the year is 1601 or later. *)
Definition validCookieExpires (t : Z) : bool := 1601 <=? time.Year t.

(** [c.String()], the text of a [Set-Cookie] line, for the fields of
    [Cookie] the package sets; [MaxAge], [HttpOnly], [Secure] and
    [SameSite] are left at their zero values, which print nothing.  An
    invalid name gives the empty string; an invalid domain is dropped
    (and logged), a leading dot of a valid one is not printed. *)
Definition Cookie_String (c : Cookie) : string :=
  if negb (isCookieNameValid (Name c)) then ""
  else
    Name c +:+ "=" +:+ sanitizeCookieValue (Value c)
    +:+ (if (0 <? String.length (Path c))%nat
         then "; Path=" +:+ sanitizeCookiePath (Path c) else "")
    +:+ (if (0 <? String.length (Domain c))%nat then
           if validCookieDomain (Domain c)
           then "; Domain=" +:+ withoutLeadingDot (Domain c)
           else ""
         else "")
    +:+ (if validCookieExpires (Expires c)
         then "; Expires=" +:+ time.Format (Expires c) else "").

(** A server request: the cookies are those the [Cookie] header parses
    to, [Form] is the parsed form, [csrfToken] the token the CSRF
    middleware attached to the request ([csrf.Token(req)]). *)
Record Request : Type := mkRequest {
  Method : string;
  URL : url.URL;
  Header : MIMEHeader;
  Cookies : list Cookie;
  Form : MIMEHeader;
  csrfToken : string
}.

(** [req.Cookie(name)]: the first cookie of that name. *)
Definition Request_Cookie (req : Request) (name : string) : result Cookie :=
  match list_find (fun c => Name c = name) (Cookies req) with
  | Some (_, c) => Ok c
  | None => Err ErrNoCookie
  end.

Definition FormValue (req : Request) (key : string) : string := Get (Form req) key.

(** What a handler has written: the header map, the values of its
    [Set-Cookie] header in the order they were added (kept apart from
    the other headers, which the handlers never mix with them), the
    status once the header is written, the body. *)
Record ResponseWriter : Type := mkResponseWriter {
  wHeader : MIMEHeader;
  SetCookies : list string;
  Status : option Z;
  Body : string
}.

Definition NewRecorder : ResponseWriter := mkResponseWriter ∅ [] None "".

Definition withHeader (w : ResponseWriter) (h : MIMEHeader) : ResponseWriter :=
  mkResponseWriter h (SetCookies w) (Status w) (Body w).

Definition WriteHeader (w : ResponseWriter) (code : Z) : ResponseWriter :=
  match Status w with
  | Some _ => w
  | None => mkResponseWriter (wHeader w) (SetCookies w) (Some code) (Body w)
  end.

Definition Write (w : ResponseWriter) (data : string) : ResponseWriter :=
  let w := WriteHeader w StatusOK in
  mkResponseWriter (wHeader w) (SetCookies w) (Status w) (Body w +:+ data).

(** [http.SetCookie]: the line [c.String()] is added to the
    [Set-Cookie] header unless it is empty. *)
Definition SetCookie (w : ResponseWriter) (c : Cookie) : ResponseWriter :=
  let v := Cookie_String c in
  if bool_decide (v = "") then w
  else mkResponseWriter (wHeader w) (SetCookies w ++ [v]) (Status w) (Body w).

(** [http.Error]: plain-text headers, the status, the message and a
    newline. *)
Definition Error (w : ResponseWriter) (error : string) (code : Z) : ResponseWriter :=
  let h := delete "Content-Length" (wHeader w) in
  let h := Set_ h "Content-Type" "text/plain; charset=utf-8" in
  let h := Set_ h "X-Content-Type-Options" "nosniff" in
  let w := WriteHeader (withHeader w h) code in
  Write w (error +:+ newline).

(** [http.Redirect] to a target that is an absolute path without
    characters to escape: the [Location] header, the status, and for
    GET a short HTML body. *)
Definition Redirect (w : ResponseWriter) (r : Request) (target : string) (code : Z)
  : ResponseWriter :=
  let hadCT := bool_decide (is_Some (wHeader w !! "Content-Type")) in
  let h := Set_ (wHeader w) "Location" target in
  let h := if negb hadCT && (bool_decide (Method r = "GET") || bool_decide (Method r = "HEAD"))
           then Set_ h "Content-Type" "text/html; charset=utf-8" else h in
  let w := WriteHeader (withHeader w h) code in
  if negb hadCT && bool_decide (Method r = "GET")
  then Write w ("<a href=" +:+ quote +:+ target +:+ quote
                +:+ ">Found</a>." +:+ newline +:+ newline)
  else w.

(** The response of an HTTP client call. *)
Record Response : Type := mkResponse {
  StatusCode : Z;
  RespBody : bytes
}.

End http.

(** [html.EscapeString]. *)
Fixpoint html_EscapeString (s : string) : string :=
  match s with
  | EmptyString => ""
  | String c rest =>
      (if bool_decide (c = "&"%char) then "&amp;"
       else if bool_decide (c = "'"%char) then "&#39;"
       else if bool_decide (c = "<"%char) then "&lt;"
       else if bool_decide (c = ">"%char) then "&gt;"
       else if bool_decide (c = "034"%char) then "&#34;"
       else String c "") +:+ html_EscapeString rest
  end.

(** [err.Error()]. *)
Definition Error_ (e : error) : string :=
  match e with
  | ErrNoCookie => "http: named cookie not present"
  | CorruptInputError off => "illegal base64 data at input byte " +:+ pretty off
  | KeySizeError k => "crypto/aes: invalid key size " +:+ pretty k
  | errOpen => "cipher: message authentication failed"
  | ErrUnexpectedEOF => "unexpected EOF"
  | EOF => "EOF"
  | errorString s => s
  | jsonError s => s
  | clientError s => s
  end.

Definition errors_New (s : string) : error := errorString s.

(** ** Package sso: the data model *)

Record User : Type := mkUser {
  ID : Z;
  Name : string;
  Login : string;
  Email : string;
  GravatarID : string;
  IsSyncing : bool;
  SyncedAt : string;
  CorrectScopes : bool;
  CreatedAt : string
}.

Record APIMessage : Type := mkAPIMessage { APIMessage_User : User }.

Record State : Type := mkState {
  State_User : User;
  Token : string
}.

(** ** encoding/json *)

Module json.

Definition hex : string := "0123456789abcdef".

Definition hex_digit (n : Z) : Z := nth (Z.to_nat n) (bytes_of_string hex) 48.

(** [htmlSafeSet]: the ASCII characters a JSON string holds unescaped
    when HTML escaping is on (the setting of [Marshal]). *)
Definition htmlSafe (b : Z) : bool :=
  (32 <=? b) && (b <? 128)
  && negb ((b =? 34) || (b =? 38) || (b =? 60) || (b =? 62) || (b =? 92)).

Definition is_cont (b : Z) : bool := (128 <=? b) && (b <=? 191).

(** [utf8.DecodeRuneInString]: the number of bytes of the well-formed
    encoding that starts the string; 0 stands for [RuneError] of
    width 1.  Only called on a first byte of 128 or more. *)
Definition rune_size (s : bytes) : nat :=
  match s with
  | b0 :: t =>
      if (194 <=? b0) && (b0 <=? 223) then
        match t with
        | b1 :: _ => if is_cont b1 then 2%nat else 0%nat
        | _ => 0%nat
        end
      else if (224 <=? b0) && (b0 <=? 239) then
        match t with
        | b1 :: b2 :: _ =>
            let lo := if b0 =? 224 then 160 else 128 in
            let hi := if b0 =? 237 then 159 else 191 in
            if (lo <=? b1) && (b1 <=? hi) && is_cont b2 then 3%nat else 0%nat
        | _ => 0%nat
        end
      else if (240 <=? b0) && (b0 <=? 244) then
        match t with
        | b1 :: b2 :: b3 :: _ =>
            let lo := if b0 =? 240 then 144 else 128 in
            let hi := if b0 =? 244 then 143 else 191 in
            if (lo <=? b1) && (b1 <=? hi) && is_cont b2 && is_cont b3
            then 4%nat else 0%nat
        | _ => 0%nat
        end
      else 0%nat
  | [] => 0%nat
  end.

(** A backslash and the letter u, the start of a Unicode escape. *)
Definition backslash_u : bytes := [92; 117].

(** The escape of an ASCII byte outside [htmlSafeSet]. *)
Definition escape_ascii (b : Z) : bytes :=
  if (b =? 92) || (b =? 34) then [92; b]
  else if b =? 10 then [92; 110]
  else if b =? 13 then [92; 114]
  else if b =? 9 then [92; 116]
  else backslash_u ++ bytes_of_string "00"
         ++ [hex_digit (Z.shiftr b 4); hex_digit (Z.land b 15)].

(** The body of [encodeState.string].  [skip] bytes of a rune already
    examined remain: they are copied when [copying], dropped when the
    rune was written as an escape (the replacement character for an
    ill-formed byte, the escapes of U+2028 and U+2029). *)
Fixpoint escape_string (skip : nat) (copying : bool) (s : bytes) : bytes :=
  match s with
  | [] => []
  | b :: t =>
      match skip with
      | S k => (if copying then [b] else []) ++ escape_string k copying t
      | O =>
          if b <? 128 then
            (if htmlSafe b then [b] else escape_ascii b) ++ escape_string O false t
          else
            match rune_size s with
            | O => backslash_u ++ bytes_of_string "fffd" ++ escape_string O false t
            | S k =>
                match s with
                | 226 :: 128 :: 168 :: _ =>
                    backslash_u ++ bytes_of_string "2028" ++ escape_string k false t
                | 226 :: 128 :: 169 :: _ =>
                    backslash_u ++ bytes_of_string "2029" ++ escape_string k false t
                | _ => b :: escape_string k true t
                end
            end
      end
  end.

Definition encode_string (s : string) : bytes :=
  [34] ++ escape_string O false (bytes_of_string s) ++ [34].

Definition encode_bool (b : bool) : bytes :=
  bytes_of_string (if b then "true" else "false").

Definition encode_int (n : Z) : bytes := bytes_of_string (pretty n).

Definition encode_User (u : User) : bytes :=
  bytes_of_string "{" ++
  encode_string "id" ++ [58] ++ encode_int (ID u) ++ [44] ++
  encode_string "name" ++ [58] ++ encode_string (Name u) ++ [44] ++
  encode_string "login" ++ [58] ++ encode_string (Login u) ++ [44] ++
  encode_string "email" ++ [58] ++ encode_string (Email u) ++ [44] ++
  encode_string "gravatar_id" ++ [58] ++ encode_string (GravatarID u) ++ [44] ++
  encode_string "is_syncing" ++ [58] ++ encode_bool (IsSyncing u) ++ [44] ++
  encode_string "synced_at" ++ [58] ++ encode_string (SyncedAt u) ++ [44] ++
  encode_string "correct_scopes" ++ [58] ++ encode_bool (CorrectScopes u) ++ [44] ++
  encode_string "created_at" ++ [58] ++ encode_string (CreatedAt u) ++
  bytes_of_string "}".

Definition encode_State (s : State) : bytes :=
  bytes_of_string "{" ++
  encode_string "user" ++ [58] ++ encode_User (State_User s) ++ [44] ++
  encode_string "token" ++ [58] ++ encode_string (Token s) ++
  bytes_of_string "}".

(** [json.Marshal(state)]: a struct of integers, strings and booleans
    always encodes. *)
Definition Marshal (s : State) : result bytes := Ok (encode_State s).

(** [json.NewDecoder(r).Decode(&v)] for a target of type [A]: the
    decoded value or the message of the decoder's error.  The decoder
    is the library's; the package only depends on its outcome. *)
Class Decoder (A : Type) : Type := Decode : bytes -> string + A.

Definition decode_result {A} (d : string + A) : result A :=
  match d with
  | inl msg => Err (jsonError msg)
  | inr a => Ok a
  end.

End json.

(** ** The environment of a request

    What the handlers obtain from outside the package while serving one
    request: the bytes the system's random source delivers, the clock,
    the identity provider behind [http.Client.Do], and whether the login
    template parses. *)

(** The request [handleLogin] sends to the identity provider, kept as
    the data it is built from: the method, the API URL with its path
    replaced, the parameter added to its query, the headers. *)
Record APIRequest : Type := mkAPIRequest {
  api_Method : string;
  api_URL : url.URL;
  api_Query_Add : string * string;
  api_Header : http.MIMEHeader
}.

Record World : Type := mkWorld {
  rand_Reader : bytes;
  time_Now : Z;
  client_Do : APIRequest -> string + http.Response;
  template_ParseFiles : string -> option string
}.

(** [http.NewRequest("GET", url.String(), nil)] on the print of a parsed
    URL. *)
Definition http_NewRequest (method : string) (u : url.URL) (q : string * string)
  : result APIRequest :=
  Ok (mkAPIRequest method u q ∅).

(** The parameters handed to the login template. *)
Record LoginParams : Type := mkLoginParams {
  Public : string;
  Endpoint : string;
  Origin : string;
  CSRF : string
}.

(** How the handling of a request ends: the handler wrote its response
    itself, it executed the login template over the writer, it handed
    the request to the forwarder, it panicked, or it stopped the process
    ([log.Fatalf]). *)
Inductive Outcome : Type :=
  | Done (w : http.ResponseWriter)
  | Rendered (w : http.ResponseWriter) (p : LoginParams)
  | Forwarded (w : http.ResponseWriter) (req : http.Request)
  | Panicked (msg : string)
  | Fatal (msg : string).

Record SSO : Type := mkSSO {
  UpstreamURL : url.URL;
  APIURL : url.URL;
  AppPublicURL : url.URL;
  StaticPath : string;
  TemplatePath : string;
  EncryptionKey : bytes;
  CSRFAuthKey : bytes;
  Authorized : User -> result bool
}.

(** Seconds in [365 * 24 * time.Hour], and
    [time.Date(1970, time.January, 1, 1, 0, 0, 0, time.UTC)]. *)
Definition one_year : Z := 365 * 24 * 3600.
Definition logout_expiry : Z := 3600.

(** ** Package sso: the functions *)

(** [strings.Index(s, sep)] for a one-byte separator: the index of its
    first occurrence, or -1. *)
Fixpoint strings_Index (s : string) (sep : ascii) : Z :=
  match s with
  | EmptyString => -1
  | String c rest =>
      if bool_decide (c = sep) then 0
      else let i := strings_Index rest sep in
           if i <? 0 then -1 else i + 1
  end.

Definition domainFromHost (host : string) : string :=
  let index := strings_Index host ":"%char in
  if 0 <? index then substring 0 (Z.to_nat index) host
  else host.

Definition encrypt (rand : bytes) (plaintext key : bytes) : result (bytes * bytes) :=
  block ← aes.NewCipher key;
  nonce ← io.ReadFull rand 12;
  aesgcm ← cipher.NewGCM block;
  sealed ← cipher.Seal aesgcm nonce plaintext [];
  Ok (sealed, nonce).

Definition decrypt (ciphertext nonce key : bytes) : result bytes :=
  block ← aes.NewCipher key;
  aesgcm ← cipher.NewGCM block;
  plaintext ← cipher.Open aesgcm nonce ciphertext [];
  Ok plaintext.

Section Handlers.

Context `{!json.Decoder (option State)} `{!json.Decoder APIMessage} `{!url.Stringer}.

Variable sso : SSO.
Variable world : World.

Definition setLogoutCookie (w : http.ResponseWriter) : http.ResponseWriter :=
  http.SetCookie w
    (http.mkCookie "travis.sso" "" "/"
                   (domainFromHost (url.Host (AppPublicURL sso)))
                   logout_expiry).

(** A nil [*State] is [None]. *)
Definition stateFromRequest (req : http.Request) : result (option State) :=
  match http.Request_Cookie req "travis.sso" with
  | Err ErrNoCookie => Err ErrNoCookie
  | Err err => Err err
  | Panic msg => Panic msg
  | Ok cookie =>
      let '(decodedCookie, err) := base64.DecodeString (http.Value cookie) in
      match err with
      | Some err => Err err
      | None =>
          let encryptedCookie := decodedCookie in
          nonce ← slice_to encryptedCookie 12;
          encryptedCookie ← slice_from encryptedCookie 12;
          if negb (len nonce =? 12)%nat
          then Err (errors_New "nonce must be 12 characters in length")
          else if (len encryptedCookie =? 0)%nat
          then Err (errors_New "encrypted cookie missing")
          else
            b ← decrypt (slice_bytes encryptedCookie) (slice_bytes nonce)
                        (EncryptionKey sso);
            state ← json.decode_result (json.Decode (A := option State) b);
            Ok state
      end
  end.

Definition handleProxy (w : http.ResponseWriter) (req : http.Request) (state : State)
  : Outcome :=
  match json.Marshal state with
  | Err err => Done (http.Error w (Error_ err) 500)
  | Panic msg => Panicked msg
  | Ok b =>
      let u := url.mkURL (url.Scheme (UpstreamURL sso)) (url.Host (UpstreamURL sso))
                         (url.Path (http.URL req)) (url.RawQuery (http.URL req)) in
      let h := http.Add (http.Header req) "Travis-State" (string_of_bytes b) in
      Forwarded w (http.mkRequest (http.Method req) u h (http.Cookies req)
                                  (http.Form req) (http.csrfToken req))
  end.

Definition handleHandshake (w : http.ResponseWriter) (req : http.Request) : Outcome :=
  if negb (bool_decide (http.Method req = "GET"))
     && negb (bool_decide (http.Method req = "HEAD"))
  then
    let w := http.withHeader w (http.Set_ (http.wHeader w) "Allow" "GET, HEAD") in
    Done (http.Error w ("must be <a href=" +:+ quote +:+ url.String (http.URL req)
                        +:+ quote +:+ ">GET</a> request") 405)
  else
    match template_ParseFiles world (TemplatePath sso +:+ "/login.html") with
    | Some err => Fatal ("error compiling template: " +:+ err)
    | None =>
        Rendered w (mkLoginParams "/sso/static" (url.String (APIURL sso))
                                  (url.String (AppPublicURL sso))
                                  (http.csrfToken req))
    end.

Definition handleRequest (w : http.ResponseWriter) (req : http.Request) : Outcome :=
  match stateFromRequest req with
  | Panic msg => Panicked msg
  | Err err =>
      if negb (bool_decide (err = ErrNoCookie)) then
        (* decoding state failed: could be an issue with the cookie, remove it *)
        let w := setLogoutCookie w in
        Done (http.Error w (Error_ err) 500)
      else handleHandshake w req
  | Ok (Some state) =>
      (* we have a state => we are authenticated *)
      handleProxy w req state
  | Ok None => handleHandshake w req
  end.

Definition handleLogin (w : http.ResponseWriter) (req : http.Request) : Outcome :=
  let token := if bool_decide (http.Method req = "POST")
               then http.FormValue req "sso_token" else "" in
  if bool_decide (token = "") then
    Done (http.Redirect w req "/" http.StatusFound)
  else
    let u := APIURL sso in
    let u := url.mkURL (url.Scheme u) (url.Host u) "/users" (url.RawQuery u) in
    match http_NewRequest "GET" u ("access_token", token) with
    | Err err => Done (http.Error w (Error_ err) 500)
    | Panic msg => Panicked msg
    | Ok apiReq =>
        let apiReq :=
          mkAPIRequest (api_Method apiReq) (api_URL apiReq) (api_Query_Add apiReq)
            (http.Add (api_Header apiReq) "Accept" "application/vnd.travis-ci.2+json") in
        match client_Do world apiReq with
        | inl err => Done (http.Error w err 500)
        | inr apiResp =>
            if negb (http.StatusCode apiResp =? http.StatusOK) then
              let content := http.RespBody apiResp in
              Done (http.Error w ("upstream error, code="
                                  +:+ pretty (http.StatusCode apiResp)
                                  +:+ ", body=" +:+ string_of_bytes content
                                  +:+ newline) 500)
            else
              match json.Decode (A := APIMessage) (http.RespBody apiResp) with
              | inl err => Done (http.Error w err 500)
              | inr m =>
                  let user := APIMessage_User m in
                  match Authorized sso user with
                  | Err err => Done (http.Error w (Error_ err) 500)
                  | Panic msg => Panicked msg
                  | Ok false =>
                      Done (http.Error w ("access denied for user " +:+ Login user) 403)
                  | Ok true =>
                      let state := mkState user token in
                      match json.Marshal state with
                      | Err err => Done (http.Error w (Error_ err) 500)
                      | Panic msg => Panicked msg
                      | Ok b =>
                          match encrypt (rand_Reader world) b (EncryptionKey sso) with
                          | Err err => Done (http.Error w (Error_ err) 500)
                          | Panic msg => Panicked msg
                          | Ok (encryptedCookie, nonce) =>
                              let encryptedCookie := nonce ++ encryptedCookie in
                              let encodedCookie :=
                                base64.EncodeToString encryptedCookie in
                              let w :=
                                http.SetCookie w
                                  (http.mkCookie "travis.sso" encodedCookie "/"
                                     (domainFromHost (url.Host (AppPublicURL sso)))
                                     (time_Now world + one_year)) in
                              Done (http.Redirect w req "/" http.StatusFound)
                          end
                      end
                  end
              end
        end
    end.

Definition handleLogout (w : http.ResponseWriter) (req : http.Request) : Outcome :=
  if negb (bool_decide (http.Method req = "POST")) then
    let w := http.withHeader w
               (http.Add (http.wHeader w) "Content-Type" "text/html; encoding=UTF-8") in
    let w := http.Write w ("<form method=" +:+ quote +:+ "POST" +:+ quote
                           +:+ " action=" +:+ quote +:+ "/sso/logout" +:+ quote
                           +:+ ">") in
    let w := http.Write w ("<input type=" +:+ quote +:+ "hidden" +:+ quote
                           +:+ " name=" +:+ quote +:+ "authenticity_token" +:+ quote
                           +:+ " value=" +:+ quote) in
    let w := http.Write w (html_EscapeString (http.csrfToken req)) in
    let w := http.Write w (quote +:+ ">") in
    let w := http.Write w ("<input type=" +:+ quote +:+ "submit" +:+ quote
                           +:+ " value=" +:+ quote +:+ "logout" +:+ quote +:+ ">") in
    let w := http.Write w "</form>" in
    Done w
  else
    let w := setLogoutCookie w in
    Done (http.Write w "logged out").

End Handlers.

(** ** Package main: the authorization policy

    [main] builds a [map[string]bool] from the [--auth] options and
    authorizes a user when the map holds the login. *)
Definition main_authorized (AuthUsers : list string) : gmap string bool :=
  fold_left (fun m v => <[v := true]> m) AuthUsers ∅.

Definition main_Authorized (AuthUsers : list string) (u : User) : result bool :=
  Ok (default false (main_authorized AuthUsers !! Login u)).

(** ** Package sso: the favicon handler *)

Definition handleEmpty (w : http.ResponseWriter) (req : http.Request) : Outcome :=
  Done (http.WriteHeader w 204).

(** ** Package main: start-up

    [main] parses the command line, checks the options one after the
    other, stops the process with [log.Fatal] at the first one that
    fails, and otherwise builds the [SSO] value and listens.  The parsed
    options are the record [opts]; what [main] asks of the system is the
    record [System]: the error of [flags.Parse], the outcome of
    [url.Parse] on a string, and for a path the error of [os.Stat] or
    whether the file is a directory. *)

Module opts.

Record Options : Type := mkOptions {
  ListenAddr : string;
  UpstreamURL : string;
  APIURL : string;
  AppPublicURL : string;
  StaticPath : string;
  TemplatePath : string;
  EncryptionKey : string;
  CSRFAuthKey : string;
  AuthUsers : list string
}.

End opts.

Record System : Type := mkSystem {
  flags_Parse : option string;
  url_Parse : string -> string + url.URL;
  os_Stat : string -> string + bool
}.

(** [strings.Contains]. *)
Fixpoint strings_Contains (s substr : string) : bool :=
  String.prefix substr s
  || match s with
     | EmptyString => false
     | String _ rest => strings_Contains rest substr
     end.

(** [isDir]: the pair Go returns, the flag and the error. *)
Definition isDir (sys : System) (path : string) : bool * option string :=
  match os_Stat sys path with
  | inl err => (false, Some err)
  | inr dir => (dir, None)
  end.

(** [%v] of an error that may be nil. *)
Definition fmt_error (err : option string) : string :=
  match err with
  | Some e => e
  | None => "<nil>"
  end.

(** How [main] ends: it returns at once (the usage text was asked for),
    it stops the process with a message, or it listens on an address
    with the gateway it has built. *)
Inductive Started : Type :=
  | Returned
  | Exited (msg : string)
  | Listening (addr : string) (s : SSO).

(** The checks of [main] that follow the parsing of the command line. *)
Definition main_checked (sys : System) (o : opts.Options) : Started :=
  if bool_decide (opts.UpstreamURL o = "") then Exited "missing upstream url" else
  match url_Parse sys (opts.UpstreamURL o) with
  | inl err => Exited ("invalid upstream url: " +:+ err)
  | inr upstreamURL =>
  match url_Parse sys (opts.APIURL o) with
  | inl err => Exited ("invalid api url: " +:+ err)
  | inr apiURL =>
  if bool_decide (opts.AppPublicURL o = "") then Exited "missing app public url" else
  match url_Parse sys (opts.AppPublicURL o) with
  | inl err => Exited ("invalid app public url: " +:+ err)
  | inr appPublicURL =>
  let '(ok, err) := isDir sys (opts.StaticPath o) in
  if bool_decide (err <> None) || negb ok
  then Exited ("invalid static path " +:+ opts.StaticPath o +:+ ": " +:+ fmt_error err)
  else
  let '(ok, err) := isDir sys (opts.TemplatePath o) in
  if bool_decide (err <> None) || negb ok
  then Exited ("invalid template path " +:+ opts.TemplatePath o +:+ ": "
               +:+ fmt_error err)
  else
  if bool_decide (opts.EncryptionKey o = "")
     || negb (String.length (opts.EncryptionKey o) =? 32)%nat
  then Exited "invalid encryption key: length must be exactly 32 bytes" else
  if bool_decide (opts.CSRFAuthKey o = "")
     || negb (String.length (opts.CSRFAuthKey o) =? 32)%nat
  then Exited "invalid csrf key: length must be exactly 32 bytes" else
  if (length (opts.AuthUsers o) =? 0)%nat then Exited "missing authorized-users" else
  Listening (opts.ListenAddr o)
    (mkSSO upstreamURL apiURL appPublicURL
           (opts.StaticPath o) (opts.TemplatePath o)
           (bytes_of_string (opts.EncryptionKey o))
           (bytes_of_string (opts.CSRFAuthKey o))
           (main_Authorized (opts.AuthUsers o)))
  end end end.

Definition main (sys : System) (o : opts.Options) : Started :=
  match flags_Parse sys with
  | Some err =>
      if negb (strings_Contains err "Usage") then Exited ("error: " +:+ err)
      else Returned
  | None => main_checked sys o
  end.

(** ** The vocabulary of the specification *)

(** A byte: the values a [[]byte] holds. *)
Definition is_byte (b : Z) : Prop := 0 <= b < 256.

(** The characters that end an attribute value or open a tag. *)
Definition markup (c : ascii) : Prop :=
  c = "<"%char \/ c = ">"%char \/ c = "034"%char \/ c = "'"%char.

(** [MalformedCookie]: the errors with which [stateFromRequest] rejects
    a cookie on its shape, before decryption. *)
Definition MalformedCookie (e : error) : Prop :=
  e = errors_New "nonce must be 12 characters in length"
  \/ e = errors_New "encrypted cookie missing".

(** [InvalidKeyLength] is [aes.KeySizeError]. *)
Definition InvalidKeyLength (e : error) : Prop := exists k, e = KeySizeError k.

(** A string without a colon. *)
Fixpoint no_colon (s : string) : bool :=
  match s with
  | EmptyString => true
  | String c rest => negb (bool_decide (c = ":"%char)) && no_colon rest
  end.

(** The specification's reading of the cookie domain, "host portion
    (strip port)": the host without a final colon and the decimal digits
    after it. *)
Definition is_digit (c : ascii) : bool :=
  (48 <=? byte_of_ascii c) && (byte_of_ascii c <=? 57).

Fixpoint strip_port_rev (r : list ascii) (all : list ascii) : list ascii :=
  match r with
  | c :: rest =>
      if bool_decide (c = ":"%char) then rest
      else if is_digit c then strip_port_rev rest all
      else all
  | [] => all
  end.

Definition host_without_port (host : string) : string :=
  let r := rev (list_ascii_of_string host) in
  string_of_list_ascii (rev (strip_port_rev r r)).

(** ** Sample data: the configuration of the README, a user, a world *)

Definition sample_key : bytes := bytes_of_string "sa8OoLei6eWiezah9ohk8Wah6Ow6pee9".

Definition sample_sso : SSO :=
  mkSSO (url.mkURL "http" "localhost:8081" "" "")
        (url.mkURL "https" "api.github.com" "" "")
        (url.mkURL "http" "localhost:8080" "" "")
        "./static" "./template"
        sample_key
        (bytes_of_string "oxei9aebonogh1Gaina4ePaitheechei")
        (main_Authorized ["Akagi201"]).

Definition sample_user : User :=
  mkUser 1 "Akagi" "Akagi201" "akagi201@example.org" "0123" false
         "2016-01-01T00:00:00Z" true "2015-01-01T00:00:00Z".

Definition other_user : User :=
  mkUser 2 "Bob" "bob" "bob@example.org" "4567" false
         "2016-01-01T00:00:00Z" true "2015-01-01T00:00:00Z".

(** The body with which the identity provider describes a user. *)
Definition api_body (u : User) : bytes :=
  bytes_of_string "{" ++ json.encode_string "user" ++ [58] ++ json.encode_User u
  ++ bytes_of_string "}".

(** Decoders tabulated on the documents of the samples: on these the
    library's decoder returns the value that was encoded. *)
Definition sample_decode_State : json.Decoder (option State) := fun b =>
  match list_find (fun s => json.encode_State s = b)
                  [mkState sample_user "T"; mkState other_user "U"] with
  | Some (_, s) => inr (Some s)
  | None => inl "invalid character"
  end.

Definition sample_decode_APIMessage : json.Decoder APIMessage := fun b =>
  match list_find (fun u => api_body u = b) [sample_user; other_user] with
  | Some (_, u) => inr (mkAPIMessage u)
  | None => inl "invalid character"
  end.

(** The identity provider knows two tokens. *)
Definition sample_client (r : APIRequest) : string + http.Response :=
  if bool_decide (api_Query_Add r = ("access_token", "T"))
  then inr (http.mkResponse 200 (api_body sample_user))
  else if bool_decide (api_Query_Add r = ("access_token", "U"))
  then inr (http.mkResponse 200 (api_body other_user))
  else inr (http.mkResponse 403 (bytes_of_string "{}")).

Definition sample_world : World :=
  mkWorld (map Z.of_nat (seq 100 16)) 1500000000 sample_client (fun _ => None).

Definition request (method path : string) (cookies : list http.Cookie)
    (form : http.MIMEHeader) : http.Request :=
  http.mkRequest method (url.mkURL "" "" path "") ∅ cookies form "csrf-token".

Definition login_request (token : string) : http.Request :=
  request "POST" "/sso/login" [] {[ "sso_token" := [token] ]}.

Definition cookie_request (value : string) : http.Request :=
  request "GET" "/anything" [http.mkCookie "travis.sso" value "" "" 0] ∅.

(** The value of the cookie a login of the sample user sets, under the
    sample world: the base64 of the nonce and the sealed session. *)
Definition sample_cookie_value : string :=
  Eval vm_compute in
    match encrypt (rand_Reader sample_world)
                  (json.encode_State (mkState sample_user "T")) sample_key with
    | Ok (sealed, nonce) => base64.EncodeToString (nonce ++ sealed)
    | _ => ""
    end.

(** The printing of the URLs of the samples, none of which holds a
    character to escape: scheme, host, path and query, one after the
    other. *)
Definition sample_url_String : url.Stringer := fun u =>
  (if bool_decide (url.Scheme u = "") then "" else url.Scheme u +:+ ":")
  +:+ (if bool_decide (url.Scheme u = "") && bool_decide (url.Host u = "") then ""
       else if bool_decide (url.Host u = "") && bool_decide (url.Path u = "") then ""
       else "//" +:+ url.Host u)
  +:+ url.Path u
  +:+ (if bool_decide (url.RawQuery u = "") then "" else "?" +:+ url.RawQuery u).

(** The same configuration published at an IPv6 literal, and at a
    host name with an underscore. *)
Definition sample_sso_at (host : string) : SSO :=
  mkSSO (UpstreamURL sample_sso) (APIURL sample_sso)
        (url.mkURL "http" host "" "")
        (StaticPath sample_sso) (TemplatePath sample_sso)
        (EncryptionKey sample_sso) (CSRFAuthKey sample_sso)
        (Authorized sample_sso).

Definition sample_sso_v6 : SSO := sample_sso_at "[::1]:8080".
Definition sample_sso_underscore : SSO := sample_sso_at "my_app.example.com:8080".

(** The request with which [handleLogin] asks the identity provider
    about a token. *)
Definition identity_request (sso : SSO) (token : string) : APIRequest :=
  mkAPIRequest "GET"
    (url.mkURL (url.Scheme (APIURL sso)) (url.Host (APIURL sso)) "/users"
               (url.RawQuery (APIURL sso)))
    ("access_token", token)
    {[ "Accept" := ["application/vnd.travis-ci.2+json"] ]}.

(** The command line of the README, as parsed, on a system where its
    URLs parse and its two paths are directories. *)
Definition sample_opts : opts.Options :=
  opts.mkOptions "0.0.0.0:8080" "http://localhost:8081" "https://api.github.com"
                 "http://localhost:8080" "./static" "./template"
                 "sa8OoLei6eWiezah9ohk8Wah6Ow6pee9"
                 "oxei9aebonogh1Gaina4ePaitheechei" ["Akagi201"].

Definition sample_system : System :=
  mkSystem None
    (fun raw =>
       if bool_decide (raw = "http://localhost:8081")
       then inr (url.mkURL "http" "localhost:8081" "" "")
       else if bool_decide (raw = "https://api.github.com")
       then inr (url.mkURL "https" "api.github.com" "" "")
       else if bool_decide (raw = "http://localhost:8080")
       then inr (url.mkURL "http" "localhost:8080" "" "")
       else inl "parse error")
    (fun path =>
       if bool_decide (path = "./static") || bool_decide (path = "./template")
       then inr true
       else inl "no such file or directory").

(** An identity provider that cannot be reached, and one that answers
    with status 502 or with a body that is not JSON. *)
Definition failing_world (answer : string + http.Response) : World :=
  mkWorld (rand_Reader sample_world) (time_Now sample_world) (fun _ => answer)
          (fun _ => None).

(** The sample configuration with a key of nine bytes. *)
Definition sample_sso_short_key : SSO :=
  mkSSO (UpstreamURL sample_sso) (APIURL sample_sso) (AppPublicURL sample_sso)
        (StaticPath sample_sso) (TemplatePath sample_sso)
        (bytes_of_string "too short") (CSRFAuthKey sample_sso)
        (Authorized sample_sso).

(** What [encrypt] returns for a short plaintext under the sample key
    and world: the sealed text and the nonce. *)
Definition sample_sealed : bytes * bytes :=
  Eval vm_compute in
    match encrypt (rand_Reader sample_world) (bytes_of_string "session") sample_key with
    | Ok p => p
    | _ => ([], [])
    end.

(** The response to the login of the sample user, and the request the
    forwarder receives when the cookie of that login comes back. *)
Definition sample_login_response : http.ResponseWriter :=
  Eval vm_compute in
    match handleLogin (H0 := sample_decode_APIMessage) sample_sso sample_world
                      http.NewRecorder (login_request "T") with
    | Done w => w
    | _ => http.NewRecorder
    end.

(** A request of the signed-in sample user that brings a [Travis-State]
    header of its own. *)
Definition forged_request : http.Request :=
  http.mkRequest "GET" (url.mkURL "" "" "/anything" "")
                 {[ "Travis-State" := ["forged"] ]}
                 [http.mkCookie "travis.sso" sample_cookie_value "" "" 0] ∅
                 "csrf-token".

Definition sample_forwarded : http.Request :=
  Eval vm_compute in
    match handleRequest (H := sample_decode_State) (H1 := sample_url_String)
                        sample_sso sample_world
                        http.NewRecorder (cookie_request sample_cookie_value) with
    | Forwarded _ r => r
    | _ => cookie_request ""
    end.

(** * Properties *)

(** ** Bytes and the key stream *)

Lemma xor_bytes_length (a k : bytes) :
  length (xor_bytes a k) = (length a `min` length k)%nat.
Proof. apply length_zip_with. Qed.

Lemma xor_bytes_involutive (a k : bytes) :
  (length a <= length k)%nat -> xor_bytes (xor_bytes a k) k = a.
Proof.
  revert k. induction a as [|x a IH]; intros [|y k] Hlen; simpl in *; try lia.
  - reflexivity.
  - reflexivity.
  - f_equal.
    + rewrite Z.lxor_assoc, Z.lxor_nilpotent. apply Z.lxor_0_r.
    + apply IH. lia.
Qed.

Lemma aes_Encrypt_length (c : aes.Block) (src : bytes) :
  length (aes.Encrypt c src) = 16%nat.
Proof.
  unfold aes.Encrypt, aes.encryptBlock, aes.addRoundKey.
  rewrite length_map. apply length_seq.
Qed.

Lemma counter_stream_length (g : cipher.AEAD) (nonce : bytes) (n : nat) (c : Z) :
  length (cipher.counter_stream g nonce n c) = (16 * n)%nat.
Proof.
  revert c. induction n as [|n IH]; intros c; cbn [cipher.counter_stream].
  - reflexivity.
  - rewrite length_app, aes_Encrypt_length, IH. lia.
Qed.

Lemma block_count_covers (n : nat) : (n <= 16 * cipher.block_count n)%nat.
Proof.
  unfold cipher.block_count.
  pose proof (Nat.div_mod_eq (n + 15) 16) as Hdiv.
  pose proof (Nat.mod_upper_bound (n + 15) 16) as Hmod.
  lia.
Qed.

Lemma counterCrypt_length (g : cipher.AEAD) (nonce data : bytes) :
  length (cipher.counterCrypt g nonce data) = length data.
Proof.
  unfold cipher.counterCrypt.
  rewrite xor_bytes_length, counter_stream_length.
  pose proof (block_count_covers (length data)). lia.
Qed.

(** The counter mode is its own inverse. *)
Lemma counterCrypt_involutive (g : cipher.AEAD) (nonce data : bytes) :
  cipher.counterCrypt g nonce (cipher.counterCrypt g nonce data) = data.
Proof.
  unfold cipher.counterCrypt at 1.
  rewrite counterCrypt_length.
  unfold cipher.counterCrypt.
  apply xor_bytes_involutive.
  rewrite counter_stream_length. apply block_count_covers.
Qed.

Lemma auth_length (g : cipher.AEAD) (nonce data ct : bytes) :
  length (cipher.auth g nonce data ct) = cipher.gcmTagSize.
Proof.
  unfold cipher.auth, cipher.be_bytes.
  rewrite xor_bytes_length, length_map, length_seq, aes_Encrypt_length.
  reflexivity.
Qed.

(** [Open] undoes [Seal] under the same nonce and additional data. *)
Lemma Seal_Open (g : cipher.AEAD) (nonce plaintext data : bytes) :
  length nonce = 12%nat ->
  exists sealed,
    cipher.Seal g nonce plaintext data = Ok sealed
    /\ length sealed = (length plaintext + 16)%nat
    /\ cipher.Open g nonce sealed data = Ok plaintext.
Proof.
  intros Hnonce.
  exists (cipher.counterCrypt g nonce plaintext
          ++ cipher.auth g nonce data (cipher.counterCrypt g nonce plaintext)).
  assert (Hlen : length (cipher.counterCrypt g nonce plaintext
                         ++ cipher.auth g nonce data
                              (cipher.counterCrypt g nonce plaintext))
                 = (length plaintext + 16)%nat).
  { rewrite length_app, counterCrypt_length, auth_length. reflexivity. }
  split; [|split].
  - unfold cipher.Seal, cipher.NonceSize, cipher.gcmStandardNonceSize.
    rewrite Hnonce. reflexivity.
  - exact Hlen.
  - unfold cipher.Open, cipher.NonceSize, cipher.gcmStandardNonceSize.
    rewrite Hnonce. simpl negb. cbv iota.
    rewrite Hlen.
    replace (length plaintext + 16 <? cipher.gcmTagSize)%nat with false
      by (symmetry; apply Nat.ltb_ge; unfold cipher.gcmTagSize; lia).
    replace (length plaintext + 16 - cipher.gcmTagSize)%nat
      with (length (cipher.counterCrypt g nonce plaintext))
      by (rewrite counterCrypt_length; unfold cipher.gcmTagSize; lia).
    rewrite take_app_length, drop_app_length.
    unfold cipher.ConstantTimeCompare.
    rewrite bool_decide_eq_true_2 by reflexivity.
    rewrite counterCrypt_involutive. reflexivity.
Qed.

Lemma NewCipher_valid (key : bytes) :
  length key = 16%nat \/ length key = 24%nat \/ length key = 32%nat ->
  aes.NewCipher key = Ok (aes.mkBlock (aes.expandKey key)).
Proof.
  intros Hlen. unfold aes.NewCipher.
  destruct Hlen as [-> | [-> | ->]]; reflexivity.
Qed.

Lemma NewCipher_invalid (key : bytes) :
  length key <> 16%nat -> length key <> 24%nat -> length key <> 32%nat ->
  aes.NewCipher key = Err (KeySizeError (Z.of_nat (length key))).
Proof.
  intros H16 H24 H32. unfold aes.NewCipher.
  destruct (Z.eqb_spec (Z.of_nat (length key)) 16); [lia|].
  destruct (Z.eqb_spec (Z.of_nat (length key)) 24); [lia|].
  destruct (Z.eqb_spec (Z.of_nat (length key)) 32); [lia|].
  reflexivity.
Qed.

Lemma ReadFull_enough (r : bytes) (n : nat) :
  (n <= length r)%nat -> io.ReadFull r n = Ok (take n r).
Proof.
  intros Hn. unfold io.ReadFull.
  destruct (Nat.leb_spec n (length r)); [reflexivity | lia].
Qed.

(** With a key the cipher accepts and twelve bytes of entropy, [encrypt]
    returns the sealed text and the nonce it drew, and [decrypt] gives
    the plaintext back. *)
Lemma encrypt_decrypt (rand plaintext key : bytes) :
  length key = 16%nat \/ length key = 24%nat \/ length key = 32%nat ->
  (12 <= length rand)%nat ->
  exists sealed,
    encrypt rand plaintext key = Ok (sealed, take 12 rand)
    /\ length sealed = (length plaintext + 16)%nat
    /\ decrypt sealed (take 12 rand) key = Ok plaintext.
Proof.
  intros Hkey Hrand.
  assert (Hnonce : length (take 12 rand) = 12%nat) by (rewrite length_take; lia).
  destruct (Seal_Open (cipher.mkGCM (aes.mkBlock (aes.expandKey key)))
                      (take 12 rand) plaintext [] Hnonce)
    as (sealed & Hseal & Hlen & Hopen).
  exists sealed. split; [|split].
  - unfold encrypt. rewrite (NewCipher_valid key Hkey). simpl.
    rewrite (ReadFull_enough rand 12 Hrand). simpl.
    rewrite Hseal. reflexivity.
  - exact Hlen.
  - unfold decrypt. rewrite (NewCipher_valid key Hkey). simpl.
    rewrite Hopen. reflexivity.
Qed.

(** C2.  For every 32-byte key and every session, once the random source
    has delivered the twelve bytes of the nonce, [encrypt] of the JSON
    serialization of the session succeeds, and [decrypt] of what it
    returned, under the same key and the returned nonce, succeeds and
    yields that serialization byte for byte. *)
Theorem encrypt_decrypt_roundtrip (key rand : bytes) (session : State) :
  length key = 32%nat ->
  (12 <= length rand)%nat ->
  exists b ciphertext nonce,
    json.Marshal session = Ok b
    /\ encrypt rand b key = Ok (ciphertext, nonce)
    /\ decrypt ciphertext nonce key = Ok b
    /\ b = json.encode_State session.
Proof.
  intros Hkey Hrand.
  destruct (encrypt_decrypt rand (json.encode_State session) key)
    as (sealed & Henc & _ & Hdec); [auto | exact Hrand |].
  exists (json.encode_State session), sealed, (take 12 rand).
  repeat split; assumption.
Qed.

Lemma encrypt_decrypt_roundtrip_witness :
  exists b ciphertext nonce,
    json.Marshal (mkState sample_user "T") = Ok b
    /\ encrypt (rand_Reader sample_world) b sample_key = Ok (ciphertext, nonce)
    /\ decrypt ciphertext nonce sample_key = Ok b
    /\ b = json.encode_State (mkState sample_user "T").
Proof.
  apply (encrypt_decrypt_roundtrip sample_key (rand_Reader sample_world)).
  - reflexivity.
  - vm_compute. lia.
Defined.

(** C6 (the claim as stated fails).  A 16-byte key is not 32 bytes long,
    yet [encrypt] succeeds with it and [decrypt] opens what it sealed:
    [aes.NewCipher] selects AES-128. *)
Lemma encrypt_accepts_16_byte_key :
  length (take 16 sample_key) <> 32%nat
  /\ match encrypt (rand_Reader sample_world) (bytes_of_string "session")
                   (take 16 sample_key) with
     | Ok (ciphertext, nonce) =>
         decrypt ciphertext nonce (take 16 sample_key)
         = Ok (bytes_of_string "session")
     | _ => False
     end.
Proof.
  split.
  - vm_compute. lia.
  - vm_compute. reflexivity.
Qed.

(** C6 (amended).  For every key whose length is none of 16, 24 and 32
    bytes, [encrypt] and [decrypt] both fail with the [KeySizeError] of
    that length, whatever the other arguments are. *)
Theorem encrypt_decrypt_invalid_key (key rand plaintext ciphertext nonce : bytes) :
  length key <> 16%nat -> length key <> 24%nat -> length key <> 32%nat ->
  encrypt rand plaintext key = Err (KeySizeError (Z.of_nat (length key)))
  /\ decrypt ciphertext nonce key = Err (KeySizeError (Z.of_nat (length key)))
  /\ InvalidKeyLength (KeySizeError (Z.of_nat (length key))).
Proof.
  intros H16 H24 H32.
  unfold encrypt, decrypt.
  rewrite (NewCipher_invalid key H16 H24 H32).
  repeat split. eexists. reflexivity.
Qed.

Lemma encrypt_decrypt_invalid_key_witness :
  let key := bytes_of_string "too short" in
  encrypt (rand_Reader sample_world) (bytes_of_string "session") key
    = Err (KeySizeError 9)
  /\ decrypt (bytes_of_string "0123456789abcdef0") (repeat 0 12%nat) key
    = Err (KeySizeError 9)
  /\ InvalidKeyLength (KeySizeError 9).
Proof.
  apply (encrypt_decrypt_invalid_key (bytes_of_string "too short"));
    vm_compute; lia.
Defined.

(** ** domainFromHost *)

Lemma strings_Index_ge (s : string) (c : ascii) : -1 <= strings_Index s c.
Proof.
  induction s as [|x s IH]; simpl; [lia|].
  case_bool_decide; [lia|].
  destruct (Z.ltb_spec (strings_Index s c) 0); lia.
Qed.

Lemma strings_Index_no_colon (s : string) :
  no_colon s = true -> strings_Index s ":"%char = -1.
Proof.
  induction s as [|x s IH]; simpl; [reflexivity|].
  intros [Hx Hs]%andb_true_iff.
  case_bool_decide; [discriminate|].
  rewrite (IH Hs). reflexivity.
Qed.

Lemma strings_Index_first_colon (pre post : string) :
  no_colon pre = true ->
  strings_Index (pre +:+ ":" +:+ post) ":"%char = Z.of_nat (String.length pre).
Proof.
  induction pre as [|x pre IH]; simpl.
  - intros _. reflexivity.
  - intros [Hx Hs]%andb_true_iff.
    case_bool_decide; [discriminate|].
    rewrite (IH Hs).
    destruct (Z.ltb_spec (Z.of_nat (String.length pre)) 0); lia.
Qed.

Lemma substring_prefix (pre rest : string) :
  substring 0 (String.length pre) (pre +:+ rest) = pre.
Proof.
  induction pre as [|x pre IH]; simpl.
  - destruct rest; reflexivity.
  - rewrite IH. reflexivity.
Qed.

(** A host is cut at its first colon, unless the colon is its first
    character. *)
Lemma domainFromHost_cut (pre post : string) :
  no_colon pre = true ->
  domainFromHost (pre +:+ ":" +:+ post)
  = (if bool_decide (pre = "") then ":" +:+ post else pre).
Proof.
  intros Hpre. unfold domainFromHost.
  rewrite (strings_Index_first_colon pre post Hpre).
  destruct pre as [|x pre].
  - reflexivity.
  - rewrite bool_decide_eq_false_2 by discriminate.
    replace (0 <? Z.of_nat (String.length (String x pre))) with true
      by (symmetry; apply Z.ltb_lt; simpl; lia).
    rewrite Nat2Z.id. apply substring_prefix.
Qed.

Lemma domainFromHost_no_colon (host : string) :
  no_colon host = true -> domainFromHost host = host.
Proof.
  intros Hhost. unfold domainFromHost.
  rewrite (strings_Index_no_colon host Hhost). reflexivity.
Qed.

(** C10.  Let the first colon of a host stand after [pre] (so [pre] has
    no colon).  [domainFromHost] returns [pre] when [pre] is not empty,
    that is when the colon is at an index greater than zero; a host
    whose first character is the colon is returned unchanged, and so is
    a host without a colon.  The bracketed IPv6 host ["[::1]:8080"] is
    therefore cut at its first colon, not at the port separator. *)
Theorem domainFromHost_first_colon (pre post : string) :
  no_colon pre = true ->
  domainFromHost (pre +:+ ":" +:+ post)
    = (if bool_decide (pre = "") then ":" +:+ post else pre)
  /\ domainFromHost pre = pre
  /\ domainFromHost "[::1]:8080" = "[".
Proof.
  intros Hpre. split; [|split].
  - apply domainFromHost_cut. exact Hpre.
  - apply domainFromHost_no_colon. exact Hpre.
  - reflexivity.
Qed.

Lemma domainFromHost_first_colon_witness :
  domainFromHost "localhost:8080" = "localhost"
  /\ domainFromHost "localhost" = "localhost"
  /\ domainFromHost "[::1]:8080" = "[".
Proof.
  apply (domainFromHost_first_colon "localhost" "8080"). reflexivity.
Defined.

(** ** Bytes in range *)

Lemma lor_shifted (m y k : Z) :
  0 <= k -> 0 <= y < 2 ^ k -> Z.lor (m * 2 ^ k) y = m * 2 ^ k + y.
Proof.
  intros Hk Hy.
  assert (Hland : Z.land (m * 2 ^ k) y = 0).
  { apply Z.bits_inj'. intros n Hn.
    rewrite Z.land_spec, Z.bits_0.
    destruct (Z.lt_ge_cases n k) as [Hlt | Hge].
    - rewrite Z.mul_pow2_bits_low by lia. reflexivity.
    - rewrite <- (Z.mod_small y (2 ^ k)) by lia.
      rewrite Z.mod_pow2_bits_high by lia. apply andb_false_r. }
  rewrite <- Z.lxor_lor by exact Hland.
  symmetry. apply Z.add_nocarry_lxor. exact Hland.
Qed.

Lemma land_63 (x : Z) : Z.land x 63 = x mod 64.
Proof. change 63 with (Z.ones 6). rewrite Z.land_ones by lia. reflexivity. Qed.

Lemma land_255 (x : Z) : Z.land x 255 = x mod 256.
Proof. change 255 with (Z.ones 8). rewrite Z.land_ones by lia. reflexivity. Qed.

(** Three bytes as one 24-bit number. *)
Lemma join_bytes (a b c : Z) :
  is_byte a -> is_byte b -> is_byte c ->
  Z.lor (Z.lor (Z.shiftl a 16) (Z.shiftl b 8)) c = a * 65536 + b * 256 + c.
Proof.
  unfold is_byte. intros Ha Hb Hc.
  rewrite !Z.shiftl_mul_pow2 by lia.
  rewrite (lor_shifted a (b * 2 ^ 8) 16) by lia.
  replace (a * 2 ^ 16 + b * 2 ^ 8) with ((a * 256 + b) * 2 ^ 8) by lia.
  rewrite (lor_shifted (a * 256 + b) c 8) by lia.
  lia.
Qed.

(** Four 6-bit digits as one 24-bit number. *)
Lemma join_sextets (s0 s1 s2 s3 : Z) :
  0 <= s0 < 64 -> 0 <= s1 < 64 -> 0 <= s2 < 64 -> 0 <= s3 < 64 ->
  Z.lor (Z.lor (Z.lor (Z.shiftl s0 18) (Z.shiftl s1 12)) (Z.shiftl s2 6)) s3
  = s0 * 262144 + s1 * 4096 + s2 * 64 + s3.
Proof.
  intros H0 H1 H2 H3.
  rewrite !Z.shiftl_mul_pow2 by lia.
  rewrite (lor_shifted s0 (s1 * 2 ^ 12) 18) by lia.
  replace (s0 * 2 ^ 18 + s1 * 2 ^ 12) with ((s0 * 64 + s1) * 2 ^ 12) by lia.
  rewrite (lor_shifted (s0 * 64 + s1) (s2 * 2 ^ 6) 12) by lia.
  replace ((s0 * 64 + s1) * 2 ^ 12 + s2 * 2 ^ 6)
    with (((s0 * 64 + s1) * 64 + s2) * 2 ^ 6) by lia.
  rewrite (lor_shifted ((s0 * 64 + s1) * 64 + s2) s3 6) by lia.
  lia.
Qed.

(** The bytes of the quantum made of the four digits of a 24-bit number
    are the three bytes of the number. *)
Lemma quantum_of_number (v : Z) (dlen : nat) :
  0 <= v < 16777216 ->
  base64.quantum_bytes
    [Z.land (Z.shiftr v 18) 63; Z.land (Z.shiftr v 12) 63;
     Z.land (Z.shiftr v 6) 63; Z.land v 63] dlen
  = take (dlen - 1) [v / 65536; (v / 256) mod 256; v mod 256].
Proof.
  intros Hv. unfold base64.quantum_bytes. cbn [nth].
  rewrite !land_63, !Z.shiftr_div_pow2 by lia.
  change (2 ^ 0) with 1 in *.
  rewrite join_sextets by (apply Z.mod_pos_bound; lia).
  change (2 ^ 18) with 262144. change (2 ^ 12) with 4096. change (2 ^ 6) with 64.
  replace ((v / 262144) mod 64 * 262144 + (v / 4096) mod 64 * 4096
           + (v / 64) mod 64 * 64 + v mod 64) with v
    by (Z.div_mod_to_equations; lia).
  rewrite !land_255.
  change (2 ^ 16) with 65536. change (2 ^ 8) with 256. change (2 ^ 0) with 1.
  do 2 f_equal. Z.div_mod_to_equations; lia.
Qed.

(** ** base64: decoding an encoding *)

Lemma decodeMap_encode (v : Z) :
  0 <= v < 64 -> base64.decodeMap (base64.encode v) = v.
Proof.
  intros Hv.
  assert (Hall : Forall (fun i => base64.decodeMap (base64.encode (Z.of_nat i))
                                  = Z.of_nat i) (seq 0 64)).
  { apply (bool_decide_unpack _). vm_compute. exact I. }
  rewrite Forall_forall in Hall.
  specialize (Hall (Z.to_nat v)).
  rewrite Z2Nat.id in Hall by lia.
  apply Hall. apply elem_of_seq. lia.
Qed.

Lemma list_ind3 {A} (P : list A -> Prop) :
  P [] -> (forall a, P [a]) -> (forall a b, P [a; b]) ->
  (forall a b c l, P l -> P (a :: b :: c :: l)) ->
  forall l, P l.
Proof.
  intros H0 H1 H2 H3 l.
  assert (Hn : forall n l, (length l <= n)%nat -> P l).
  { intros n. induction n as [|n IH]; intros [|a [|b [|c k]]] Hlen;
      simpl in Hlen; auto; try lia.
    apply H3, IH. lia. }
  apply (Hn (length l)). lia.
Qed.

Lemma sextet_range (x : Z) : 0 <= Z.land x 63 < 64.
Proof. rewrite land_63. apply Z.mod_pos_bound. lia. Qed.

Lemma decode_loop_digit (v : Z) (rest : bytes) (si : Z) (dbuf : list Z) (dst : bytes) :
  0 <= v < 64 ->
  base64.decode_loop (base64.encode v :: rest) si dbuf dst
  = if (length (dbuf ++ [v]) =? 4)%nat
    then base64.decode_loop rest (si + 1) [] (dst ++ base64.quantum_bytes (dbuf ++ [v]) 4)
    else base64.decode_loop rest (si + 1) (dbuf ++ [v]) dst.
Proof.
  intros Hv. cbn [base64.decode_loop]. cbv zeta.
  rewrite decodeMap_encode by exact Hv.
  destruct (Z.eqb_spec v 255); [lia | reflexivity].
Qed.

Lemma quantum_full (a b c : Z) :
  is_byte a -> is_byte b -> is_byte c ->
  let val := Z.lor (Z.lor (Z.shiftl a 16) (Z.shiftl b 8)) c in
  base64.quantum_bytes
    [Z.land (Z.shiftr val 18) 63; Z.land (Z.shiftr val 12) 63;
     Z.land (Z.shiftr val 6) 63; Z.land val 63] 4
  = [a; b; c].
Proof.
  intros Ha Hb Hc val. subst val.
  rewrite join_bytes by assumption.
  unfold is_byte in *.
  rewrite quantum_of_number by lia.
  cbn [take Nat.sub].
  f_equal; [|f_equal; [|f_equal]]; Z.div_mod_to_equations; lia.
Qed.

Lemma quantum_two (a b : Z) :
  is_byte a -> is_byte b ->
  let val := Z.lor (Z.shiftl a 16) (Z.shiftl b 8) in
  base64.quantum_bytes
    [Z.land (Z.shiftr val 18) 63; Z.land (Z.shiftr val 12) 63;
     Z.land (Z.shiftr val 6) 63] 3
  = [a; b].
Proof.
  intros Ha Hb val.
  assert (Hval : val = a * 65536 + b * 256 + 0).
  { subst val. rewrite <- (join_bytes a b 0) by (unfold is_byte in *; lia).
    symmetry. apply Z.lor_0_r. }
  unfold is_byte in *.
  transitivity (base64.quantum_bytes
                  [Z.land (Z.shiftr val 18) 63; Z.land (Z.shiftr val 12) 63;
                   Z.land (Z.shiftr val 6) 63; Z.land val 63] 3).
  - unfold base64.quantum_bytes. cbn [nth].
    replace (Z.land val 63) with 0; [reflexivity|].
    rewrite land_63, Hval. Z.div_mod_to_equations; lia.
  - rewrite quantum_of_number by lia. rewrite Hval.
    cbn [take Nat.sub].
    f_equal; [|f_equal]; Z.div_mod_to_equations; lia.
Qed.

Lemma quantum_one (a : Z) :
  is_byte a ->
  let val := Z.shiftl a 16 in
  base64.quantum_bytes
    [Z.land (Z.shiftr val 18) 63; Z.land (Z.shiftr val 12) 63] 2
  = [a].
Proof.
  intros Ha val.
  assert (Hval : val = a * 65536) by (subst val; apply Z.shiftl_mul_pow2; lia).
  unfold is_byte in *.
  transitivity (base64.quantum_bytes
                  [Z.land (Z.shiftr val 18) 63; Z.land (Z.shiftr val 12) 63;
                   Z.land (Z.shiftr val 6) 63; Z.land val 63] 2).
  - unfold base64.quantum_bytes. cbn [nth].
    replace (Z.land val 63) with 0
      by (rewrite land_63, Hval; Z.div_mod_to_equations; lia).
    replace (Z.land (Z.shiftr val 6) 63) with 0; [reflexivity|].
    rewrite land_63, Z.shiftr_div_pow2, Hval by lia.
    change (2 ^ 6) with 64. Z.div_mod_to_equations; lia.
  - rewrite quantum_of_number by lia. rewrite Hval.
    cbn [take Nat.sub].
    f_equal. Z.div_mod_to_equations; lia.
Qed.

(** Decoding what [Encode] wrote gives the bytes back, without error. *)
Lemma decode_Encode (bs : bytes) :
  Forall is_byte bs ->
  forall (si : Z) (dst : bytes),
    base64.decode_loop (base64.Encode bs) si [] dst = (dst ++ bs, None).
Proof.
  induction bs as [|a|a b|a b c rest IH] using list_ind3; intros Hbs si dst.
  - simpl. rewrite app_nil_r. reflexivity.
  - apply Forall_cons in Hbs as [Ha _].
    cbn [base64.Encode]. cbv zeta.
    rewrite !decode_loop_digit by apply sextet_range.
    cbn [app length Nat.eqb].
    cbn [base64.decode_loop]. cbv zeta.
    change (base64.decodeMap base64.StdPadding) with 255.
    cbn [Z.eqb negb Pos.eqb base64.is_newline orb base64.StdPadding length
         base64.skip_newlines].
    unfold base64.finish_padded. cbn [base64.skip_newlines length].
    rewrite (quantum_one a Ha). reflexivity.
  - apply Forall_cons in Hbs as [Ha Hbs]. apply Forall_cons in Hbs as [Hb _].
    cbn [base64.Encode]. cbv zeta.
    rewrite !decode_loop_digit by apply sextet_range.
    cbn [app length Nat.eqb].
    cbn [base64.decode_loop]. cbv zeta.
    change (base64.decodeMap base64.StdPadding) with 255.
    cbn [Z.eqb negb Pos.eqb base64.is_newline orb base64.StdPadding length].
    unfold base64.finish_padded. cbn [base64.skip_newlines length].
    rewrite (quantum_two a b Ha Hb). reflexivity.
  - apply Forall_cons in Hbs as [Ha Hbs]. apply Forall_cons in Hbs as [Hb Hbs].
    apply Forall_cons in Hbs as [Hc Hbs].
    cbn [base64.Encode]. cbv zeta.
    rewrite !decode_loop_digit by apply sextet_range.
    cbn [app length Nat.eqb].
    rewrite (quantum_full a b c Ha Hb Hc).
    rewrite (IH Hbs). rewrite <- app_assoc. reflexivity.
Qed.

(** ** Ranges *)

Lemma is_byte_land (x : Z) : is_byte (Z.land x 255).
Proof. unfold is_byte. rewrite land_255. apply Z.mod_pos_bound. lia. Qed.

Lemma is_byte_lxor (a b : Z) : is_byte a -> is_byte b -> is_byte (Z.lxor a b).
Proof.
  unfold is_byte. intros Ha Hb.
  assert (Hhigh : forall x n, 0 <= x < 256 -> 8 <= n -> Z.testbit x n = false).
  { intros x n Hx Hn. rewrite <- (Z.mod_small x (2 ^ 8)) by lia.
    apply Z.mod_pow2_bits_high. lia. }
  replace (Z.lxor a b) with (Z.lxor a b mod 2 ^ 8).
  - apply Z.mod_pos_bound. lia.
  - apply Z.bits_inj'. intros n Hn.
    destruct (Z.lt_ge_cases n 8) as [Hlt | Hge].
    + apply Z.mod_pow2_bits_low. exact Hlt.
    + rewrite Z.mod_pow2_bits_high by lia.
      rewrite Z.lxor_spec, (Hhigh a n Ha Hge), (Hhigh b n Hb Hge). reflexivity.
Qed.

Lemma is_byte_ascii (c : ascii) : is_byte (byte_of_ascii c).
Proof.
  unfold is_byte, byte_of_ascii.
  pose proof (N_ascii_bounded c) as Hc. lia.
Qed.

Lemma bytes_of_string_range (s : string) : Forall is_byte (bytes_of_string s).
Proof.
  unfold bytes_of_string. apply Forall_map, Forall_forall. intros c _.
  apply is_byte_ascii.
Qed.

Lemma xor_bytes_range (a k : bytes) :
  Forall is_byte a -> Forall is_byte k -> Forall is_byte (xor_bytes a k).
Proof.
  intros Ha. revert k. induction Ha as [|x a Hx Ha IH]; intros k Hk.
  - constructor.
  - destruct Hk as [|y k Hy Hk]; [constructor|].
    cbn. constructor; [apply is_byte_lxor; assumption | apply IH; assumption].
Qed.

Lemma nth_range (l : bytes) (i : nat) : Forall is_byte l -> is_byte (nth i l 0).
Proof.
  intros Hl. destruct (nth_in_or_default i l 0) as [Hin | ->].
  - rewrite Forall_forall in Hl. apply Hl, list_elem_of_In, Hin.
  - unfold is_byte. lia.
Qed.

Lemma sbox_range (b : Z) : is_byte (aes.sbox b).
Proof.
  apply nth_range. apply (bool_decide_unpack _). vm_compute. exact I.
Qed.

Lemma word_bytes_range (w : Z) : Forall is_byte (aes.word_bytes w).
Proof. unfold aes.word_bytes. repeat constructor; apply is_byte_land. Qed.

Lemma roundKey_range (enc : list Z) (r : nat) : Forall is_byte (aes.roundKey enc r).
Proof. unfold aes.roundKey. rewrite !Forall_app. auto using word_bytes_range. Qed.

Lemma addRoundKey_range (st rk : bytes) :
  Forall is_byte st -> Forall is_byte rk -> Forall is_byte (aes.addRoundKey st rk).
Proof.
  intros Hst Hrk. unfold aes.addRoundKey, aes.at16.
  apply Forall_map, Forall_forall. intros i _.
  apply is_byte_lxor; apply nth_range; assumption.
Qed.

Lemma shiftRows_range (st : bytes) :
  Forall is_byte st -> Forall is_byte (aes.shiftRows st).
Proof.
  intros Hst. unfold aes.shiftRows, aes.at16.
  apply Forall_map, Forall_forall. intros i _. apply nth_range, Hst.
Qed.

Lemma subBytes_range (st : bytes) : Forall is_byte (aes.subBytes st).
Proof.
  unfold aes.subBytes. apply Forall_map, Forall_forall. intros b _. apply sbox_range.
Qed.

(** The cipher writes bytes, whatever it reads. *)
Lemma aes_Encrypt_range (c : aes.Block) (src : bytes) :
  Forall is_byte (aes.Encrypt c src).
Proof.
  unfold aes.Encrypt, aes.encryptBlock.
  apply addRoundKey_range; [apply shiftRows_range, subBytes_range | apply roundKey_range].
Qed.

Lemma counter_stream_range (g : cipher.AEAD) (nonce : bytes) (n : nat) (c : Z) :
  Forall is_byte (cipher.counter_stream g nonce n c).
Proof.
  revert c. induction n as [|n IH]; intros c; cbn [cipher.counter_stream].
  - constructor.
  - apply Forall_app. split; [apply aes_Encrypt_range | apply IH].
Qed.

Lemma Seal_range (g : cipher.AEAD) (nonce plaintext data sealed : bytes) :
  Forall is_byte plaintext ->
  cipher.Seal g nonce plaintext data = Ok sealed ->
  Forall is_byte sealed.
Proof.
  intros Hpt. unfold cipher.Seal.
  destruct (negb _); [discriminate|]. intros [= <-].
  apply Forall_app. split.
  - apply xor_bytes_range; [exact Hpt | apply counter_stream_range].
  - unfold cipher.auth. apply xor_bytes_range; [|apply aes_Encrypt_range].
    unfold cipher.be_bytes. apply Forall_map, Forall_forall. intros i _.
    apply is_byte_land.
Qed.

Lemma bytes_of_string_of_bytes (l : bytes) :
  Forall is_byte l -> bytes_of_string (string_of_bytes l) = l.
Proof.
  intros Hl. unfold bytes_of_string, string_of_bytes.
  rewrite list_ascii_of_string_of_list_ascii, map_map.
  induction Hl as [|x l Hx Hl IH]; [reflexivity|].
  cbn [map]. rewrite IH. f_equal.
  unfold byte_of_ascii, ascii_of_byte, is_byte in *.
  rewrite N_ascii_embedding by lia. lia.
Qed.

Lemma string_of_bytes_length (l : bytes) :
  String.length (string_of_bytes l) = length l.
Proof.
  unfold string_of_bytes. induction l as [|x l IH]; [reflexivity|].
  cbn. rewrite IH. reflexivity.
Qed.

Lemma encode_range (v : Z) : is_byte (base64.encode v).
Proof. apply nth_range, bytes_of_string_range. Qed.

Lemma Encode_range (bs : bytes) : Forall is_byte (base64.Encode bs).
Proof.
  assert (Hpad : is_byte base64.StdPadding) by (unfold is_byte, base64.StdPadding; lia).
  induction bs as [|a|a b|a b c rest IH] using list_ind3; cbn [base64.Encode];
    cbv zeta;
    repeat (constructor; [first [apply encode_range | exact Hpad]|]);
    first [constructor | exact IH].
Qed.

Lemma Encode_length (bs : bytes) :
  length (base64.Encode bs) = (4 * ((length bs + 2) / 3))%nat.
Proof.
  induction bs as [|a|a b|a b c rest IH] using list_ind3; try reflexivity.
  cbn [base64.Encode length]. rewrite IH.
  replace (S (S (S (length rest))) + 2)%nat with (1 * 3 + (length rest + 2))%nat by lia.
  rewrite Nat.div_add_l by lia. lia.
Qed.

(** [DecodeString] gives back what [EncodeToString] was given, in a
    buffer that is at least as long. *)
Lemma DecodeString_EncodeToString (bs : bytes) :
  Forall is_byte bs ->
  exists pad,
    base64.DecodeString (base64.EncodeToString bs)
    = (mkSlice (bs ++ repeat 0 pad) (length bs), None).
Proof.
  intros Hbs. unfold base64.DecodeString, base64.EncodeToString.
  rewrite bytes_of_string_of_bytes by apply Encode_range.
  rewrite (decode_Encode bs Hbs). cbn [app].
  eexists. reflexivity.
Qed.

(** ** The bytes of a serialized session *)

Lemma hex_digit_range (n : Z) : is_byte (json.hex_digit n).
Proof.
  unfold json.hex_digit.
  destruct (nth_in_or_default (Z.to_nat n) (bytes_of_string json.hex) 48) as [Hin | ->].
  - pose proof (bytes_of_string_range json.hex) as Hall.
    rewrite Forall_forall in Hall. apply Hall, list_elem_of_In, Hin.
  - unfold is_byte. lia.
Qed.

Ltac range_step :=
  first [ assumption
        | apply bytes_of_string_range
        | apply hex_digit_range
        | apply is_byte_ascii
        | apply Forall_app; split
        | apply Forall_nil_2
        | apply Forall_cons_2
        | (unfold is_byte; lia) ].

Lemma escape_string_range (s : bytes) :
  Forall is_byte s ->
  forall (skip : nat) (copying : bool), Forall is_byte (json.escape_string skip copying s).
Proof.
  intros Hs. induction Hs as [|b t Hb Ht IH]; intros skip copying.
  - constructor.
  - cbn [json.escape_string].
    destruct skip as [|k].
    + destruct (b <? 128).
      * apply Forall_app. split; [|apply IH].
        destruct (json.htmlSafe b); [repeat range_step|].
        unfold json.escape_ascii, json.backslash_u.
        repeat match goal with
               | |- context [if ?c then _ else _] => destruct c
               end; repeat range_step.
      * destruct (json.rune_size (b :: t)).
        -- unfold json.backslash_u. repeat range_step. apply IH.
        -- assert (Hesc : forall d, Forall is_byte
                     (json.backslash_u ++ bytes_of_string d
                      ++ json.escape_string n false t)).
           { intros d. unfold json.backslash_u. repeat range_step. apply IH. }
           assert (Hcopy : Forall is_byte (b :: json.escape_string n true t)).
           { repeat range_step. apply IH. }
           repeat match goal with
                  | |- context [match ?x with _ => _ end] => destruct x
                  end; first [apply Hesc | exact Hcopy].
    + apply Forall_app. split; [|apply IH].
      destruct copying; repeat range_step.
Qed.

Lemma encode_string_range (s : string) : Forall is_byte (json.encode_string s).
Proof.
  unfold json.encode_string.
  repeat first [apply escape_string_range | range_step].
Qed.

Lemma encode_State_range (s : State) : Forall is_byte (json.encode_State s).
Proof.
  unfold json.encode_State, json.encode_User, json.encode_int, json.encode_bool.
  repeat first [apply encode_string_range | range_step].
Qed.

(** What a successful [encrypt] returned: a 12-byte nonce, bytes only,
    and a sealed text that [decrypt] opens. *)
Lemma encrypt_Ok (rand plaintext key sealed nonce : bytes) :
  Forall is_byte rand ->
  Forall is_byte plaintext ->
  encrypt rand plaintext key = Ok (sealed, nonce) ->
  length nonce = 12%nat
  /\ length sealed = (length plaintext + 16)%nat
  /\ Forall is_byte (nonce ++ sealed)
  /\ decrypt sealed nonce key = Ok plaintext.
Proof.
  intros Hrand Hpt. unfold encrypt, decrypt.
  destruct (aes.NewCipher key) as [blk| |]; cbn [mbind result_bind]; try discriminate.
  unfold io.ReadFull.
  destruct (Nat.leb_spec 12 (length rand)) as [Hlen|];
    [|destruct rand; discriminate].
  cbn [mbind result_bind].
  unfold cipher.NewGCM. cbn [Z.eqb aes.BlockSize cipher.gcmBlockSize Pos.eqb].
  cbn [mbind result_bind].
  assert (Hnonce : length (take 12 rand) = 12%nat) by (rewrite length_take; lia).
  destruct (Seal_Open (cipher.mkGCM blk) (take 12 rand) plaintext [] Hnonce)
    as (sealed' & Hseal & Hslen & Hopen).
  rewrite Hseal. cbn [mbind result_bind]. intros [= <- <-].
  rewrite Hopen. cbn [mbind result_bind].
  repeat split; try assumption.
  apply Forall_app. split.
  - apply Forall_take. exact Hrand.
  - eapply Seal_range; eassumption.
Qed.

Section NextRequest.

Context `{!json.Decoder (option State)}.

Variable sso : SSO.

(** The cookie of a login is recovered on the next request: when the
    first [travis.sso] cookie of a request holds the base64 of a nonce
    and of the text [encrypt] sealed for a session under the configured
    key, [stateFromRequest] returns what the JSON decoder makes of the
    serialization of that session. *)
Theorem stateFromRequest_login_cookie
    (rand : bytes) (state : State) (sealed nonce : bytes)
    (req : http.Request) (cookie : http.Cookie) :
  Forall is_byte rand ->
  encrypt rand (json.encode_State state) (EncryptionKey sso) = Ok (sealed, nonce) ->
  http.Request_Cookie req "travis.sso" = Ok cookie ->
  http.Value cookie = base64.EncodeToString (nonce ++ sealed) ->
  stateFromRequest sso req
  = json.decode_result (json.Decode (A := option State) (json.encode_State state)).
Proof.
  intros Hrand Henc Hcookie Hvalue.
  destruct (encrypt_Ok _ _ _ _ _ Hrand (encode_State_range state) Henc)
    as (Hnonce & Hsealed & Hrange & Hdec).
  destruct (DecodeString_EncodeToString (nonce ++ sealed) Hrange) as [pad Hdecode].
  unfold stateFromRequest. rewrite Hcookie, Hvalue, Hdecode.
  unfold slice_to, cap. cbn [array len].
  destruct (Nat.ltb_spec (length ((nonce ++ sealed) ++ repeat 0 pad)) 12) as [Hshort|_].
  { rewrite !length_app in Hshort. lia. }
  cbn [mbind result_bind]. unfold slice_from. cbn [array len].
  destruct (Nat.ltb_spec (length (nonce ++ sealed)) 12) as [Hshort|_].
  { rewrite length_app in Hshort. lia. }
  cbn [mbind result_bind len array negb].
  rewrite Nat.eqb_refl. cbn [negb].
  replace (length (nonce ++ sealed) - 12)%nat with (length sealed)
    by (rewrite length_app; lia).
  destruct (Nat.eqb_spec (length sealed) 0) as [Hzero|_]; [lia|].
  unfold slice_bytes. cbn [array len].
  replace (take 12 ((nonce ++ sealed) ++ repeat 0 pad)) with nonce.
  2:{ rewrite <- app_assoc, <- Hnonce, take_app_length. reflexivity. }
  replace (take (length sealed) (drop 12 ((nonce ++ sealed) ++ repeat 0 pad)))
    with sealed.
  2:{ rewrite <- app_assoc, <- Hnonce, drop_app_length, take_app_length. reflexivity. }
  rewrite Hdec. cbn [mbind result_bind].
  destruct (json.decode_result _); reflexivity.
Qed.

End NextRequest.

(** ** The Set-Cookie line *)

(** A byte [sanitizeCookieValue] keeps and does not quote. *)
Definition cookie_octet (c : ascii) : bool :=
  http.validCookieValueByte c
  && negb (bool_decide (c = " "%char) || bool_decide (c = ","%char)).

Lemma encode_cookie_octet (x : Z) :
  cookie_octet (ascii_of_byte (base64.encode (Z.land x 63))) = true.
Proof.
  assert (Hall : Forall (fun i => cookie_octet
                                    (ascii_of_byte (base64.encode (Z.of_nat i))) = true)
                        (seq 0 64)).
  { apply (bool_decide_unpack _). vm_compute. exact I. }
  rewrite Forall_forall in Hall.
  pose proof (sextet_range x) as Hx.
  specialize (Hall (Z.to_nat (Z.land x 63))).
  rewrite Z2Nat.id in Hall by lia.
  apply Hall. apply elem_of_seq. lia.
Qed.

Lemma Encode_cookie_octets (bs : bytes) :
  Forall (fun b => cookie_octet (ascii_of_byte b) = true) (base64.Encode bs).
Proof.
  assert (Hpad : cookie_octet (ascii_of_byte base64.StdPadding) = true) by reflexivity.
  induction bs as [|a|a b|a b c rest IH] using list_ind3; cbn [base64.Encode];
    cbv zeta;
    repeat (apply Forall_cons_2; [first [apply encode_cookie_octet | exact Hpad]|]);
    first [apply Forall_nil_2 | exact IH].
Qed.

(** A value made of such bytes is printed as it is: none is dropped and
    the value is not put between quotes. *)
Lemma sanitizeCookieValue_plain (l : list ascii) :
  Forall (fun c => cookie_octet c = true) l ->
  http.sanitizeCookieValue (string_of_list_ascii l) = string_of_list_ascii l.
Proof.
  intros Hl.
  assert (Hfilter : List.filter http.validCookieValueByte l = l).
  { induction Hl as [|c l Hc Hl IH]; [reflexivity|].
    cbn [List.filter]. unfold cookie_octet in Hc.
    apply andb_prop in Hc. destruct Hc as [-> _]. f_equal. exact IH. }
  assert (Hplain : existsb (fun c => bool_decide (c = " "%char)
                                     || bool_decide (c = ","%char)) l = false).
  { clear Hfilter. induction Hl as [|c l Hc Hl IH]; [reflexivity|].
    cbn [existsb]. unfold cookie_octet in Hc.
    apply andb_prop in Hc. destruct Hc as [_ Hc].
    apply negb_true_iff in Hc. rewrite Hc. exact IH. }
  unfold http.sanitizeCookieValue, http.sanitizeOrWarn. cbv zeta.
  rewrite !list_ascii_of_string_of_list_ascii, Hfilter, Hplain.
  destruct (_ =? _)%nat; reflexivity.
Qed.

Lemma sanitizeCookieValue_base64 (bs : bytes) :
  http.sanitizeCookieValue (base64.EncodeToString bs) = base64.EncodeToString bs.
Proof.
  unfold base64.EncodeToString, string_of_bytes.
  apply sanitizeCookieValue_plain, Forall_map, Encode_cookie_octets.
Qed.

(** A time at or after the Unix epoch is printed. *)
Lemma validCookieExpires_epoch (t : Z) : 0 <= t -> http.validCookieExpires t = true.
Proof.
  intros Ht. unfold http.validCookieExpires, time.Year, time.Date.
  cbv zeta. cbn [fst]. apply Z.leb_le.
  match goal with
  | |- context [if ?b then 1 else 0] => destruct b
  end; Z.div_mod_to_equations; lia.
Qed.

(** The line [Cookie.String] prints for a [travis.sso] cookie of path
    [/]. *)
Lemma Cookie_String_session (v d : string) (t : Z) :
  http.Cookie_String (http.mkCookie "travis.sso" v "/" d t)
  = "travis.sso=" +:+ http.sanitizeCookieValue v +:+ "; Path=/"
    +:+ (if http.validCookieDomain d
         then "; Domain=" +:+ http.withoutLeadingDot d else "")
    +:+ (if http.validCookieExpires t then "; Expires=" +:+ time.Format t else "").
Proof.
  unfold http.Cookie_String.
  cbn [http.Name http.Value http.Path http.Domain http.Expires].
  change (http.isCookieNameValid "travis.sso") with true.
  change (http.sanitizeCookiePath "/") with "/".
  destruct d as [|c d]; reflexivity.
Qed.

Lemma SetCookie_session (w : http.ResponseWriter) (v d : string) (t : Z) :
  http.SetCookie w (http.mkCookie "travis.sso" v "/" d t)
  = http.mkResponseWriter (http.wHeader w)
      (http.SetCookies w ++ [http.Cookie_String (http.mkCookie "travis.sso" v "/" d t)])
      (http.Status w) (http.Body w).
Proof.
  unfold http.SetCookie. cbv zeta.
  rewrite bool_decide_eq_false_2; [reflexivity|].
  rewrite Cookie_String_session. discriminate.
Qed.

(** The line that clears the session. *)
Lemma Cookie_String_logout (d : string) :
  http.Cookie_String (http.mkCookie "travis.sso" "" "/" d logout_expiry)
  = "travis.sso=; Path=/"
    +:+ (if http.validCookieDomain d
         then "; Domain=" +:+ http.withoutLeadingDot d else "")
    +:+ "; Expires=Thu, 01 Jan 1970 01:00:00 GMT".
Proof. rewrite Cookie_String_session. reflexivity. Qed.

(** The line of a login: the base64 of the session is printed as it
    is. *)
Lemma SetCookie_login (w : http.ResponseWriter) (bs : bytes) (d : string) (t : Z) :
  http.SetCookie w (http.mkCookie "travis.sso" (base64.EncodeToString bs) "/" d t)
  = http.mkResponseWriter (http.wHeader w)
      (http.SetCookies w
       ++ ["travis.sso=" +:+ base64.EncodeToString bs +:+ "; Path=/"
           +:+ (if http.validCookieDomain d
                then "; Domain=" +:+ http.withoutLeadingDot d else "")
           +:+ (if http.validCookieExpires t
                then "; Expires=" +:+ time.Format t else "")])
      (http.Status w) (http.Body w).
Proof.
  rewrite SetCookie_session, Cookie_String_session, sanitizeCookieValue_base64.
  reflexivity.
Qed.

(** [domainFromHost] keeps the first byte of a host. *)
Lemma domainFromHost_head (c : ascii) (rest : string) :
  exists rest', domainFromHost (String c rest) = String c rest'.
Proof.
  unfold domainFromHost. cbv zeta.
  destruct (Z.ltb_spec 0 (strings_Index (String c rest) ":"%char)) as [Hpos|_].
  - destruct (Z.to_nat (strings_Index (String c rest) ":"%char)) as [|n] eqn:Hn; [lia|].
    eexists. reflexivity.
  - eexists. reflexivity.
Qed.

(** net/http takes no cookie domain that begins with a bracket: the
    cookie of a gateway published at an IPv6 literal has no [Domain]. *)
Lemma validCookieDomain_bracket (rest : string) :
  http.validCookieDomain (domainFromHost (String "[" rest)) = false.
Proof.
  destruct (domainFromHost_head "[" rest) as [rest' ->].
  unfold http.validCookieDomain. apply orb_false_iff. split.
  - unfold http.isCookieDomainName.
    destruct (_ =? _)%nat; [reflexivity|].
    destruct (_ <? _)%nat; reflexivity.
  - unfold http.isIPv4. apply andb_false_iff. right. reflexivity.
Qed.

Lemma setLogoutCookie_written (sso : SSO) (w : http.ResponseWriter) :
  setLogoutCookie sso w
  = http.mkResponseWriter (http.wHeader w)
      (http.SetCookies w
       ++ ["travis.sso=; Path=/"
           +:+ (if http.validCookieDomain (domainFromHost (url.Host (AppPublicURL sso)))
                then "; Domain="
                     +:+ http.withoutLeadingDot
                           (domainFromHost (url.Host (AppPublicURL sso)))
                else "")
           +:+ "; Expires=Thu, 01 Jan 1970 01:00:00 GMT"])
      (http.Status w) (http.Body w).
Proof.
  unfold setLogoutCookie. rewrite SetCookie_session, Cookie_String_logout. reflexivity.
Qed.

(** ** The response writer *)

(** Unfold the writes of a handler on a writer whose header is not yet
    written ([Hstatus]) and read the resulting fields off. *)
Ltac written Hstatus :=
  unfold http.Error, http.Write, http.WriteHeader, http.withHeader;
  cbn [http.Status http.Body http.SetCookies http.wHeader];
  rewrite Hstatus;
  cbn [http.Status http.Body http.SetCookies http.wHeader];
  auto.

(** ** Session recovery *)

Lemma DecodeString_cap (s : string) (decoded : slice) (err : option error) :
  base64.DecodeString s = (decoded, err) -> (len decoded <= cap decoded)%nat.
Proof.
  unfold base64.DecodeString.
  destruct (base64.decode_loop (bytes_of_string s) 0 [] []) as [dst e].
  intros [= <- _]. unfold cap. simpl. rewrite length_app. lia.
Qed.

Section SessionRecovery.

Context `{!json.Decoder (option State)} `{!json.Decoder APIMessage} `{!url.Stringer}.

Variable sso : SSO.
Variable world : World.

(** C1 (what the code does on the claim's inputs).  When the cookie
    decodes to fewer than 12 bytes, [stateFromRequest] returns no
    error: one of its two slice expressions is out of range and the
    call panics.  The length checks stand after the slicing. *)
Theorem stateFromRequest_short_cookie_panics
    (req : http.Request) (cookie : http.Cookie) (decoded : slice) :
  http.Request_Cookie req "travis.sso" = Ok cookie ->
  base64.DecodeString (http.Value cookie) = (decoded, None) ->
  (len decoded < 12)%nat ->
  stateFromRequest sso req = Panic "runtime error: slice bounds out of range".
Proof.
  intros Hcookie Hdecode Hlen.
  unfold stateFromRequest. rewrite Hcookie, Hdecode.
  unfold slice_to.
  destruct (cap decoded <? 12)%nat; [reflexivity|].
  cbn [mbind result_bind]. unfold slice_from.
  destruct (Nat.ltb_spec (len decoded) 12); [reflexivity | lia].
Qed.

(** C7.  When the cookie decodes to exactly 12 bytes, a nonce and no
    ciphertext, [stateFromRequest] returns the error "encrypted cookie
    missing", a [MalformedCookie]; the key plays no part, so nothing
    was decrypted. *)
Theorem stateFromRequest_empty_ciphertext
    (req : http.Request) (cookie : http.Cookie) (decoded : slice) :
  http.Request_Cookie req "travis.sso" = Ok cookie ->
  base64.DecodeString (http.Value cookie) = (decoded, None) ->
  len decoded = 12%nat ->
  stateFromRequest sso req = Err (errors_New "encrypted cookie missing")
  /\ MalformedCookie (errors_New "encrypted cookie missing").
Proof.
  intros Hcookie Hdecode Hlen.
  pose proof (DecodeString_cap _ _ _ Hdecode) as Hcap.
  split; [|right; reflexivity].
  unfold stateFromRequest. rewrite Hcookie, Hdecode.
  unfold slice_to.
  destruct (Nat.ltb_spec (cap decoded) 12); [lia|].
  cbn [mbind result_bind]. unfold slice_from.
  destruct (Nat.ltb_spec (len decoded) 12); [lia|].
  cbn [mbind result_bind len]. rewrite Hlen. reflexivity.
Qed.

(** ** handleRequest *)

(** X1.  Every error of session recovery other than the absent cookie is
    answered with status 500, the text of the error, and one more
    [Set-Cookie] line, which empties [travis.sso] and expires it at
    01:00 on 1 January 1970.  The line carries, as [Domain], the public
    host cut by [domainFromHost] when net/http accepts that as a cookie
    domain, and no [Domain] otherwise. *)
Lemma handleRequest_rejected_cookie
    (w : http.ResponseWriter) (req : http.Request) (err : error) :
  stateFromRequest sso req = Err err ->
  err <> ErrNoCookie ->
  http.Status w = None ->
  exists w',
    handleRequest sso world w req = Done w'
    /\ http.Status w' = Some 500
    /\ http.Body w' = http.Body w +:+ Error_ err +:+ newline
    /\ http.SetCookies w'
       = http.SetCookies w
         ++ ["travis.sso=; Path=/"
             +:+ (if http.validCookieDomain
                       (domainFromHost (url.Host (AppPublicURL sso)))
                  then "; Domain="
                       +:+ http.withoutLeadingDot
                             (domainFromHost (url.Host (AppPublicURL sso)))
                  else "")
             +:+ "; Expires=Thu, 01 Jan 1970 01:00:00 GMT"].
Proof.
  intros Hstate Herr Hstatus.
  unfold handleRequest. rewrite Hstate.
  rewrite bool_decide_eq_false_2 by exact Herr.
  eexists. split; [reflexivity|].
  rewrite setLogoutCookie_written.
  repeat split; written Hstatus.
Qed.

(** X2.  Without a [travis.sso] cookie a GET or HEAD request ends in the
    rendering of the login page, provided the template parses; the
    template gets the two configured URLs as [URL.String] prints
    them. *)
Lemma handleRequest_no_cookie_renders
    (w : http.ResponseWriter) (req : http.Request) :
  http.Request_Cookie req "travis.sso" = Err ErrNoCookie ->
  http.Method req = "GET" \/ http.Method req = "HEAD" ->
  template_ParseFiles world (TemplatePath sso +:+ "/login.html") = None ->
  handleRequest sso world w req
  = Rendered w (mkLoginParams "/sso/static" (url.String (APIURL sso))
                              (url.String (AppPublicURL sso))
                              (http.csrfToken req)).
Proof.
  intros Hcookie Hmethod Htemplate.
  unfold handleRequest, stateFromRequest. rewrite Hcookie.
  rewrite bool_decide_eq_true_2 by reflexivity. cbn [negb].
  unfold handleHandshake. rewrite Htemplate.
  destruct Hmethod as [-> | ->]; reflexivity.
Qed.

(** C3 (what the code does on a cookie that is too short).  The panic
    of [stateFromRequest] passes through [handleRequest]: nothing is
    written, neither a status 500 nor a [Set-Cookie]. *)
Theorem handleRequest_short_cookie_panics
    (w : http.ResponseWriter) (req : http.Request) (cookie : http.Cookie)
    (decoded : slice) :
  http.Request_Cookie req "travis.sso" = Ok cookie ->
  base64.DecodeString (http.Value cookie) = (decoded, None) ->
  (len decoded < 12)%nat ->
  handleRequest sso world w req
  = Panicked "runtime error: slice bounds out of range".
Proof.
  intros Hcookie Hdecode Hlen.
  unfold handleRequest. unfold stateFromRequest. rewrite Hcookie, Hdecode.
  unfold slice_to.
  destruct (cap decoded <? 12)%nat; [reflexivity|].
  cbn [mbind result_bind]. unfold slice_from.
  destruct (Nat.ltb_spec (len decoded) 12); [reflexivity | lia].
Qed.

(** X22.  When session recovery yields a session, [handleRequest] hands
    the request to the forwarder with the scheme and the host of its
    URL replaced by the upstream's, the rest of the URL kept, and the
    JSON serialization of the recovered session added as the last
    value of the [Travis-State] header, after those the client sent; the
    other headers are kept. *)
Theorem handleRequest_authenticated
    (w : http.ResponseWriter) (req : http.Request) (state : State) :
  stateFromRequest sso req = Ok (Some state) ->
  exists req',
    handleRequest sso world w req = Forwarded w req'
    /\ url.Scheme (http.URL req') = url.Scheme (UpstreamURL sso)
    /\ url.Host (http.URL req') = url.Host (UpstreamURL sso)
    /\ url.Path (http.URL req') = url.Path (http.URL req)
    /\ url.RawQuery (http.URL req') = url.RawQuery (http.URL req)
    /\ http.Method req' = http.Method req
    /\ json.Marshal state = Ok (json.encode_State state)
    /\ http.Header req' !! "Travis-State"
       = Some (default [] (http.Header req !! "Travis-State")
               ++ [string_of_bytes (json.encode_State state)])
    /\ (forall key, key <> "Travis-State" ->
          http.Header req' !! key = http.Header req !! key).
Proof.
  intros Hstate.
  unfold handleRequest. rewrite Hstate.
  unfold handleProxy. cbn [json.Marshal].
  eexists. split; [reflexivity|].
  cbn [http.URL http.Method http.Header url.Scheme url.Host url.Path url.RawQuery].
  repeat split.
  - unfold http.Add. apply lookup_insert_eq.
  - intros key Hkey. unfold http.Add. apply lookup_insert_ne. congruence.
Qed.

(** C9 (what the code does on a request that already carries
    [Travis-State]).  [handleProxy] adds the session with [Header.Add]:
    the values the client sent stay in front of it, so that
    [Header.Get] on the forwarded request returns the first value of
    the client and not the serialization of the recovered session. *)
Theorem handleRequest_client_state_first
    (w : http.ResponseWriter) (req : http.Request) (state : State)
    (v : string) (vs : list string) :
  stateFromRequest sso req = Ok (Some state) ->
  http.Header req !! "Travis-State" = Some (v :: vs) ->
  exists req',
    handleRequest sso world w req = Forwarded w req'
    /\ http.Header req' !! "Travis-State"
       = Some (v :: vs ++ [string_of_bytes (json.encode_State state)])
    /\ http.Get (http.Header req') "Travis-State" = v.
Proof.
  intros Hstate Hsent.
  unfold handleRequest. rewrite Hstate.
  unfold handleProxy. cbn [json.Marshal].
  eexists. split; [reflexivity|].
  cbn [http.Header].
  assert (Hadded : http.Add (http.Header req) "Travis-State"
                            (string_of_bytes (json.encode_State state))
                   !! "Travis-State"
                   = Some (v :: vs ++ [string_of_bytes (json.encode_State state)])).
  { unfold http.Add. rewrite lookup_insert_eq, Hsent. reflexivity. }
  split; [exact Hadded|].
  unfold http.Get. rewrite Hadded. reflexivity.
Qed.

End SessionRecovery.

Lemma stateFromRequest_short_cookie_panics_witness :
  stateFromRequest (H := sample_decode_State) sample_sso (cookie_request "AAAA")
  = Panic "runtime error: slice bounds out of range".
Proof.
  apply (stateFromRequest_short_cookie_panics (H := sample_decode_State) sample_sso
           (cookie_request "AAAA") (http.mkCookie "travis.sso" "AAAA" "" "" 0)
           (mkSlice [0; 0; 0] 3)).
  - reflexivity.
  - vm_compute. reflexivity.
  - simpl. lia.
Defined.

Lemma stateFromRequest_empty_ciphertext_witness :
  stateFromRequest (H := sample_decode_State) sample_sso
                   (cookie_request "AAAAAAAAAAAAAAAA")
  = Err (errors_New "encrypted cookie missing")
  /\ MalformedCookie (errors_New "encrypted cookie missing").
Proof.
  apply (stateFromRequest_empty_ciphertext (H := sample_decode_State) sample_sso
           (cookie_request "AAAAAAAAAAAAAAAA")
           (http.mkCookie "travis.sso" "AAAAAAAAAAAAAAAA" "" "" 0)
           (mkSlice (repeat 0 12%nat) 12)).
  - reflexivity.
  - vm_compute. reflexivity.
  - reflexivity.
Defined.

Lemma handleRequest_short_cookie_panics_witness :
  handleRequest (H := sample_decode_State) (H1 := sample_url_String)
                sample_sso sample_world http.NewRecorder
                (cookie_request "AAAAAAAAAAAAAA==")
  = Panicked "runtime error: slice bounds out of range".
Proof.
  apply (handleRequest_short_cookie_panics (H := sample_decode_State)
           (H1 := sample_url_String) sample_sso
           sample_world http.NewRecorder (cookie_request "AAAAAAAAAAAAAA==")
           (http.mkCookie "travis.sso" "AAAAAAAAAAAAAA==" "" "" 0)
           (mkSlice (repeat 0 12%nat) 10)).
  - reflexivity.
  - vm_compute. reflexivity.
  - simpl. lia.
Defined.

Lemma handleRequest_authenticated_witness :
  exists req',
    handleRequest (H := sample_decode_State) (H1 := sample_url_String)
                  sample_sso sample_world http.NewRecorder
                  (cookie_request sample_cookie_value)
    = Forwarded http.NewRecorder req'
    /\ url.Scheme (http.URL req') = "http"
    /\ url.Host (http.URL req') = "localhost:8081"
    /\ url.Path (http.URL req') = "/anything"
    /\ url.RawQuery (http.URL req') = ""
    /\ http.Method req' = "GET"
    /\ json.Marshal (mkState sample_user "T")
       = Ok (json.encode_State (mkState sample_user "T"))
    /\ http.Header req' !! "Travis-State"
       = Some (default [] (http.Header (cookie_request sample_cookie_value)
                           !! "Travis-State")
               ++ [string_of_bytes (json.encode_State (mkState sample_user "T"))])
    /\ (forall key, key <> "Travis-State" ->
          http.Header req' !! key
          = http.Header (cookie_request sample_cookie_value) !! key).
Proof.
  apply (handleRequest_authenticated (H := sample_decode_State)
           (H1 := sample_url_String) sample_sso
           sample_world http.NewRecorder (cookie_request sample_cookie_value)
           (mkState sample_user "T")).
  vm_compute. reflexivity.
Defined.

Lemma handleRequest_client_state_first_witness :
  exists req',
    handleRequest (H := sample_decode_State) (H1 := sample_url_String)
                  sample_sso sample_world http.NewRecorder forged_request
    = Forwarded http.NewRecorder req'
    /\ http.Header req' !! "Travis-State"
       = Some ("forged"
               :: [] ++ [string_of_bytes (json.encode_State (mkState sample_user "T"))])
    /\ http.Get (http.Header req') "Travis-State" = "forged".
Proof.
  apply (handleRequest_client_state_first (H := sample_decode_State)
           (H1 := sample_url_String) sample_sso sample_world http.NewRecorder
           forged_request (mkState sample_user "T") "forged" []).
  - vm_compute. reflexivity.
  - reflexivity.
Defined.

(** ** handleLogin *)

Lemma Redirect_found (w : http.ResponseWriter) (req : http.Request) (target : string) :
  http.Status w = None ->
  http.Status (http.Redirect w req target http.StatusFound) = Some 302
  /\ http.wHeader (http.Redirect w req target http.StatusFound) !! "Location"
     = Some [target]
  /\ http.SetCookies (http.Redirect w req target http.StatusFound)
     = http.SetCookies w.
Proof.
  intros Hstatus. unfold http.Redirect.
  set (hadCT := bool_decide (is_Some (http.wHeader w !! "Content-Type"))).
  set (both := negb hadCT && (bool_decide (http.Method req = "GET")
                              || bool_decide (http.Method req = "HEAD"))).
  set (h := if both
            then http.Set_ (http.Set_ (http.wHeader w) "Location" target)
                           "Content-Type" "text/html; charset=utf-8"
            else http.Set_ (http.wHeader w) "Location" target).
  assert (Hloc : h !! "Location" = Some [target]).
  { subst h. destruct both; unfold http.Set_.
    - rewrite lookup_insert_ne by discriminate. apply lookup_insert_eq.
    - apply lookup_insert_eq. }
  destruct (negb hadCT && bool_decide (http.Method req = "GET"));
    written Hstatus.
Qed.

Section Login.

Context `{!json.Decoder (option State)} `{!json.Decoder APIMessage} `{!url.Stringer}.

Variable sso : SSO.
Variable world : World.

(** The path of [handleLogin] up to the authorization decision, for a
    POST with a token the identity provider answers with status 200
    and a body that decodes. *)
Lemma handleLogin_identified
    (w : http.ResponseWriter) (req : http.Request) (T : string)
    (apiResp : http.Response) (m : APIMessage) :
  http.Method req = "POST" ->
  http.FormValue req "sso_token" = T ->
  T <> "" ->
  client_Do world (identity_request sso T) = inr apiResp ->
  http.StatusCode apiResp = http.StatusOK ->
  json.Decode (A := APIMessage) (http.RespBody apiResp) = inr m ->
  handleLogin sso world w req
  = match Authorized sso (APIMessage_User m) with
    | Err err => Done (http.Error w (Error_ err) 500)
    | Panic msg => Panicked msg
    | Ok false =>
        Done (http.Error w ("access denied for user "
                            +:+ Login (APIMessage_User m)) 403)
    | Ok true =>
        match encrypt (rand_Reader world)
                      (json.encode_State (mkState (APIMessage_User m) T))
                      (EncryptionKey sso) with
        | Err err => Done (http.Error w (Error_ err) 500)
        | Panic msg => Panicked msg
        | Ok (encryptedCookie, nonce) =>
            Done (http.Redirect
                    (http.SetCookie w
                       (http.mkCookie "travis.sso"
                          (base64.EncodeToString (nonce ++ encryptedCookie)) "/"
                          (domainFromHost (url.Host (AppPublicURL sso)))
                          (time_Now world + one_year)))
                    req "/" http.StatusFound)
        end
    end.
Proof.
  intros Hmethod Hform Htoken Hdo Hstatus Hdecode.
  unfold handleLogin.
  rewrite (bool_decide_eq_true_2 _ Hmethod), Hform.
  rewrite (bool_decide_eq_false_2 _ Htoken).
  unfold http_NewRequest.
  cbn [api_Method api_URL api_Query_Add api_Header].
  replace (mkAPIRequest "GET" _ _ _) with (identity_request sso T).
  2:{ unfold identity_request, http.Add. f_equal. }
  rewrite Hdo, Hstatus, Hdecode.
  cbn [json.Marshal]. reflexivity.
Qed.

(** C4 (amended).  A POST with a non-empty [sso_token] T, for which
    the identity provider answers 200 with a user the policy accepts,
    under a 32-byte key, with twelve bytes of entropy and a clock not
    before 1970, is answered with a 302 redirect to [/] and one added
    [Set-Cookie] line: [travis.sso] with, as value, the base64 of nonce
    and sealed text, which [decrypt] opens to the JSON of the user with
    token T; [Path=/]; [Expires] 365 days after now; and [Domain] only
    when net/http accepts as a cookie domain what [domainFromHost]
    makes of the public host, printed then without a leading dot.  That
    is the host without its port when the host reads name:port with a
    name that is not empty and holds no colon, and the host itself when
    it holds no colon; it is never accepted when the host begins with a
    bracket. *)
Theorem handleLogin_success
    (w : http.ResponseWriter) (req : http.Request) (T : string)
    (apiResp : http.Response) (m : APIMessage) :
  http.Method req = "POST" ->
  http.FormValue req "sso_token" = T ->
  T <> "" ->
  client_Do world (identity_request sso T) = inr apiResp ->
  http.StatusCode apiResp = http.StatusOK ->
  json.Decode (A := APIMessage) (http.RespBody apiResp) = inr m ->
  Authorized sso (APIMessage_User m) = Ok true ->
  length (EncryptionKey sso) = 32%nat ->
  (12 <= length (rand_Reader world))%nat ->
  0 <= time_Now world ->
  http.Status w = None ->
  exists w' nonce ciphertext,
    handleLogin sso world w req = Done w'
    /\ http.Status w' = Some 302
    /\ http.wHeader w' !! "Location" = Some ["/"]
    /\ http.SetCookies w'
       = http.SetCookies w
         ++ ["travis.sso=" +:+ base64.EncodeToString (nonce ++ ciphertext)
             +:+ "; Path=/"
             +:+ (if http.validCookieDomain
                       (domainFromHost (url.Host (AppPublicURL sso)))
                  then "; Domain="
                       +:+ http.withoutLeadingDot
                             (domainFromHost (url.Host (AppPublicURL sso)))
                  else "")
             +:+ "; Expires=" +:+ time.Format (time_Now world + 365 * 24 * 3600)]
    /\ length nonce = 12%nat
    /\ json.Marshal (mkState (APIMessage_User m) T)
       = Ok (json.encode_State (mkState (APIMessage_User m) T))
    /\ decrypt ciphertext nonce (EncryptionKey sso)
       = Ok (json.encode_State (mkState (APIMessage_User m) T))
    /\ (forall name port,
          url.Host (AppPublicURL sso) = name +:+ ":" +:+ port ->
          no_colon name = true -> name <> "" ->
          domainFromHost (url.Host (AppPublicURL sso)) = name)
    /\ (no_colon (url.Host (AppPublicURL sso)) = true ->
        domainFromHost (url.Host (AppPublicURL sso)) = url.Host (AppPublicURL sso))
    /\ (forall rest,
          url.Host (AppPublicURL sso) = String "[" rest ->
          http.validCookieDomain (domainFromHost (url.Host (AppPublicURL sso)))
          = false).
Proof.
  intros Hmethod Hform Htoken Hdo Hstatus Hdecode Hauth Hkey Hrand Hnow Hw.
  rewrite (handleLogin_identified w req T apiResp m) by assumption.
  rewrite Hauth.
  destruct (encrypt_decrypt (rand_Reader world)
              (json.encode_State (mkState (APIMessage_User m) T))
              (EncryptionKey sso))
    as (sealed & Henc & _ & Hdec); [auto | exact Hrand |].
  rewrite Henc, SetCookie_login.
  rewrite validCookieExpires_epoch by (unfold one_year; lia).
  set (w1 := http.mkResponseWriter _ _ _ _).
  destruct (Redirect_found w1 req "/") as (Hs & Hl & Hc).
  { exact Hw. }
  exists (http.Redirect w1 req "/" http.StatusFound), (take 12 (rand_Reader world)),
    sealed.
  split; [reflexivity|].
  split; [exact Hs|]. split; [exact Hl|]. split; [rewrite Hc; reflexivity|].
  split; [rewrite length_take; lia|].
  split; [reflexivity|]. split; [exact Hdec|].
  split; [|split].
  - intros name port Hhost Hname Hne.
    rewrite Hhost, (domainFromHost_cut name port Hname).
    rewrite (bool_decide_eq_false_2 _ Hne). reflexivity.
  - intros Hhost. apply domainFromHost_no_colon. exact Hhost.
  - intros rest ->. apply validCookieDomain_bracket.
Qed.

(** C5.  A POST with a non-empty [sso_token], for which the identity
    provider answers 200 with a user the policy does not accept, is
    answered with status 403 and the text "access denied for user"
    followed by the login; the handler adds no cookie. *)
Theorem handleLogin_denied
    (w : http.ResponseWriter) (req : http.Request) (T : string)
    (apiResp : http.Response) (m : APIMessage) :
  http.Method req = "POST" ->
  http.FormValue req "sso_token" = T ->
  T <> "" ->
  client_Do world (identity_request sso T) = inr apiResp ->
  http.StatusCode apiResp = http.StatusOK ->
  json.Decode (A := APIMessage) (http.RespBody apiResp) = inr m ->
  Authorized sso (APIMessage_User m) = Ok false ->
  http.Status w = None ->
  exists w',
    handleLogin sso world w req = Done w'
    /\ http.Status w' = Some 403
    /\ http.Body w'
       = http.Body w +:+ ("access denied for user " +:+ Login (APIMessage_User m))
         +:+ newline
    /\ http.SetCookies w' = http.SetCookies w.
Proof.
  intros Hmethod Hform Htoken Hdo Hstatus Hdecode Hauth Hw.
  rewrite (handleLogin_identified w req T apiResp m) by assumption.
  rewrite Hauth.
  eexists. split; [reflexivity|].
  unfold http.Error, http.Write, http.WriteHeader, http.withHeader.
  cbn [http.Status http.Body http.SetCookies http.wHeader].
  rewrite Hw.
  cbn [http.Status http.Body http.SetCookies http.wHeader].
  auto.
Qed.

(** C8 (amended).  A GET or HEAD request to [/sso/login] carries no
    token for [handleLogin]: it is answered with a 302 redirect to [/]
    and no cookie; nothing is rendered. *)
Theorem handleLogin_get_redirects (w : http.ResponseWriter) (req : http.Request) :
  http.Method req = "GET" \/ http.Method req = "HEAD" ->
  http.Status w = None ->
  exists w',
    handleLogin sso world w req = Done w'
    /\ http.Status w' = Some 302
    /\ http.wHeader w' !! "Location" = Some ["/"]
    /\ http.SetCookies w' = http.SetCookies w.
Proof.
  intros Hmethod Hw.
  assert (Hpost : http.Method req <> "POST").
  { intros Hpost. rewrite Hpost in Hmethod. destruct Hmethod; discriminate. }
  unfold handleLogin. cbv zeta.
  rewrite (bool_decide_eq_false_2 _ Hpost).
  rewrite bool_decide_eq_true_2 by reflexivity.
  eexists. split; [reflexivity|].
  apply Redirect_found. exact Hw.
Qed.

End Login.

Lemma handleLogin_success_witness :
  exists w' nonce ciphertext,
    handleLogin (H0 := sample_decode_APIMessage) sample_sso sample_world
                http.NewRecorder (login_request "T") = Done w'
    /\ http.Status w' = Some 302
    /\ http.wHeader w' !! "Location" = Some ["/"]
    /\ http.SetCookies w'
       = http.SetCookies http.NewRecorder
         ++ ["travis.sso=" +:+ base64.EncodeToString (nonce ++ ciphertext)
             +:+ "; Path=/"
             +:+ (if http.validCookieDomain
                       (domainFromHost (url.Host (AppPublicURL sample_sso)))
                  then "; Domain="
                       +:+ http.withoutLeadingDot
                             (domainFromHost (url.Host (AppPublicURL sample_sso)))
                  else "")
             +:+ "; Expires="
             +:+ time.Format (time_Now sample_world + 365 * 24 * 3600)]
    /\ length nonce = 12%nat
    /\ json.Marshal (mkState sample_user "T")
       = Ok (json.encode_State (mkState sample_user "T"))
    /\ decrypt ciphertext nonce (EncryptionKey sample_sso)
       = Ok (json.encode_State (mkState sample_user "T"))
    /\ (forall name port,
          url.Host (AppPublicURL sample_sso) = name +:+ ":" +:+ port ->
          no_colon name = true -> name <> "" ->
          domainFromHost (url.Host (AppPublicURL sample_sso)) = name)
    /\ (no_colon (url.Host (AppPublicURL sample_sso)) = true ->
        domainFromHost (url.Host (AppPublicURL sample_sso))
        = url.Host (AppPublicURL sample_sso))
    /\ (forall rest,
          url.Host (AppPublicURL sample_sso) = String "[" rest ->
          http.validCookieDomain
            (domainFromHost (url.Host (AppPublicURL sample_sso)))
          = false).
Proof.
  apply (handleLogin_success (H0 := sample_decode_APIMessage) sample_sso sample_world
           http.NewRecorder (login_request "T") "T"
           (http.mkResponse 200 (api_body sample_user)) (mkAPIMessage sample_user)).
  - reflexivity.
  - vm_compute. reflexivity.
  - discriminate.
  - vm_compute. reflexivity.
  - reflexivity.
  - vm_compute. reflexivity.
  - vm_compute. reflexivity.
  - reflexivity.
  - vm_compute. lia.
  - vm_compute. discriminate.
  - reflexivity.
Defined.

(** C4 (the claim as stated fails).  Published at
    [http://my_app.example.com:8080], the gateway sets the login cookie
    without a [Domain]: the host without its port, [my_app.example.com],
    is not a cookie domain for net/http, which leaves the attribute out.
    The same happens at [http://[::1]:8080]. *)
Lemma handleLogin_domain_dropped :
  host_without_port (url.Host (AppPublicURL sample_sso_underscore))
  = "my_app.example.com"
  /\ match handleLogin (H0 := sample_decode_APIMessage) sample_sso_underscore
                       sample_world http.NewRecorder (login_request "T") with
     | Done w =>
         http.Status w = Some 302
         /\ http.SetCookies w
            = ["travis.sso=" +:+ sample_cookie_value
               +:+ "; Path=/; Expires=Sat, 14 Jul 2018 02:40:00 GMT"]
     | _ => False
     end
  /\ host_without_port (url.Host (AppPublicURL sample_sso_v6)) = "[::1]"
  /\ match handleLogin (H0 := sample_decode_APIMessage) sample_sso_v6
                       sample_world http.NewRecorder (login_request "T") with
     | Done w =>
         http.SetCookies w
         = ["travis.sso=" +:+ sample_cookie_value
            +:+ "; Path=/; Expires=Sat, 14 Jul 2018 02:40:00 GMT"]
     | _ => False
     end.
Proof. vm_compute. repeat split. Qed.

Lemma handleLogin_denied_witness :
  exists w',
    handleLogin (H0 := sample_decode_APIMessage) sample_sso sample_world
                http.NewRecorder (login_request "U") = Done w'
    /\ http.Status w' = Some 403
    /\ http.Body w'
       = http.Body http.NewRecorder
         +:+ ("access denied for user " +:+ Login other_user) +:+ newline
    /\ http.SetCookies w' = http.SetCookies http.NewRecorder.
Proof.
  apply (handleLogin_denied (H0 := sample_decode_APIMessage) sample_sso sample_world
           http.NewRecorder (login_request "U") "U"
           (http.mkResponse 200 (api_body other_user)) (mkAPIMessage other_user)).
  - reflexivity.
  - vm_compute. reflexivity.
  - discriminate.
  - vm_compute. reflexivity.
  - reflexivity.
  - vm_compute. reflexivity.
  - vm_compute. reflexivity.
  - reflexivity.
Defined.

(** C8 (the claim as stated fails).  A GET of [/sso/login] does not end
    in the rendering of the login page: the handler redirects to [/]. *)
Lemma handleLogin_get_not_rendered :
  (forall w p,
     handleLogin (H0 := sample_decode_APIMessage) sample_sso sample_world
                 http.NewRecorder (request "GET" "/sso/login" [] ∅)
     <> Rendered w p)
  /\ match handleLogin (H0 := sample_decode_APIMessage) sample_sso sample_world
                       http.NewRecorder (request "GET" "/sso/login" [] ∅) with
     | Done w => http.Status w = Some 302 /\ http.wHeader w !! "Location" = Some ["/"]
     | _ => False
     end.
Proof.
  split.
  - intros w p. vm_compute. discriminate.
  - vm_compute. split; reflexivity.
Qed.

Lemma handleLogin_get_redirects_witness :
  exists w',
    handleLogin (H0 := sample_decode_APIMessage) sample_sso sample_world
                http.NewRecorder (request "HEAD" "/sso/login" [] ∅) = Done w'
    /\ http.Status w' = Some 302
    /\ http.wHeader w' !! "Location" = Some ["/"]
    /\ http.SetCookies w' = http.SetCookies http.NewRecorder.
Proof.
  apply (handleLogin_get_redirects (H0 := sample_decode_APIMessage) sample_sso
           sample_world http.NewRecorder (request "HEAD" "/sso/login" [] ∅)).
  - right. reflexivity.
  - reflexivity.
Defined.

(** * Further properties *)

(** The random source of the samples delivers bytes. *)
Lemma sample_entropy_bytes : Forall is_byte (rand_Reader sample_world).
Proof. apply (bool_decide_unpack _). vm_compute. exact I. Qed.

(** ** handleRequest on the sample data *)

Lemma handleRequest_rejected_cookie_witness :
  exists w',
    handleRequest (H := sample_decode_State) (H1 := sample_url_String)
                  sample_sso sample_world http.NewRecorder
                  (cookie_request "AAAAAAAAAAAAAAAA") = Done w'
    /\ http.Status w' = Some 500
    /\ http.Body w'
       = http.Body http.NewRecorder
         +:+ Error_ (errors_New "encrypted cookie missing") +:+ newline
    /\ http.SetCookies w'
       = http.SetCookies http.NewRecorder
         ++ ["travis.sso=; Path=/; Domain=localhost; "
             +:+ "Expires=Thu, 01 Jan 1970 01:00:00 GMT"].
Proof.
  apply (handleRequest_rejected_cookie (H := sample_decode_State)
           (H1 := sample_url_String) sample_sso
           sample_world http.NewRecorder (cookie_request "AAAAAAAAAAAAAAAA")
           (errors_New "encrypted cookie missing")).
  - vm_compute. reflexivity.
  - discriminate.
  - reflexivity.
Defined.

Lemma handleRequest_no_cookie_renders_witness :
  handleRequest (H := sample_decode_State) (H1 := sample_url_String)
                sample_sso sample_world http.NewRecorder
                (request "GET" "/" [] ∅)
  = Rendered http.NewRecorder
      (mkLoginParams "/sso/static" "https://api.github.com"
                     "http://localhost:8080" "csrf-token").
Proof.
  apply (handleRequest_no_cookie_renders (H := sample_decode_State)
           (H1 := sample_url_String) sample_sso
           sample_world http.NewRecorder (request "GET" "/" [] ∅)).
  - reflexivity.
  - left. reflexivity.
  - reflexivity.
Defined.

(** ** encrypt and decrypt *)

Lemma NewCipher_Ok (key : bytes) (blk : aes.Block) :
  aes.NewCipher key = Ok blk ->
  length key = 16%nat \/ length key = 24%nat \/ length key = 32%nat.
Proof.
  unfold aes.NewCipher.
  destruct (Z.eqb_spec (Z.of_nat (length key)) 16); [lia|].
  destruct (Z.eqb_spec (Z.of_nat (length key)) 24); [lia|].
  destruct (Z.eqb_spec (Z.of_nat (length key)) 32); [lia|].
  discriminate.
Qed.

(** What a successful [encrypt] did. *)
Lemma encrypt_inv (rand plaintext key sealed nonce : bytes) :
  encrypt rand plaintext key = Ok (sealed, nonce) ->
  exists blk,
    aes.NewCipher key = Ok blk
    /\ (12 <= length rand)%nat
    /\ nonce = take 12 rand
    /\ sealed
       = cipher.counterCrypt (cipher.mkGCM blk) nonce plaintext
         ++ cipher.auth (cipher.mkGCM blk) nonce []
              (cipher.counterCrypt (cipher.mkGCM blk) nonce plaintext).
Proof.
  unfold encrypt.
  destruct (aes.NewCipher key) as [blk| |]; cbn [mbind result_bind]; try discriminate.
  unfold io.ReadFull.
  destruct (Nat.leb_spec 12 (length rand)) as [Hlen|];
    [|destruct rand; discriminate].
  cbn [mbind result_bind].
  unfold cipher.NewGCM. cbn [Z.eqb aes.BlockSize cipher.gcmBlockSize Pos.eqb].
  cbn [mbind result_bind].
  unfold cipher.Seal, cipher.NonceSize, cipher.gcmStandardNonceSize.
  rewrite length_take, Nat.min_l by exact Hlen.
  cbn [Nat.eqb negb mbind result_bind].
  intros [= <- <-]. exists blk. auto.
Qed.

(** X3.  What [encrypt] returns when it succeeds: the key has one of the
    three AES lengths, the nonce is the first 12 bytes the random source
    delivered, and the sealed text is 16 bytes, the tag, longer than the
    plaintext. *)
Theorem encrypt_returns (rand plaintext key sealed nonce : bytes) :
  encrypt rand plaintext key = Ok (sealed, nonce) ->
  (length key = 16%nat \/ length key = 24%nat \/ length key = 32%nat)
  /\ nonce = take 12 rand
  /\ length nonce = 12%nat
  /\ length sealed = (length plaintext + 16)%nat.
Proof.
  intros Henc.
  destruct (encrypt_inv _ _ _ _ _ Henc) as (blk & Hblk & Hrand & Hnonce & Hsealed).
  split; [exact (NewCipher_Ok key blk Hblk)|].
  split; [exact Hnonce|].
  split; [subst nonce; rewrite length_take; lia|].
  rewrite Hsealed, length_app, counterCrypt_length, auth_length. reflexivity.
Qed.

Lemma encrypt_returns_witness :
  (length sample_key = 16%nat \/ length sample_key = 24%nat
   \/ length sample_key = 32%nat)
  /\ sample_sealed.2 = take 12 (rand_Reader sample_world)
  /\ length sample_sealed.2 = 12%nat
  /\ length sample_sealed.1 = (length (bytes_of_string "session") + 16)%nat.
Proof.
  apply (encrypt_returns (rand_Reader sample_world) (bytes_of_string "session")
           sample_key sample_sealed.1 sample_sealed.2).
  vm_compute. reflexivity.
Defined.

(** X4.  With a key the cipher accepts, [encrypt] fails when the random
    source delivers fewer than 12 bytes: with [io.EOF] when it delivers
    none, with [io.ErrUnexpectedEOF] otherwise. *)
Theorem encrypt_short_entropy (rand plaintext key : bytes) :
  length key = 16%nat \/ length key = 24%nat \/ length key = 32%nat ->
  (length rand < 12)%nat ->
  encrypt rand plaintext key
  = Err (match rand with [] => EOF | _ => ErrUnexpectedEOF end).
Proof.
  intros Hkey Hrand. unfold encrypt.
  rewrite (NewCipher_valid key Hkey). cbn [mbind result_bind].
  unfold io.ReadFull.
  destruct (Nat.leb_spec 12 (length rand)); [lia|].
  destruct rand; reflexivity.
Qed.

Lemma encrypt_short_entropy_witness :
  encrypt [1; 2; 3] (bytes_of_string "session") sample_key = Err ErrUnexpectedEOF.
Proof.
  apply (encrypt_short_entropy [1; 2; 3] (bytes_of_string "session") sample_key).
  - right. right. reflexivity.
  - simpl. lia.
Defined.

(** X5.  The bounds of [decrypt] under a key the cipher accepts: a nonce
    that is not 12 bytes long makes the GCM panic, and with a 12-byte
    nonce a ciphertext shorter than the 16-byte tag is refused as not
    authentic. *)
Theorem decrypt_bounds (ciphertext nonce key : bytes) :
  length key = 16%nat \/ length key = 24%nat \/ length key = 32%nat ->
  (length nonce <> 12%nat ->
   decrypt ciphertext nonce key
   = Panic "crypto/cipher: incorrect nonce length given to GCM")
  /\ (length nonce = 12%nat -> (length ciphertext < 16)%nat ->
      decrypt ciphertext nonce key = Err errOpen).
Proof.
  intros Hkey. unfold decrypt.
  rewrite (NewCipher_valid key Hkey). cbn [mbind result_bind].
  unfold cipher.NewGCM. cbn [Z.eqb aes.BlockSize cipher.gcmBlockSize Pos.eqb].
  cbn [mbind result_bind].
  unfold cipher.Open, cipher.NonceSize, cipher.gcmStandardNonceSize, cipher.gcmTagSize.
  split.
  - intros Hnonce.
    destruct (Nat.eqb_spec (length nonce) 12); [contradiction | reflexivity].
  - intros Hnonce Hshort. rewrite Hnonce. cbn [Nat.eqb negb].
    destruct (Nat.ltb_spec (length ciphertext) 16); [reflexivity | lia].
Qed.

Lemma decrypt_bounds_witness :
  decrypt sample_sealed.1 [1; 2; 3] sample_key
  = Panic "crypto/cipher: incorrect nonce length given to GCM"
  /\ decrypt [1; 2; 3] sample_sealed.2 sample_key = Err errOpen.
Proof.
  split.
  - apply (decrypt_bounds sample_sealed.1 [1; 2; 3] sample_key).
    + right. right. reflexivity.
    + simpl. lia.
  - apply (decrypt_bounds [1; 2; 3] sample_sealed.2 sample_key).
    + right. right. reflexivity.
    + reflexivity.
    + simpl. lia.
Defined.

(** A sealed text whose tag was replaced does not open: when the 16
    bytes that follow the ciphertext differ from the tag [encrypt] wrote,
    [decrypt] fails with the authentication error. *)
Lemma decrypt_changed_tag
    (rand plaintext key sealed nonce tag' : bytes) :
  encrypt rand plaintext key = Ok (sealed, nonce) ->
  length tag' = 16%nat ->
  tag' <> drop (length plaintext) sealed ->
  decrypt (take (length plaintext) sealed ++ tag') nonce key = Err errOpen.
Proof.
  intros Henc Htag Hdiff.
  destruct (encrypt_inv _ _ _ _ _ Henc) as (blk & Hblk & Hrand & Hnonce & Hsealed).
  set (g := cipher.mkGCM blk) in *.
  assert (Hct : length (cipher.counterCrypt g nonce plaintext) = length plaintext)
    by apply counterCrypt_length.
  rewrite Hsealed in Hdiff |- *.
  rewrite <- Hct in Hdiff |- *.
  rewrite take_app_length. rewrite drop_app_length in Hdiff.
  unfold decrypt. rewrite Hblk. cbn [mbind result_bind].
  unfold cipher.NewGCM. cbn [Z.eqb aes.BlockSize cipher.gcmBlockSize Pos.eqb].
  cbn [mbind result_bind].
  unfold cipher.Open, cipher.NonceSize, cipher.gcmStandardNonceSize, cipher.gcmTagSize.
  assert (Hn : length nonce = 12%nat) by (subst nonce; rewrite length_take; lia).
  rewrite Hn. cbn [Nat.eqb negb].
  rewrite length_app, Htag.
  destruct (Nat.ltb_spec (length (cipher.counterCrypt g nonce plaintext) + 16) 16);
    [lia|].
  replace (length (cipher.counterCrypt g nonce plaintext) + 16 - 16)%nat
    with (length (cipher.counterCrypt g nonce plaintext)) by lia.
  rewrite take_app_length, drop_app_length.
  unfold cipher.ConstantTimeCompare.
  fold g. rewrite bool_decide_eq_false_2 by congruence.
  reflexivity.
Qed.

(** ** Session recovery, case by case *)

Lemma decrypt_no_panic (ciphertext nonce key : bytes) (msg : string) :
  length nonce = 12%nat -> decrypt ciphertext nonce key <> Panic msg.
Proof.
  intros Hnonce. unfold decrypt.
  destruct (aes.NewCipher key) as [blk|e|m] eqn:Hblk; cbn [mbind result_bind];
    [|discriminate|].
  - unfold cipher.NewGCM. cbn [Z.eqb aes.BlockSize cipher.gcmBlockSize Pos.eqb].
    cbn [mbind result_bind].
    unfold cipher.Open, cipher.NonceSize, cipher.gcmStandardNonceSize.
    rewrite Hnonce. cbn [Nat.eqb negb].
    destruct (_ <? _)%nat; [discriminate|].
    destruct (cipher.ConstantTimeCompare _ _); discriminate.
  - unfold aes.NewCipher in Hblk. destruct (_ || _); discriminate.
Qed.

(** Both slice expressions of [stateFromRequest] on a slice shorter than
    12: one of them is out of range, whatever follows. *)
Lemma slices_short_panic {A} (s : slice) (k : slice -> slice -> result A) :
  (len s < 12)%nat ->
  (nonce ← slice_to s 12; rest ← slice_from s 12; k nonce rest)
  = Panic "runtime error: slice bounds out of range".
Proof.
  intros Hlen. unfold slice_to.
  destruct (cap s <? 12)%nat; [reflexivity|].
  cbn [mbind result_bind]. unfold slice_from.
  destruct (Nat.ltb_spec (len s) 12); [reflexivity | lia].
Qed.

Section Recovery.

Context `{!json.Decoder (option State)} `{!json.Decoder APIMessage} `{!url.Stringer}.

Variable sso : SSO.
Variable world : World.

(** A cookie that decodes to at least 12 bytes is cut into the nonce,
    its first 12 bytes, and the ciphertext, the rest. *)
Lemma stateFromRequest_cut
    (req : http.Request) (cookie : http.Cookie) (decoded : slice) :
  http.Request_Cookie req "travis.sso" = Ok cookie ->
  base64.DecodeString (http.Value cookie) = (decoded, None) ->
  (12 <= len decoded)%nat ->
  stateFromRequest sso req
  = if (len decoded =? 12)%nat
    then Err (errors_New "encrypted cookie missing")
    else
      b ← decrypt (drop 12 (slice_bytes decoded)) (take 12 (slice_bytes decoded))
                  (EncryptionKey sso);
      json.decode_result (json.Decode (A := option State) b).
Proof.
  intros Hcookie Hdecode Hlen.
  pose proof (DecodeString_cap _ _ _ Hdecode) as Hcap.
  unfold stateFromRequest. rewrite Hcookie, Hdecode.
  unfold slice_to.
  destruct (Nat.ltb_spec (cap decoded) 12); [lia|].
  cbn [mbind result_bind]. unfold slice_from.
  destruct (Nat.ltb_spec (len decoded) 12); [lia|].
  cbn [mbind result_bind len array negb]. rewrite Nat.eqb_refl. cbn [negb].
  destruct (Nat.eqb_spec (len decoded) 12) as [Heq|Hne].
  - rewrite Heq. reflexivity.
  - destruct (Nat.eqb_spec (len decoded - 12) 0); [lia|].
    unfold slice_bytes. cbn [array len].
    rewrite take_take, Nat.min_l by exact Hlen.
    rewrite take_drop_commute.
    replace (12 + (len decoded - 12))%nat with (len decoded) by lia.
    destruct (decrypt _ _ _); cbn [mbind result_bind]; try reflexivity.
    destruct (json.decode_result _); reflexivity.
Qed.

(** X6.  [stateFromRequest] panics exactly when the cookie is present,
    is well-formed base64 and decodes to fewer than 12 bytes; on every
    other request it returns. *)
Theorem stateFromRequest_panics_iff (req : http.Request) :
  (exists msg, stateFromRequest sso req = Panic msg)
  <-> (exists cookie decoded,
         http.Request_Cookie req "travis.sso" = Ok cookie
         /\ base64.DecodeString (http.Value cookie) = (decoded, None)
         /\ (len decoded < 12)%nat).
Proof.
  split.
  - intros [msg Hpanic].
    destruct (http.Request_Cookie req "travis.sso") as [cookie|e|m] eqn:Hcookie.
    + destruct (base64.DecodeString (http.Value cookie)) as [decoded [e|]] eqn:Hdecode.
      * unfold stateFromRequest in Hpanic. rewrite Hcookie, Hdecode in Hpanic.
        discriminate.
      * destruct (Nat.lt_ge_cases (len decoded) 12) as [Hlt|Hge]; [eauto|].
        exfalso.
        rewrite (stateFromRequest_cut req cookie decoded Hcookie Hdecode Hge) in Hpanic.
        destruct (len decoded =? 12)%nat; [discriminate|].
        pose proof (DecodeString_cap _ _ _ Hdecode) as Hcap. unfold cap in Hcap.
        assert (Hnonce : length (take 12 (slice_bytes decoded)) = 12%nat).
        { unfold slice_bytes. rewrite !length_take. lia. }
        destruct (decrypt (drop 12 (slice_bytes decoded))
                          (take 12 (slice_bytes decoded)) (EncryptionKey sso))
          as [b|e|m] eqn:Hdec; cbn [mbind result_bind] in Hpanic.
        -- destruct (json.Decode b); discriminate.
        -- discriminate.
        -- exact (decrypt_no_panic _ _ _ m Hnonce Hdec).
    + unfold stateFromRequest in Hpanic. rewrite Hcookie in Hpanic.
      destruct e; discriminate.
    + unfold http.Request_Cookie in Hcookie.
      destruct (list_find _ _) as [[? ?]|]; discriminate.
  - intros (cookie & decoded & Hcookie & Hdecode & Hlen).
    exists "runtime error: slice bounds out of range".
    unfold stateFromRequest. rewrite Hcookie, Hdecode.
    apply slices_short_panic. exact Hlen.
Qed.

(** X7.  Under a key the cipher accepts, a cookie that decodes to more
    than 12 but fewer than 28 bytes, a nonce and less than a tag, is
    rejected with the authentication error of the cipher. *)
Theorem stateFromRequest_short_ciphertext
    (req : http.Request) (cookie : http.Cookie) (decoded : slice) :
  http.Request_Cookie req "travis.sso" = Ok cookie ->
  base64.DecodeString (http.Value cookie) = (decoded, None) ->
  (12 < len decoded < 28)%nat ->
  length (EncryptionKey sso) = 16%nat \/ length (EncryptionKey sso) = 24%nat
  \/ length (EncryptionKey sso) = 32%nat ->
  stateFromRequest sso req = Err errOpen.
Proof.
  intros Hcookie Hdecode Hlen Hkey.
  pose proof (DecodeString_cap _ _ _ Hdecode) as Hcap. unfold cap in Hcap.
  rewrite (stateFromRequest_cut req cookie decoded Hcookie Hdecode) by lia.
  destruct (Nat.eqb_spec (len decoded) 12); [lia|].
  unfold decrypt. rewrite (NewCipher_valid _ Hkey). cbn [mbind result_bind].
  unfold cipher.NewGCM. cbn [Z.eqb aes.BlockSize cipher.gcmBlockSize Pos.eqb].
  cbn [mbind result_bind].
  unfold cipher.Open, cipher.NonceSize, cipher.gcmStandardNonceSize, cipher.gcmTagSize.
  unfold slice_bytes. rewrite !length_take, length_drop, length_take.
  replace (12 `min` (len decoded `min` length (array decoded)))%nat with 12%nat by lia.
  cbn [Nat.eqb negb].
  destruct (Nat.ltb_spec (len decoded `min` length (array decoded) - 12) 16); [|lia].
  reflexivity.
Qed.

(** X8.  [handleRequest] forwards a request only when its [travis.sso]
    cookie decodes to a nonce and a ciphertext that [decrypt] opens
    under the configured key, to a document the JSON decoder turns into
    a session; the forwarded request then carries that session in
    [Travis-State], and the response writer is untouched. *)
Theorem handleRequest_forwards_only_authenticated
    (w w' : http.ResponseWriter) (req req' : http.Request) :
  handleRequest sso world w req = Forwarded w' req' ->
  exists cookie decoded b state,
    http.Request_Cookie req "travis.sso" = Ok cookie
    /\ base64.DecodeString (http.Value cookie) = (decoded, None)
    /\ (12 < len decoded)%nat
    /\ decrypt (drop 12 (slice_bytes decoded)) (take 12 (slice_bytes decoded))
               (EncryptionKey sso) = Ok b
    /\ json.Decode (A := option State) b = inr (Some state)
    /\ w' = w
    /\ http.Header req' !! "Travis-State"
       = Some (default [] (http.Header req !! "Travis-State")
               ++ [string_of_bytes (json.encode_State state)]).
Proof.
  intros Hfwd. unfold handleRequest in Hfwd.
  destruct (stateFromRequest sso req) as [[state|]|e|m] eqn:Hstate.
  - destruct (http.Request_Cookie req "travis.sso") as [cookie|e|m] eqn:Hcookie.
    2:{ unfold stateFromRequest in Hstate. rewrite Hcookie in Hstate.
        destruct e; discriminate. }
    2:{ unfold stateFromRequest in Hstate. rewrite Hcookie in Hstate. discriminate. }
    destruct (base64.DecodeString (http.Value cookie)) as [decoded [e|]] eqn:Hdecode.
    { unfold stateFromRequest in Hstate. rewrite Hcookie, Hdecode in Hstate.
      discriminate. }
    destruct (Nat.lt_ge_cases (len decoded) 12) as [Hlt|Hge].
    { unfold stateFromRequest in Hstate. rewrite Hcookie, Hdecode in Hstate.
      rewrite slices_short_panic in Hstate by exact Hlt. discriminate. }
    rewrite (stateFromRequest_cut req cookie decoded Hcookie Hdecode Hge) in Hstate.
    destruct (Nat.eqb_spec (len decoded) 12) as [Heq|Hne]; [discriminate|].
    destruct (decrypt _ _ _) as [b| |] eqn:Hdec; cbn [mbind result_bind] in Hstate;
      try discriminate.
    destruct (json.Decode b) as [msg|st] eqn:Hjson; cbn [json.decode_result] in Hstate;
      [discriminate|].
    injection Hstate as ->.
    unfold handleProxy in Hfwd. cbn [json.Marshal] in Hfwd.
    injection Hfwd as <- <-.
    exists cookie, decoded, b, state.
    repeat split; try assumption; try lia.
    cbn [http.Header]. unfold http.Add. apply lookup_insert_eq.
  - unfold handleHandshake in Hfwd.
    destruct (_ && _); [discriminate|].
    destruct (template_ParseFiles _ _); discriminate.
  - destruct (negb _); [discriminate|].
    unfold handleHandshake in Hfwd.
    destruct (_ && _); [discriminate|].
    destruct (template_ParseFiles _ _); discriminate.
  - discriminate.
Qed.

End Recovery.

Lemma stateFromRequest_short_ciphertext_witness :
  stateFromRequest (H := sample_decode_State) sample_sso
                   (cookie_request "AAAAAAAAAAAAAAAAAAAA")
  = Err errOpen.
Proof.
  apply (stateFromRequest_short_ciphertext (H := sample_decode_State) sample_sso
           (cookie_request "AAAAAAAAAAAAAAAAAAAA")
           (http.mkCookie "travis.sso" "AAAAAAAAAAAAAAAAAAAA" "" "" 0)
           (mkSlice (repeat 0 15%nat) 15)).
  - reflexivity.
  - vm_compute. reflexivity.
  - simpl. lia.
  - right. right. reflexivity.
Defined.

Lemma handleRequest_forwards_only_authenticated_witness :
  exists cookie decoded b state,
    http.Request_Cookie (cookie_request sample_cookie_value) "travis.sso" = Ok cookie
    /\ base64.DecodeString (http.Value cookie) = (decoded, None)
    /\ (12 < len decoded)%nat
    /\ decrypt (drop 12 (slice_bytes decoded)) (take 12 (slice_bytes decoded))
               (EncryptionKey sample_sso) = Ok b
    /\ json.Decode (Decoder := sample_decode_State) b = inr (Some state)
    /\ http.NewRecorder = http.NewRecorder
    /\ http.Header sample_forwarded !! "Travis-State"
       = Some (default [] (http.Header (cookie_request sample_cookie_value)
                           !! "Travis-State")
               ++ [string_of_bytes (json.encode_State state)]).
Proof.
  apply (handleRequest_forwards_only_authenticated (H := sample_decode_State)
           (H1 := sample_url_String)
           sample_sso sample_world http.NewRecorder http.NewRecorder
           (cookie_request sample_cookie_value) sample_forwarded).
  vm_compute. reflexivity.
Defined.

(** ** A cookie that was tampered with *)

Section Tampered.

Context `{!json.Decoder (option State)} `{!json.Decoder APIMessage} `{!url.Stringer}.

Variable sso : SSO.
Variable world : World.

(** X9.  A session cookie whose tag was replaced is not forwarded.  When
    the [travis.sso] cookie holds the base64 of the nonce, the ciphertext
    and 16 bytes other than the tag [encrypt] wrote under the configured
    key, [handleRequest] answers status 500 with the authentication
    error of the cipher and a [Set-Cookie] line that clears the session:
    an empty [travis.sso] that expired on 1 January 1970. *)
Theorem handleRequest_tampered_cookie
    (rand plaintext sealed nonce tag' : bytes)
    (w : http.ResponseWriter) (req : http.Request) (cookie : http.Cookie) :
  Forall is_byte rand ->
  Forall is_byte plaintext ->
  encrypt rand plaintext (EncryptionKey sso) = Ok (sealed, nonce) ->
  length tag' = 16%nat ->
  Forall is_byte tag' ->
  tag' <> drop (length plaintext) sealed ->
  http.Request_Cookie req "travis.sso" = Ok cookie ->
  http.Value cookie
  = base64.EncodeToString (nonce ++ take (length plaintext) sealed ++ tag') ->
  http.Status w = None ->
  exists w',
    handleRequest sso world w req = Done w'
    /\ http.Status w' = Some 500
    /\ http.Body w'
       = http.Body w +:+ "cipher: message authentication failed" +:+ newline
    /\ http.SetCookies w'
       = http.SetCookies w
         ++ ["travis.sso=; Path=/"
             +:+ (if http.validCookieDomain
                       (domainFromHost (url.Host (AppPublicURL sso)))
                  then "; Domain="
                       +:+ http.withoutLeadingDot
                             (domainFromHost (url.Host (AppPublicURL sso)))
                  else "")
             +:+ "; Expires=Thu, 01 Jan 1970 01:00:00 GMT"].
Proof.
  intros Hrand Hpt Henc Htag Htagb Hdiff Hcookie Hvalue Hw.
  destruct (encrypt_Ok _ _ _ _ _ Hrand Hpt Henc) as (Hnonce & Hsealed & Hrange & _).
  apply Forall_app in Hrange. destruct Hrange as [Hnb Hsb].
  set (bs := nonce ++ take (length plaintext) sealed ++ tag') in *.
  assert (Hbs : Forall is_byte bs).
  { unfold bs. rewrite !Forall_app.
    split; [exact Hnb|]. split; [apply Forall_take; exact Hsb | exact Htagb]. }
  assert (Hlen : length bs = (12 + (length plaintext + 16))%nat).
  { unfold bs. rewrite !length_app, length_take, Hnonce, Htag. lia. }
  destruct (DecodeString_EncodeToString bs Hbs) as [pad Hdecode].
  rewrite <- Hvalue in Hdecode.
  assert (Hstate : stateFromRequest sso req = Err errOpen).
  { rewrite (stateFromRequest_cut sso req cookie _ Hcookie Hdecode)
      by (cbn [len]; lia).
    cbn [len]. destruct (Nat.eqb_spec (length bs) 12); [lia|].
    unfold slice_bytes. cbn [array len].
    rewrite take_app_length.
    replace (take 12 bs) with nonce
      by (unfold bs; rewrite <- Hnonce, take_app_length; reflexivity).
    replace (drop 12 bs) with (take (length plaintext) sealed ++ tag')
      by (unfold bs; rewrite <- Hnonce, drop_app_length; reflexivity).
    rewrite (decrypt_changed_tag rand plaintext (EncryptionKey sso) sealed nonce tag'
               Henc Htag Hdiff).
    reflexivity. }
  unfold handleRequest. rewrite Hstate.
  rewrite bool_decide_eq_false_2 by discriminate.
  eexists. split; [reflexivity|].
  rewrite setLogoutCookie_written.
  repeat split; written Hw.
Qed.

End Tampered.

Lemma handleRequest_tampered_cookie_witness :
  exists w',
    handleRequest (H := sample_decode_State) (H1 := sample_url_String)
      sample_sso sample_world http.NewRecorder
      (cookie_request
         (base64.EncodeToString
            (sample_sealed.2 ++ take 7 sample_sealed.1 ++ repeat 0 16%nat)))
    = Done w'
    /\ http.Status w' = Some 500
    /\ http.Body w'
       = http.Body http.NewRecorder
         +:+ "cipher: message authentication failed" +:+ newline
    /\ http.SetCookies w'
       = http.SetCookies http.NewRecorder
         ++ ["travis.sso=; Path=/; Domain=localhost; "
             +:+ "Expires=Thu, 01 Jan 1970 01:00:00 GMT"].
Proof.
  apply (handleRequest_tampered_cookie (H := sample_decode_State)
           (H1 := sample_url_String) sample_sso
           sample_world (rand_Reader sample_world) (bytes_of_string "session")
           sample_sealed.1 sample_sealed.2 (repeat 0 16%nat) http.NewRecorder
           (cookie_request
              (base64.EncodeToString
                 (sample_sealed.2 ++ take 7 sample_sealed.1 ++ repeat 0 16%nat)))
           (http.mkCookie "travis.sso"
              (base64.EncodeToString
                 (sample_sealed.2 ++ take 7 sample_sealed.1 ++ repeat 0 16%nat))
              "" "" 0)).
  - exact sample_entropy_bytes.
  - apply bytes_of_string_range.
  - vm_compute. reflexivity.
  - reflexivity.
  - apply (bool_decide_unpack _). vm_compute. exact I.
  - vm_compute. discriminate.
  - reflexivity.
  - reflexivity.
  - reflexivity.
Defined.

(** ** handleRequest without a session *)

Section Unauthenticated.

Context `{!json.Decoder (option State)} `{!json.Decoder APIMessage} `{!url.Stringer}.

Variable sso : SSO.
Variable world : World.

(** X10.  Without a [travis.sso] cookie, a request whose method is neither
    GET nor HEAD is answered with status 405, the header
    [Allow: GET, HEAD] and a body that links to the URL of the request
    as [URL.String] prints it; no cookie is set and the login template
    is not touched, not even loaded. *)
Theorem handleRequest_no_cookie_method_not_allowed
    (w : http.ResponseWriter) (req : http.Request) :
  http.Request_Cookie req "travis.sso" = Err ErrNoCookie ->
  http.Method req <> "GET" ->
  http.Method req <> "HEAD" ->
  http.Status w = None ->
  exists w',
    handleRequest sso world w req = Done w'
    /\ http.Status w' = Some 405
    /\ http.wHeader w' !! "Allow" = Some ["GET, HEAD"]
    /\ http.SetCookies w' = http.SetCookies w
    /\ http.Body w'
       = http.Body w
         +:+ ("must be <a href=" +:+ quote +:+ url.String (http.URL req)
              +:+ quote +:+ ">GET</a> request")
         +:+ newline.
Proof.
  intros Hcookie Hget Hhead Hstatus.
  unfold handleRequest, stateFromRequest. rewrite Hcookie.
  rewrite bool_decide_eq_true_2 by reflexivity. cbn [negb].
  unfold handleHandshake.
  rewrite (bool_decide_eq_false_2 _ Hget), (bool_decide_eq_false_2 _ Hhead).
  cbn [negb andb].
  eexists. split; [reflexivity|].
  split; [written Hstatus|].
  split.
  - unfold http.Error, http.Write, http.WriteHeader, http.withHeader, http.Set_.
    cbn [http.Status http.Body http.SetCookies http.wHeader].
    rewrite Hstatus.
    cbn [http.Status http.Body http.SetCookies http.wHeader].
    rewrite !lookup_insert_ne by discriminate.
    rewrite lookup_delete_ne by discriminate.
    apply lookup_insert_eq.
  - split; written Hstatus.
Qed.

End Unauthenticated.

Lemma handleRequest_no_cookie_method_not_allowed_witness :
  exists w',
    handleRequest (H := sample_decode_State) (H1 := sample_url_String)
                  sample_sso sample_world http.NewRecorder
                  (request "POST" "/" [] ∅) = Done w'
    /\ http.Status w' = Some 405
    /\ http.wHeader w' !! "Allow" = Some ["GET, HEAD"]
    /\ http.SetCookies w' = http.SetCookies http.NewRecorder
    /\ http.Body w'
       = http.Body http.NewRecorder
         +:+ ("must be <a href=" +:+ quote +:+ "/" +:+ quote +:+ ">GET</a> request")
         +:+ newline.
Proof.
  apply (handleRequest_no_cookie_method_not_allowed (H := sample_decode_State)
           (H1 := sample_url_String)
           sample_sso sample_world http.NewRecorder (request "POST" "/" [] ∅)).
  - reflexivity.
  - discriminate.
  - discriminate.
  - reflexivity.
Defined.

(** ** The cookies a handler leaves alone *)

Lemma Error_cookies (w : http.ResponseWriter) (msg : string) (code : Z) :
  http.SetCookies (http.Error w msg code) = http.SetCookies w.
Proof.
  unfold http.Error, http.Write, http.WriteHeader, http.withHeader.
  cbn [http.Status http.Body http.SetCookies http.wHeader].
  destruct (http.Status w); reflexivity.
Qed.

Lemma Redirect_cookies (w : http.ResponseWriter) (req : http.Request)
    (target : string) (code : Z) :
  http.SetCookies (http.Redirect w req target code) = http.SetCookies w.
Proof.
  unfold http.Redirect, http.Write, http.WriteHeader, http.withHeader.
  cbn [http.Status http.Body http.SetCookies http.wHeader].
  destruct (negb _ && bool_decide (http.Method req = "GET"));
    destruct (http.Status w); reflexivity.
Qed.

Lemma Error_written (w : http.ResponseWriter) (msg : string) (code : Z) :
  http.Status w = None ->
  http.Status (http.Error w msg code) = Some code
  /\ http.Body (http.Error w msg code) = http.Body w +:+ msg +:+ newline
  /\ http.SetCookies (http.Error w msg code) = http.SetCookies w.
Proof. intros Hstatus. repeat split; written Hstatus. Qed.

(** ** From the login to the next request *)

Section LoginThenRequest.

Context `{!json.Decoder (option State)} `{!json.Decoder APIMessage} `{!url.Stringer}.

Variable sso : SSO.
Variable world : World.

(** X11.  The session a login writes is the session the next request
    recovers.  After a POST with token T that the identity provider and
    the policy accept, under a key the cipher accepts and a random source
    that delivers 12 bytes, [handleLogin] adds one [Set-Cookie] line,
    for [travis.sso], whose value is the base64 of the nonce and the
    sealed session; any later request that carries that value in its
    [travis.sso] cookie is forwarded by [handleRequest] to the upstream
    host with the JSON of the user and T as the last value of
    [Travis-State], provided the JSON decoder reads that JSON back. *)
Theorem login_then_forwarded
    (w : http.ResponseWriter) (req : http.Request) (T : string)
    (apiResp : http.Response) (m : APIMessage) :
  http.Method req = "POST" ->
  http.FormValue req "sso_token" = T ->
  T <> "" ->
  client_Do world (identity_request sso T) = inr apiResp ->
  http.StatusCode apiResp = http.StatusOK ->
  json.Decode (A := APIMessage) (http.RespBody apiResp) = inr m ->
  Authorized sso (APIMessage_User m) = Ok true ->
  length (EncryptionKey sso) = 16%nat \/ length (EncryptionKey sso) = 24%nat
  \/ length (EncryptionKey sso) = 32%nat ->
  (12 <= length (rand_Reader world))%nat ->
  Forall is_byte (rand_Reader world) ->
  json.Decode (A := option State)
              (json.encode_State (mkState (APIMessage_User m) T))
  = inr (Some (mkState (APIMessage_User m) T)) ->
  exists w1 sealed nonce attributes,
    handleLogin sso world w req = Done w1
    /\ encrypt (rand_Reader world) (json.encode_State (mkState (APIMessage_User m) T))
               (EncryptionKey sso) = Ok (sealed, nonce)
    /\ http.SetCookies w1
       = http.SetCookies w
         ++ ["travis.sso=" +:+ base64.EncodeToString (nonce ++ sealed)
             +:+ "; Path=/" +:+ attributes]
    /\ forall (world2 : World) (w2 : http.ResponseWriter) (req2 : http.Request)
              (c2 : http.Cookie),
         http.Request_Cookie req2 "travis.sso" = Ok c2 ->
         http.Value c2 = base64.EncodeToString (nonce ++ sealed) ->
         exists req',
           handleRequest sso world2 w2 req2 = Forwarded w2 req'
           /\ url.Scheme (http.URL req') = url.Scheme (UpstreamURL sso)
           /\ url.Host (http.URL req') = url.Host (UpstreamURL sso)
           /\ http.Header req' !! "Travis-State"
              = Some (default [] (http.Header req2 !! "Travis-State")
                      ++ [string_of_bytes
                            (json.encode_State (mkState (APIMessage_User m) T))]).
Proof.
  intros Hmethod Hform Htoken Hdo Hstatus Hdecode Hauth Hkey Hrand Hbytes Hjson.
  rewrite (handleLogin_identified sso world w req T apiResp m) by assumption.
  rewrite Hauth.
  destruct (encrypt_decrypt (rand_Reader world)
              (json.encode_State (mkState (APIMessage_User m) T))
              (EncryptionKey sso) Hkey Hrand)
    as (sealed & Henc & _ & _).
  rewrite Henc, SetCookie_login.
  eexists. exists sealed, (take 12 (rand_Reader world)). eexists.
  split; [reflexivity|].
  split; [reflexivity|].
  split; [rewrite Redirect_cookies; reflexivity|].
  intros world2 w2 req2 c2 Hcookie Hvalue.
  assert (Hstate : stateFromRequest sso req2
                   = Ok (Some (mkState (APIMessage_User m) T))).
  { rewrite (stateFromRequest_login_cookie sso (rand_Reader world)
               (mkState (APIMessage_User m) T) sealed (take 12 (rand_Reader world))
               req2 c2 Hbytes Henc Hcookie)
      by (rewrite Hvalue; reflexivity).
    rewrite Hjson. reflexivity. }
  unfold handleRequest. rewrite Hstate.
  unfold handleProxy. cbn [json.Marshal].
  eexists. split; [reflexivity|].
  cbn [http.URL http.Header url.Scheme url.Host].
  repeat split.
  unfold http.Add. apply lookup_insert_eq.
Qed.

End LoginThenRequest.

Lemma login_then_forwarded_witness :
  handleLogin (H0 := sample_decode_APIMessage) sample_sso sample_world
              http.NewRecorder (login_request "T")
  = Done sample_login_response
  /\ exists req',
       handleRequest (H := sample_decode_State) (H1 := sample_url_String)
                     sample_sso sample_world
                     http.NewRecorder (cookie_request sample_cookie_value)
       = Forwarded http.NewRecorder req'
       /\ url.Scheme (http.URL req') = "http"
       /\ url.Host (http.URL req') = "localhost:8081"
       /\ http.Header req' !! "Travis-State"
          = Some [string_of_bytes (json.encode_State (mkState sample_user "T"))].
Proof.
  destruct (login_then_forwarded (H := sample_decode_State)
              (H0 := sample_decode_APIMessage) (H1 := sample_url_String)
              sample_sso sample_world
              http.NewRecorder (login_request "T") "T"
              (http.mkResponse 200 (api_body sample_user))
              (mkAPIMessage sample_user))
    as (w1 & sealed & nonce & attributes & Hlogin & Henc & Hcookies & Hnext).
  - reflexivity.
  - reflexivity.
  - discriminate.
  - reflexivity.
  - reflexivity.
  - vm_compute. reflexivity.
  - vm_compute. reflexivity.
  - right. right. reflexivity.
  - simpl. lia.
  - exact sample_entropy_bytes.
  - vm_compute. reflexivity.
  - split; [vm_compute; reflexivity|].
    apply (Hnext sample_world http.NewRecorder (cookie_request sample_cookie_value)
             (http.mkCookie "travis.sso" sample_cookie_value "" "" 0));
      [reflexivity|].
    vm_compute in Henc. injection Henc as <- <-.
    vm_compute. reflexivity.
Defined.

(** ** handleLogin, path by path *)

Section LoginPaths.

Context `{!json.Decoder (option State)} `{!json.Decoder APIMessage} `{!url.Stringer}.

Variable sso : SSO.
Variable world : World.

(** [handleLogin] on a POST with a token, as a function of what the
    identity provider answers. *)
Lemma handleLogin_asked
    (w : http.ResponseWriter) (req : http.Request) (T : string) :
  http.Method req = "POST" ->
  http.FormValue req "sso_token" = T ->
  T <> "" ->
  handleLogin sso world w req
  = match client_Do world (identity_request sso T) with
    | inl err => Done (http.Error w err 500)
    | inr apiResp =>
        if negb (http.StatusCode apiResp =? http.StatusOK) then
          Done (http.Error w ("upstream error, code="
                              +:+ pretty (http.StatusCode apiResp)
                              +:+ ", body=" +:+ string_of_bytes (http.RespBody apiResp)
                              +:+ newline) 500)
        else
          match json.Decode (A := APIMessage) (http.RespBody apiResp) with
          | inl err => Done (http.Error w err 500)
          | inr m =>
              match Authorized sso (APIMessage_User m) with
              | Err err => Done (http.Error w (Error_ err) 500)
              | Panic msg => Panicked msg
              | Ok false =>
                  Done (http.Error w ("access denied for user "
                                      +:+ Login (APIMessage_User m)) 403)
              | Ok true =>
                  match encrypt (rand_Reader world)
                                (json.encode_State (mkState (APIMessage_User m) T))
                                (EncryptionKey sso) with
                  | Err err => Done (http.Error w (Error_ err) 500)
                  | Panic msg => Panicked msg
                  | Ok (encryptedCookie, nonce) =>
                      Done (http.Redirect
                              (http.SetCookie w
                                 (http.mkCookie "travis.sso"
                                    (base64.EncodeToString (nonce ++ encryptedCookie))
                                    "/"
                                    (domainFromHost (url.Host (AppPublicURL sso)))
                                    (time_Now world + one_year)))
                              req "/" http.StatusFound)
                  end
              end
          end
    end.
Proof.
  intros Hmethod Hform Htoken.
  unfold handleLogin.
  rewrite (bool_decide_eq_true_2 _ Hmethod), Hform.
  rewrite (bool_decide_eq_false_2 _ Htoken).
  unfold http_NewRequest.
  cbn [api_Method api_URL api_Query_Add api_Header].
  replace (mkAPIRequest "GET" _ _ _) with (identity_request sso T).
  2:{ unfold identity_request, http.Add. f_equal. }
  cbn [json.Marshal]. reflexivity.
Qed.

(** X12.  [handleLogin] adds a [Set-Cookie] line only on the path on
    which the request is a POST with a non-empty token, the identity
    provider answered 200 with a body that decodes, and the policy
    accepted the user; the line it adds is one for [travis.sso].  On
    every other path the lines of the response are those it found. *)
Theorem handleLogin_cookie_only_if_authorized
    (w w' : http.ResponseWriter) (req : http.Request) :
  handleLogin sso world w req = Done w' ->
  http.SetCookies w' <> http.SetCookies w ->
  http.Method req = "POST"
  /\ http.FormValue req "sso_token" <> ""
  /\ exists apiResp m rest,
       client_Do world (identity_request sso (http.FormValue req "sso_token"))
       = inr apiResp
       /\ http.StatusCode apiResp = http.StatusOK
       /\ json.Decode (A := APIMessage) (http.RespBody apiResp) = inr m
       /\ Authorized sso (APIMessage_User m) = Ok true
       /\ http.SetCookies w' = http.SetCookies w ++ ["travis.sso=" +:+ rest].
Proof.
  intros Hdone Hcookies.
  destruct (decide (http.Method req = "POST")) as [Hmethod|Hmethod].
  2:{ exfalso. apply Hcookies.
      unfold handleLogin in Hdone. cbv zeta in Hdone.
      rewrite (bool_decide_eq_false_2 _ Hmethod) in Hdone.
      rewrite bool_decide_eq_true_2 in Hdone by reflexivity.
      injection Hdone as <-. apply Redirect_cookies. }
  destruct (decide (http.FormValue req "sso_token" = "")) as [Htoken|Htoken].
  { exfalso. apply Hcookies.
    unfold handleLogin in Hdone. cbv zeta in Hdone.
    rewrite (bool_decide_eq_true_2 _ Hmethod), Htoken in Hdone.
    rewrite bool_decide_eq_true_2 in Hdone by reflexivity.
    injection Hdone as <-. apply Redirect_cookies. }
  split; [exact Hmethod|]. split; [exact Htoken|].
  rewrite (handleLogin_asked w req _ Hmethod eq_refl Htoken) in Hdone.
  destruct (client_Do world _) as [err|apiResp] eqn:Hdo.
  { exfalso. apply Hcookies. injection Hdone as <-. apply Error_cookies. }
  destruct (Z.eqb_spec (http.StatusCode apiResp) http.StatusOK) as [Hstatus|Hstatus];
    cbn [negb] in Hdone.
  2:{ exfalso. apply Hcookies. injection Hdone as <-. apply Error_cookies. }
  destruct (json.Decode (http.RespBody apiResp)) as [err|m] eqn:Hdecode.
  { exfalso. apply Hcookies. injection Hdone as <-. apply Error_cookies. }
  destruct (Authorized sso (APIMessage_User m)) as [[|]|err|msg] eqn:Hauth.
  - destruct (encrypt _ _ _) as [[sealed nonce]|err|msg].
    + injection Hdone as <-.
      exists apiResp, m. eexists.
      split; [reflexivity|]. split; [exact Hstatus|]. split; [exact Hdecode|].
      split; [exact Hauth|].
      rewrite Redirect_cookies, SetCookie_login. reflexivity.
    + exfalso. apply Hcookies. injection Hdone as <-. apply Error_cookies.
    + discriminate.
  - exfalso. apply Hcookies. injection Hdone as <-. apply Error_cookies.
  - exfalso. apply Hcookies. injection Hdone as <-. apply Error_cookies.
  - discriminate.
Qed.

(** X13.  On a POST with a non-empty token, a failure of the identity
    step is answered with status 500 and no cookie: the text of the
    transport error when the provider cannot be reached, "upstream
    error" with the status and the body when it answers another status
    than 200, the text of the JSON error when its body does not decode.
    The authorization policy plays no part. *)
Theorem handleLogin_identity_failure
    (w : http.ResponseWriter) (req : http.Request) (T : string) :
  http.Method req = "POST" ->
  http.FormValue req "sso_token" = T ->
  T <> "" ->
  http.Status w = None ->
  (forall err,
     client_Do world (identity_request sso T) = inl err ->
     exists w', handleLogin sso world w req = Done w'
       /\ http.Status w' = Some 500
       /\ http.Body w' = http.Body w +:+ err +:+ newline
       /\ http.SetCookies w' = http.SetCookies w)
  /\ (forall apiResp,
        client_Do world (identity_request sso T) = inr apiResp ->
        http.StatusCode apiResp <> http.StatusOK ->
        exists w', handleLogin sso world w req = Done w'
          /\ http.Status w' = Some 500
          /\ http.Body w'
             = http.Body w
               +:+ ("upstream error, code=" +:+ pretty (http.StatusCode apiResp)
                    +:+ ", body=" +:+ string_of_bytes (http.RespBody apiResp)
                    +:+ newline)
               +:+ newline
          /\ http.SetCookies w' = http.SetCookies w)
  /\ (forall apiResp err,
        client_Do world (identity_request sso T) = inr apiResp ->
        http.StatusCode apiResp = http.StatusOK ->
        json.Decode (A := APIMessage) (http.RespBody apiResp) = inl err ->
        exists w', handleLogin sso world w req = Done w'
          /\ http.Status w' = Some 500
          /\ http.Body w' = http.Body w +:+ err +:+ newline
          /\ http.SetCookies w' = http.SetCookies w).
Proof.
  intros Hmethod Hform Htoken Hw.
  rewrite (handleLogin_asked w req T Hmethod Hform Htoken).
  split; [|split].
  - intros err Hdo. rewrite Hdo.
    eexists. split; [reflexivity|]. apply Error_written, Hw.
  - intros apiResp Hdo Hstatus. rewrite Hdo.
    destruct (Z.eqb_spec (http.StatusCode apiResp) http.StatusOK); [contradiction|].
    cbn [negb].
    eexists. split; [reflexivity|]. apply Error_written, Hw.
  - intros apiResp err Hdo Hstatus Hdecode. rewrite Hdo, Hstatus, Hdecode.
    cbn [Z.eqb http.StatusOK Pos.eqb negb].
    eexists. split; [reflexivity|]. apply Error_written, Hw.
Qed.

(** X14.  A key the cipher does not accept shows at the first login the
    policy accepts: the response is status 500 with the text of the key
    size error, and no cookie is set. *)
Theorem handleLogin_invalid_key
    (w : http.ResponseWriter) (req : http.Request) (T : string)
    (apiResp : http.Response) (m : APIMessage) :
  http.Method req = "POST" ->
  http.FormValue req "sso_token" = T ->
  T <> "" ->
  client_Do world (identity_request sso T) = inr apiResp ->
  http.StatusCode apiResp = http.StatusOK ->
  json.Decode (A := APIMessage) (http.RespBody apiResp) = inr m ->
  Authorized sso (APIMessage_User m) = Ok true ->
  length (EncryptionKey sso) <> 16%nat ->
  length (EncryptionKey sso) <> 24%nat ->
  length (EncryptionKey sso) <> 32%nat ->
  http.Status w = None ->
  exists w',
    handleLogin sso world w req = Done w'
    /\ http.Status w' = Some 500
    /\ http.Body w'
       = http.Body w
         +:+ ("crypto/aes: invalid key size "
              +:+ pretty (Z.of_nat (length (EncryptionKey sso))))
         +:+ newline
    /\ http.SetCookies w' = http.SetCookies w.
Proof.
  intros Hmethod Hform Htoken Hdo Hstatus Hdecode Hauth H16 H24 H32 Hw.
  rewrite (handleLogin_identified sso world w req T apiResp m) by assumption.
  rewrite Hauth.
  unfold encrypt. rewrite (NewCipher_invalid _ H16 H24 H32).
  cbn [mbind result_bind].
  eexists. split; [reflexivity|]. apply Error_written, Hw.
Qed.

(** X15.  A POST to [/sso/login] whose [sso_token] is missing or empty is
    sent back to [/] with status 302 and no cookie, whatever the
    identity provider would have said. *)
Theorem handleLogin_post_without_token
    (w : http.ResponseWriter) (req : http.Request) :
  http.Method req = "POST" ->
  http.FormValue req "sso_token" = "" ->
  http.Status w = None ->
  exists w',
    handleLogin sso world w req = Done w'
    /\ http.Status w' = Some 302
    /\ http.wHeader w' !! "Location" = Some ["/"]
    /\ http.SetCookies w' = http.SetCookies w.
Proof.
  intros Hmethod Hform Hw.
  unfold handleLogin. cbv zeta.
  rewrite (bool_decide_eq_true_2 _ Hmethod), Hform.
  rewrite bool_decide_eq_true_2 by reflexivity.
  eexists. split; [reflexivity|].
  apply Redirect_found. exact Hw.
Qed.

End LoginPaths.

Lemma handleLogin_cookie_only_if_authorized_witness :
  http.Method (login_request "T") = "POST"
  /\ http.FormValue (login_request "T") "sso_token" <> ""
  /\ exists apiResp m rest,
       client_Do sample_world
         (identity_request sample_sso (http.FormValue (login_request "T") "sso_token"))
       = inr apiResp
       /\ http.StatusCode apiResp = http.StatusOK
       /\ json.Decode (Decoder := sample_decode_APIMessage) (http.RespBody apiResp)
          = inr m
       /\ Authorized sample_sso (APIMessage_User m) = Ok true
       /\ http.SetCookies sample_login_response
          = http.SetCookies http.NewRecorder ++ ["travis.sso=" +:+ rest].
Proof.
  apply (handleLogin_cookie_only_if_authorized (H0 := sample_decode_APIMessage)
           sample_sso sample_world http.NewRecorder sample_login_response
           (login_request "T")).
  - vm_compute. reflexivity.
  - discriminate.
Defined.

Lemma handleLogin_identity_failure_witness :
  (exists w',
     handleLogin (H0 := sample_decode_APIMessage) sample_sso
                 (failing_world (inl "connection refused")) http.NewRecorder
                 (login_request "T") = Done w'
     /\ http.Status w' = Some 500
     /\ http.Body w' = http.Body http.NewRecorder +:+ "connection refused" +:+ newline
     /\ http.SetCookies w' = http.SetCookies http.NewRecorder)
  /\ (exists w',
        handleLogin (H0 := sample_decode_APIMessage) sample_sso sample_world
                    http.NewRecorder (login_request "unknown") = Done w'
        /\ http.Status w' = Some 500
        /\ http.Body w'
           = http.Body http.NewRecorder
             +:+ ("upstream error, code=" +:+ pretty 403
                  +:+ ", body=" +:+ string_of_bytes (bytes_of_string "{}") +:+ newline)
             +:+ newline
        /\ http.SetCookies w' = http.SetCookies http.NewRecorder)
  /\ (exists w',
        handleLogin (H0 := sample_decode_APIMessage) sample_sso
                    (failing_world (inr (http.mkResponse 200 (bytes_of_string "{"))))
                    http.NewRecorder (login_request "T") = Done w'
        /\ http.Status w' = Some 500
        /\ http.Body w' = http.Body http.NewRecorder +:+ "invalid character" +:+ newline
        /\ http.SetCookies w' = http.SetCookies http.NewRecorder).
Proof.
  split; [|split].
  - apply (proj1 (handleLogin_identity_failure (H0 := sample_decode_APIMessage)
                    sample_sso (failing_world (inl "connection refused"))
                    http.NewRecorder (login_request "T") "T"
                    eq_refl eq_refl ltac:(discriminate) eq_refl)).
    reflexivity.
  - apply (proj1 (proj2 (handleLogin_identity_failure (H0 := sample_decode_APIMessage)
                    sample_sso sample_world
                    http.NewRecorder (login_request "unknown") "unknown"
                    eq_refl eq_refl ltac:(discriminate) eq_refl))
             (http.mkResponse 403 (bytes_of_string "{}"))).
    + reflexivity.
    + discriminate.
  - apply (proj2 (proj2 (handleLogin_identity_failure (H0 := sample_decode_APIMessage)
                    sample_sso
                    (failing_world (inr (http.mkResponse 200 (bytes_of_string "{"))))
                    http.NewRecorder (login_request "T") "T"
                    eq_refl eq_refl ltac:(discriminate) eq_refl))
             (http.mkResponse 200 (bytes_of_string "{"))).
    + reflexivity.
    + reflexivity.
    + vm_compute. reflexivity.
Defined.

Lemma handleLogin_invalid_key_witness :
  exists w',
    handleLogin (H0 := sample_decode_APIMessage) sample_sso_short_key sample_world
                http.NewRecorder (login_request "T") = Done w'
    /\ http.Status w' = Some 500
    /\ http.Body w'
       = http.Body http.NewRecorder
         +:+ ("crypto/aes: invalid key size "
              +:+ pretty (Z.of_nat (length (EncryptionKey sample_sso_short_key))))
         +:+ newline
    /\ http.SetCookies w' = http.SetCookies http.NewRecorder.
Proof.
  apply (handleLogin_invalid_key (H0 := sample_decode_APIMessage) sample_sso_short_key
           sample_world http.NewRecorder (login_request "T") "T"
           (http.mkResponse 200 (api_body sample_user)) (mkAPIMessage sample_user)).
  - reflexivity.
  - reflexivity.
  - discriminate.
  - reflexivity.
  - reflexivity.
  - vm_compute. reflexivity.
  - vm_compute. reflexivity.
  - discriminate.
  - discriminate.
  - discriminate.
  - reflexivity.
Defined.

Lemma handleLogin_post_without_token_witness :
  exists w',
    handleLogin (H0 := sample_decode_APIMessage) sample_sso sample_world
                http.NewRecorder (request "POST" "/sso/login" [] ∅) = Done w'
    /\ http.Status w' = Some 302
    /\ http.wHeader w' !! "Location" = Some ["/"]
    /\ http.SetCookies w' = http.SetCookies http.NewRecorder.
Proof.
  apply (handleLogin_post_without_token (H0 := sample_decode_APIMessage) sample_sso
           sample_world http.NewRecorder (request "POST" "/sso/login" [] ∅));
    reflexivity.
Defined.

(** ** handleLogout *)

Lemma string_app_assoc (a b c : string) : (a +:+ b) +:+ c = a +:+ (b +:+ c).
Proof.
  induction a as [|x a IH]; [reflexivity|].
  change (String x ((a +:+ b) +:+ c) = String x (a +:+ (b +:+ c))).
  f_equal. exact IH.
Qed.

Lemma list_ascii_of_string_app (a b : string) :
  list_ascii_of_string (a +:+ b) = list_ascii_of_string a ++ list_ascii_of_string b.
Proof.
  induction a as [|x a IH]; [reflexivity|].
  change (x :: list_ascii_of_string (a +:+ b)
          = x :: (list_ascii_of_string a ++ list_ascii_of_string b)).
  f_equal. exact IH.
Qed.

(** [html.EscapeString] leaves no markup character. *)
Lemma html_EscapeString_safe (s : string) (c : ascii) :
  In c (list_ascii_of_string (html_EscapeString s)) -> ~ markup c.
Proof.
  induction s as [|x s IH]; [intros []|].
  cbn [html_EscapeString]. rewrite list_ascii_of_string_app, in_app_iff.
  intros [Hin | Hin]; [|exact (IH Hin)].
  unfold markup.
  repeat case_bool_decide; cbn in Hin;
    repeat match goal with
           | H : _ \/ _ |- _ => destruct H
           | H : False |- _ => destruct H
           end;
    subst; intros [? | [? | [? | ?]]]; congruence.
Qed.

Lemma Write_body (w : http.ResponseWriter) (data : string) :
  http.Body (http.Write w data) = http.Body w +:+ data.
Proof. destruct w as [h c [st|] b]; reflexivity. Qed.

Lemma Write_cookies (w : http.ResponseWriter) (data : string) :
  http.SetCookies (http.Write w data) = http.SetCookies w.
Proof. destruct w as [h c [st|] b]; reflexivity. Qed.

Lemma Write_status (w : http.ResponseWriter) (data : string) :
  http.Status (http.Write w data) = Some (default http.StatusOK (http.Status w)).
Proof. destruct w as [h c [st|] b]; reflexivity. Qed.

Section Logout.

Variable sso : SSO.

(** X16.  A POST to [/sso/logout] answers "logged out" with status 200 and
    adds one [Set-Cookie] line, which clears the session: [travis.sso]
    with an empty value, [Path=/], and as [Expires] 01:00 on 1 January
    1970, the time 3600 seconds after the epoch.  The line carries, as
    [Domain], the public host cut by [domainFromHost] when net/http
    accepts that as a cookie domain, and no [Domain] otherwise. *)
Theorem handleLogout_post_clears (w : http.ResponseWriter) (req : http.Request) :
  http.Method req = "POST" ->
  http.Status w = None ->
  exists w',
    handleLogout sso w req = Done w'
    /\ http.Status w' = Some 200
    /\ http.Body w' = http.Body w +:+ "logged out"
    /\ http.SetCookies w'
       = http.SetCookies w
         ++ ["travis.sso=; Path=/"
             +:+ (if http.validCookieDomain
                       (domainFromHost (url.Host (AppPublicURL sso)))
                  then "; Domain="
                       +:+ http.withoutLeadingDot
                             (domainFromHost (url.Host (AppPublicURL sso)))
                  else "")
             +:+ "; Expires=Thu, 01 Jan 1970 01:00:00 GMT"]
    /\ time.Format 3600 = "Thu, 01 Jan 1970 01:00:00 GMT".
Proof.
  intros Hmethod Hw.
  unfold handleLogout.
  rewrite (bool_decide_eq_true_2 _ Hmethod). cbn [negb].
  eexists. split; [reflexivity|].
  rewrite setLogoutCookie_written.
  split; [rewrite Write_status; cbn [http.Status]; rewrite Hw; reflexivity|].
  split; [rewrite Write_body; reflexivity|].
  split; [rewrite Write_cookies; reflexivity|].
  reflexivity.
Qed.

(** X17.  Any other method on [/sso/logout] gets the confirmation form
    with status 200 and no cookie: the body is the form with the CSRF
    token of the request, HTML-escaped, as the value of its hidden field,
    and the escaped token holds no quote and no angle bracket. *)
Theorem handleLogout_form (w : http.ResponseWriter) (req : http.Request) :
  http.Method req <> "POST" ->
  http.Status w = None ->
  exists w',
    handleLogout sso w req = Done w'
    /\ http.Status w' = Some 200
    /\ http.SetCookies w' = http.SetCookies w
    /\ http.Body w'
       = http.Body w
         +:+ ("<form method=" +:+ quote +:+ "POST" +:+ quote
              +:+ " action=" +:+ quote +:+ "/sso/logout" +:+ quote +:+ ">")
         +:+ ("<input type=" +:+ quote +:+ "hidden" +:+ quote
              +:+ " name=" +:+ quote +:+ "authenticity_token" +:+ quote
              +:+ " value=" +:+ quote)
         +:+ html_EscapeString (http.csrfToken req)
         +:+ (quote +:+ ">")
         +:+ ("<input type=" +:+ quote +:+ "submit" +:+ quote
              +:+ " value=" +:+ quote +:+ "logout" +:+ quote +:+ ">")
         +:+ "</form>"
    /\ (forall c,
          In c (list_ascii_of_string (html_EscapeString (http.csrfToken req))) ->
          ~ markup c).
Proof.
  intros Hmethod Hw.
  unfold handleLogout.
  rewrite (bool_decide_eq_false_2 _ Hmethod). cbn [negb].
  eexists. split; [reflexivity|].
  split; [|split; [|split]].
  - rewrite !Write_status. unfold http.withHeader. cbn [http.Status].
    rewrite Hw. reflexivity.
  - rewrite !Write_cookies. reflexivity.
  - rewrite !Write_body. unfold http.withHeader. cbn [http.Body].
    rewrite !string_app_assoc. reflexivity.
  - intros c. apply html_EscapeString_safe.
Qed.

End Logout.

Lemma handleLogout_post_clears_witness :
  exists w',
    handleLogout sample_sso http.NewRecorder (request "POST" "/sso/logout" [] ∅)
    = Done w'
    /\ http.Status w' = Some 200
    /\ http.Body w' = http.Body http.NewRecorder +:+ "logged out"
    /\ http.SetCookies w'
       = http.SetCookies http.NewRecorder
         ++ ["travis.sso=; Path=/; Domain=localhost; "
             +:+ "Expires=Thu, 01 Jan 1970 01:00:00 GMT"]
    /\ time.Format 3600 = "Thu, 01 Jan 1970 01:00:00 GMT".
Proof.
  apply (handleLogout_post_clears sample_sso http.NewRecorder
           (request "POST" "/sso/logout" [] ∅)); reflexivity.
Defined.

Lemma handleLogout_form_witness :
  exists w',
    handleLogout sample_sso http.NewRecorder (request "GET" "/sso/logout" [] ∅)
    = Done w'
    /\ http.Status w' = Some 200
    /\ http.SetCookies w' = []
    /\ http.Body w'
       = ("<form method=" +:+ quote +:+ "POST" +:+ quote
          +:+ " action=" +:+ quote +:+ "/sso/logout" +:+ quote +:+ ">")
         +:+ ("<input type=" +:+ quote +:+ "hidden" +:+ quote
              +:+ " name=" +:+ quote +:+ "authenticity_token" +:+ quote
              +:+ " value=" +:+ quote)
         +:+ "csrf-token"
         +:+ (quote +:+ ">")
         +:+ ("<input type=" +:+ quote +:+ "submit" +:+ quote
              +:+ " value=" +:+ quote +:+ "logout" +:+ quote +:+ ">")
         +:+ "</form>".
Proof.
  destruct (handleLogout_form sample_sso http.NewRecorder
              (request "GET" "/sso/logout" [] ∅) ltac:(discriminate) eq_refl)
    as (w' & Hdone & Hstatus & Hcookies & Hbody & _).
  exists w'.
  split; [exact Hdone|]. split; [exact Hstatus|]. split; [exact Hcookies|].
  rewrite Hbody. reflexivity.
Defined.

(** ** main *)

Lemma main_authorized_lookup (users : list string) (m : gmap string bool) (k : string) :
  fold_left (fun m v => <[v := true]> m) users m !! k
  = if bool_decide (k ∈ users) then Some true else m !! k.
Proof.
  revert m. induction users as [|u users IH]; intros m.
  - cbn [fold_left]. rewrite bool_decide_eq_false_2 by apply not_elem_of_nil.
    reflexivity.
  - cbn [fold_left]. rewrite IH.
    destruct (decide (k ∈ users)) as [Hin|Hnin].
    + rewrite !bool_decide_eq_true_2 by (try (right; assumption); assumption).
      reflexivity.
    + rewrite (bool_decide_eq_false_2 _ Hnin).
      destruct (decide (k = u)) as [->|Hne].
      * rewrite lookup_insert_eq.
        rewrite bool_decide_eq_true_2 by left. reflexivity.
      * rewrite lookup_insert_ne by congruence.
        rewrite bool_decide_eq_false_2; [reflexivity|].
        intros [?|?]%elem_of_cons; contradiction.
Qed.

(** X18.  The policy [main] installs accepts a user exactly when the login
    is one of the [--auth] values; it never fails. *)
Theorem main_Authorized_iff (AuthUsers : list string) (u : User) :
  main_Authorized AuthUsers u = Ok (bool_decide (Login u ∈ AuthUsers)).
Proof.
  unfold main_Authorized, main_authorized.
  rewrite main_authorized_lookup, lookup_empty.
  destruct (bool_decide (Login u ∈ AuthUsers)); reflexivity.
Qed.

Lemma bytes_of_string_length (s : string) :
  length (bytes_of_string s) = String.length s.
Proof.
  unfold bytes_of_string. rewrite length_map.
  induction s as [|c s IH]; [reflexivity|]. cbn. rewrite IH. reflexivity.
Qed.

(** What [main] has checked when it listens. *)
Lemma main_listening (sys : System) (o : opts.Options) (addr : string) (s : SSO) :
  main sys o = Listening addr s ->
  flags_Parse sys = None
  /\ opts.UpstreamURL o <> ""
  /\ opts.AppPublicURL o <> ""
  /\ url_Parse sys (opts.UpstreamURL o) = inr (UpstreamURL s)
  /\ url_Parse sys (opts.APIURL o) = inr (APIURL s)
  /\ url_Parse sys (opts.AppPublicURL o) = inr (AppPublicURL s)
  /\ os_Stat sys (opts.StaticPath o) = inr true
  /\ os_Stat sys (opts.TemplatePath o) = inr true
  /\ String.length (opts.EncryptionKey o) = 32%nat
  /\ String.length (opts.CSRFAuthKey o) = 32%nat
  /\ opts.AuthUsers o <> []
  /\ addr = opts.ListenAddr o
  /\ s = mkSSO (UpstreamURL s) (APIURL s) (AppPublicURL s)
               (opts.StaticPath o) (opts.TemplatePath o)
               (bytes_of_string (opts.EncryptionKey o))
               (bytes_of_string (opts.CSRFAuthKey o))
               (main_Authorized (opts.AuthUsers o)).
Proof.
  unfold main, main_checked, isDir.
  destruct (flags_Parse sys) as [err|]; [destruct (negb _); discriminate|].
  case_bool_decide as Hup; [discriminate|].
  destruct (url_Parse sys (opts.UpstreamURL o)) as [?|upstream]; [discriminate|].
  destruct (url_Parse sys (opts.APIURL o)) as [?|api]; [discriminate|].
  case_bool_decide as Happ; [discriminate|].
  destruct (url_Parse sys (opts.AppPublicURL o)) as [?|app]; [discriminate|].
  destruct (os_Stat sys (opts.StaticPath o)) as [?|[|]];
    [rewrite bool_decide_eq_true_2 by discriminate; discriminate | |
     rewrite orb_true_r; discriminate].
  rewrite bool_decide_eq_false_2 by (intros Hn; apply Hn; reflexivity).
  cbn [negb orb].
  destruct (os_Stat sys (opts.TemplatePath o)) as [?|[|]];
    [rewrite bool_decide_eq_true_2 by discriminate; discriminate | |
     rewrite orb_true_r; discriminate].
  rewrite bool_decide_eq_false_2 by (intros Hn; apply Hn; reflexivity).
  cbn [negb orb].
  destruct (Nat.eqb_spec (String.length (opts.EncryptionKey o)) 32) as [Hkey|];
    [|rewrite orb_true_r; discriminate].
  destruct (bool_decide (opts.EncryptionKey o = "")); [discriminate|]. cbn [negb orb].
  destruct (Nat.eqb_spec (String.length (opts.CSRFAuthKey o)) 32) as [Hcsrf|];
    [|rewrite orb_true_r; discriminate].
  destruct (bool_decide (opts.CSRFAuthKey o = "")); [discriminate|]. cbn [negb orb].
  destruct (opts.AuthUsers o) as [|u users] eqn:Husers; [discriminate|].
  cbn [length Nat.eqb].
  intros [= <- <-]. cbn [UpstreamURL APIURL AppPublicURL].
  repeat split; auto.
Qed.

(** X19.  When [main] gets as far as listening, the command line was
    parsed, the upstream and public URLs are not empty and all three URLs
    parse, both paths are directories, the encryption key and the CSRF
    key of the gateway are 32 bytes long, and the policy of the gateway
    accepts exactly the [--auth] logins, of which there is at least
    one. *)
Theorem main_listens_on_checked_options
    (sys : System) (o : opts.Options) (addr : string) (s : SSO) :
  main sys o = Listening addr s ->
  flags_Parse sys = None
  /\ opts.UpstreamURL o <> "" /\ opts.AppPublicURL o <> ""
  /\ url_Parse sys (opts.UpstreamURL o) = inr (UpstreamURL s)
  /\ url_Parse sys (opts.APIURL o) = inr (APIURL s)
  /\ url_Parse sys (opts.AppPublicURL o) = inr (AppPublicURL s)
  /\ os_Stat sys (opts.StaticPath o) = inr true
  /\ os_Stat sys (opts.TemplatePath o) = inr true
  /\ length (EncryptionKey s) = 32%nat
  /\ length (CSRFAuthKey s) = 32%nat
  /\ opts.AuthUsers o <> []
  /\ (forall u, Authorized s u = Ok (bool_decide (Login u ∈ opts.AuthUsers o)))
  /\ addr = opts.ListenAddr o.
Proof.
  intros Hmain.
  destruct (main_listening sys o addr s Hmain)
    as (Hf & Hu & Ha & Hpu & Hpa & Hpp & Hs & Ht & Hk & Hc & Hau & Haddr & Hsso).
  repeat (split; [assumption|]).
  rewrite Hsso. cbn [EncryptionKey CSRFAuthKey Authorized].
  rewrite !bytes_of_string_length.
  repeat (split; [assumption|]).
  split; [|exact Haddr].
  intros u. unfold main_Authorized, main_authorized.
  rewrite main_authorized_lookup, lookup_empty.
  destruct (bool_decide (Login u ∈ opts.AuthUsers o)); reflexivity.
Qed.

Lemma main_sample : main sample_system sample_opts = Listening "0.0.0.0:8080" sample_sso.
Proof. reflexivity. Qed.

Lemma main_listens_on_checked_options_witness :
  length (EncryptionKey sample_sso) = 32%nat
  /\ length (CSRFAuthKey sample_sso) = 32%nat
  /\ Authorized sample_sso sample_user = Ok true
  /\ Authorized sample_sso other_user = Ok false.
Proof.
  destruct (main_listens_on_checked_options sample_system sample_opts
              "0.0.0.0:8080" sample_sso main_sample)
    as (_ & _ & _ & _ & _ & _ & _ & _ & Hkey & Hcsrf & _ & Hauth & _).
  split; [exact Hkey|]. split; [exact Hcsrf|].
  split; [exact (Hauth sample_user) | exact (Hauth other_user)].
Defined.

(** X20.  The gateway [main] starts never meets a key size error: with 12
    bytes of entropy [encrypt] succeeds under its key and [decrypt]
    opens what was sealed. *)
Theorem main_key_accepted
    (sys : System) (o : opts.Options) (addr : string) (s : SSO)
    (rand plaintext : bytes) :
  main sys o = Listening addr s ->
  (12 <= length rand)%nat ->
  exists sealed,
    encrypt rand plaintext (EncryptionKey s) = Ok (sealed, take 12 rand)
    /\ decrypt sealed (take 12 rand) (EncryptionKey s) = Ok plaintext.
Proof.
  intros Hmain Hrand.
  destruct (main_listening sys o addr s Hmain)
    as (_ & _ & _ & _ & _ & _ & _ & _ & Hk & _ & _ & _ & Hsso).
  assert (Hkey : length (EncryptionKey s) = 32%nat).
  { rewrite Hsso. cbn [EncryptionKey]. rewrite bytes_of_string_length. exact Hk. }
  destruct (encrypt_decrypt rand plaintext (EncryptionKey s)) as (sealed & He & _ & Hd);
    [auto | exact Hrand |].
  exists sealed. split; assumption.
Qed.

Lemma main_key_accepted_witness :
  exists sealed,
    encrypt (rand_Reader sample_world) (bytes_of_string "session")
            (EncryptionKey sample_sso)
    = Ok (sealed, take 12 (rand_Reader sample_world))
    /\ decrypt sealed (take 12 (rand_Reader sample_world)) (EncryptionKey sample_sso)
       = Ok (bytes_of_string "session").
Proof.
  apply (main_key_accepted sample_system sample_opts "0.0.0.0:8080" sample_sso
           (rand_Reader sample_world) (bytes_of_string "session")).
  - reflexivity.
  - simpl. lia.
Defined.

(** ** domainFromHost, again *)

Lemma first_colon (host : string) :
  no_colon host = true
  \/ exists pre post, no_colon pre = true /\ host = pre +:+ ":" +:+ post.
Proof.
  induction host as [|c host IH]; [left; reflexivity|].
  destruct (decide (c = ":"%char)) as [->|Hc].
  - right. exists "", host. split; reflexivity.
  - destruct IH as [Hno | (pre & post & Hpre & ->)].
    + left. cbn [no_colon]. rewrite (bool_decide_eq_false_2 _ Hc), Hno. reflexivity.
    + right. exists (String c pre), post. split; [|reflexivity].
      cbn [no_colon]. rewrite (bool_decide_eq_false_2 _ Hc), Hpre. reflexivity.
Qed.

(** X21.  [domainFromHost] is idempotent, and unless the host begins with
    a colon its result holds no colon: the domain of the cookies never
    carries a port. *)
Theorem domainFromHost_idempotent (host : string) :
  domainFromHost (domainFromHost host) = domainFromHost host
  /\ ((forall rest, host <> String ":" rest) ->
      no_colon (domainFromHost host) = true).
Proof.
  destruct (first_colon host) as [Hno | (pre & post & Hpre & ->)].
  - rewrite (domainFromHost_no_colon host Hno).
    split; [apply domainFromHost_no_colon, Hno | intros _; exact Hno].
  - rewrite (domainFromHost_cut pre post Hpre).
    destruct pre as [|c pre].
    + rewrite bool_decide_eq_true_2 by reflexivity.
      split.
      * apply (domainFromHost_cut "" post). reflexivity.
      * intros Hstart. exfalso. apply (Hstart post). reflexivity.
    + rewrite bool_decide_eq_false_2 by discriminate.
      split; [apply domainFromHost_no_colon, Hpre | intros _; exact Hpre].
Qed.

Lemma domainFromHost_idempotent_witness :
  domainFromHost (domainFromHost "localhost:8080") = domainFromHost "localhost:8080"
  /\ no_colon (domainFromHost "localhost:8080") = true.
Proof.
  destruct (domainFromHost_idempotent "localhost:8080") as [Hidem Hno].
  split; [exact Hidem|]. apply Hno. discriminate.
Defined.
